(** * meteofrance-api: the rain and snow models

    A shallow embedding of [meteofrance_api/model/rain.py] and
    [meteofrance_api/model/snow.py].

    The development has two layers.

    - The typed layer ([RainData], [SnowData], [Rain], [Snow]) reads the
      wrapped document at the types its [TypedDict] declarations give it:
      one record per [TypedDict], Python [int] as [Z], [str] as [string],
      [List[...]] as [list], the [dict]s and the [set] the queries build as
      [gmap] and [gset].
    - The object layer ([Py], [RainObject], [SnowObject]) runs the same
      methods over a store of Python objects, where a document is whatever
      tree of [dict]s and [list]s the caller handed over, a subscript can
      raise [KeyError] or [TypeError], and an assignment is a write to the
      store.

    [Shape] says when a value of the store holds a typed document, [Load]
    lays one out, and the last section shows that on such a store the
    object layer returns what the typed layer computes. *)

From Stdlib Require Import ZArith QArith.
From stdpp Require Import base option list gmap strings sorting.

Set Default Proof Using "Type".
Set Warnings "-clear-no-such-hyp".

(** ** Python values *)

(** The immutable leaves of a document. A [float] is the rational it
    denotes (the finite ones are all the model covers); a [str] is its
    sequence of characters. *)
Inductive scalar : Type :=
| SNone
| SBool (b : bool)
| SInt (z : Z)
| SFloat (q : Q)
| SStr (s : string).

(** What a [dict] is keyed by: a scalar, or the pair
    [(altitude, exposition)] that [get_fresh_snow] builds. *)
Inductive key : Type :=
| KScalar (s : scalar)
| KTuple (a b : scalar).

(** ** Exceptions and results *)

(** [SystemError] is the model's answer where an interpreter has none: a
    reference to no object of the store, or a method's own local that does
    not hold the container the method has just created. *)
Inductive exn : Type :=
| KeyError (k : key)
| TypeError
| ValueError
| InvalidTimezone (name : string)
| SystemError.

Inductive result (A : Type) : Type :=
| Ok (a : A)
| Raise (e : exn).
Arguments Ok {A} a.
Arguments Raise {A} e.

Definition result_bind {A B : Type} (r : result A) (k : A → result B) : result B :=
  match r with
  | Ok a => k a
  | Raise e => Raise e
  end.

(** ** Time localization *)

(** A timezone-aware [datetime]: the instant in epoch seconds, the zone it
    is expressed in and the offset from UTC, in seconds, that the zone
    observes at that instant. *)
Record datetime : Type := {
  instant : Z;
  utcoffset : Z;
  tzname : string;
}.

(** The wall clock a [datetime] shows, as seconds since the epoch's own
    wall clock. *)
Definition wall_clock (d : datetime) : Z := (instant d + utcoffset d)%Z.

Section Localize.
(** The zone database: for a recognized zone identifier, the offset from
    UTC (in seconds, daylight saving included) in force at each instant. *)
Variable tzdata : string → option (Z → Z).

(** Modelled from the spec: [helpers.timestamp_to_dateime_with_locale_tz]
    is imported by [rain.py] but its module is not part of the sources.
    The spec's TimeLocalizer converts the instant to the zone's local
    wall clock, with the offset in force at that instant, and fails with
    [InvalidTimezone] when the name is not a recognized zone identifier. *)
Definition timestamp_to_dateime_with_locale_tz
    (timestamp : Z) (local_tz : string) : result datetime :=
  match tzdata local_tz with
  | Some offset =>
      Ok {| instant := timestamp; utcoffset := offset timestamp; tzname := local_tz |}
  | None => Raise (InvalidTimezone local_tz)
  end.
End Localize.

(** A small zone database for the examples: the zones with a fixed offset.
    (In the [Etc] area the sign is the POSIX one: [Etc/GMT-1] is one hour
    east of Greenwich.) *)
Definition fixed_zones (name : string) : option (Z → Z) :=
  if decide (name = "UTC") then Some (λ _, 0%Z)
  else if decide (name = "Etc/GMT-1") then Some (λ _, 3600%Z)
  else if decide (name = "Etc/GMT+5") then Some (λ _, (-18000)%Z)
  else None.

(** ** rain.py: the typed documents *)

Module Geometry.
Record t : Type := {
  type : string;
  coordinates : list Q;
}.
End Geometry.

Module ForecastData.
Record t : Type := {
  time : Z;
  rain_intensity : Z;
  rain_intensity_description : string;
}.
End ForecastData.

Module RainPropertiesData.
Record t : Type := {
  altitude : Z;
  name : string;
  country : string;
  french_department : string;
  rain_product_available : Z;
  timezone : string;
  confidence : Z;
  forecast : list ForecastData.t;
}.
End RainPropertiesData.

Module RainData.
Record t : Type := {
  update_time : Z;
  type : string;
  geometry : Geometry.t;
  properties : RainPropertiesData.t;
}.
End RainData.

(** ** rain.py: class [Rain] *)

Module Rain.
Record t : Type := { raw_data : RainData.t }.

Definition __init__ (raw_data : RainData.t) : t := {| raw_data := raw_data |}.

Definition geometry (self : t) : Geometry.t :=
  RainData.geometry (raw_data self).

Definition altitude (self : t) : Z :=
  RainPropertiesData.altitude (RainData.properties (raw_data self)).

Definition location_name (self : t) : string :=
  RainPropertiesData.name (RainData.properties (raw_data self)).

Definition country (self : t) : string :=
  RainPropertiesData.country (RainData.properties (raw_data self)).

Definition french_department (self : t) : string :=
  RainPropertiesData.french_department (RainData.properties (raw_data self)).

Definition rain_product_available (self : t) : Z :=
  RainPropertiesData.rain_product_available (RainData.properties (raw_data self)).

Definition timezone (self : t) : string :=
  RainPropertiesData.timezone (RainData.properties (raw_data self)).

Definition confidence (self : t) : Z :=
  RainPropertiesData.confidence (RainData.properties (raw_data self)).

Definition forecasts (self : t) : list ForecastData.t :=
  RainPropertiesData.forecast (RainData.properties (raw_data self)).

Section Methods.
Variable tzdata : string → option (Z → Z).

Definition timestamp_to_locale_time (self : t) (timestamp : Z) : result datetime :=
  timestamp_to_dateime_with_locale_tz tzdata timestamp (timezone self).

Definition update_time (self : t) : result datetime :=
  timestamp_to_locale_time self (RainData.update_time (raw_data self)).

(** The [for] loop of [next_rain_date_locale]: each entry's time is
    localized first, its intensity tested second; [int(...)] is the
    identity on an [int]. *)
Fixpoint next_rain_loop (self : t) (forecasts : list ForecastData.t)
    : result (option datetime) :=
  match forecasts with
  | [] => Ok None
  | forecast :: rest =>
      result_bind (timestamp_to_locale_time self (ForecastData.time forecast))
        (λ forecast_time,
           if (1 <? ForecastData.rain_intensity forecast)%Z
           then Ok (Some forecast_time)
           else next_rain_loop self rest)
  end.

Definition next_rain_date_locale (self : t) : result (option datetime) :=
  next_rain_loop self (forecasts self).
End Methods.
End Rain.

(** ** snow.py: the typed documents *)

Module Location.
Record t : Type := {
  location_type : string;
  value : string;
}.
End Location.

Module AvalancheRiskPerLocation.
Record t : Type := {
  avalanche_risk : Z;
  risk_evolution : option string;
  location : Location.t;
}.
End AvalancheRiskPerLocation.

Module MassifAvalancheRisk.
Record t : Type := {
  description : string;
  avalanche_risk_max : Z;
  time : string;
  dangerous_exposition : list string;
  avalanche_risk_per_location : list AvalancheRiskPerLocation.t;
}.
End MassifAvalancheRisk.

Module SnowDepth.
Record t : Type := {
  altitude : Z;
  date : string;
  value : Z;
}.
End SnowDepth.

Module FreshSnowPerExposition.
Record t : Type := {
  time : string;
  exposition : string;
  fresh_snow_depth : list SnowDepth.t;
}.
End FreshSnowPerExposition.

Module TotalSnowPerExposition.
Record t : Type := {
  time : string;
  exposition : string;
  snow_limit : Z;
  total_snow_depth : list SnowDepth.t;
}.
End TotalSnowPerExposition.

Module SnowPropertiesData.
Record t : Type := {
  massif_name : string;
  massif_altitude_min : Z;
  massif_altitude_max : Z;
  massif_avalanche_risk : MassifAvalancheRisk.t;
  fresh_snow_per_exposition : list FreshSnowPerExposition.t;
  avalanche_report : string;
  total_snow_per_exposition : list TotalSnowPerExposition.t;
}.
End SnowPropertiesData.

Module SnowData.
Record t : Type := {
  type : string;
  update_time : string;
  properties : SnowPropertiesData.t;
}.
End SnowData.

(** ** snow.py: class [Snow] *)

(** Python's [sorted] on a [set] of [int]: a stable ascending sort of the
    set's elements, whatever order the set yields them in. *)
Definition sorted (s : gset Z) : list Z := merge_sort Z.le (elements s).

Module Snow.
Record t : Type := { raw_data : SnowData.t }.

Definition __init__ (raw_data : SnowData.t) : t := {| raw_data := raw_data |}.

Definition get_massif_name (self : t) : string :=
  SnowPropertiesData.massif_name (SnowData.properties (raw_data self)).

Definition get_max_avalanche_risk (self : t) : Z :=
  MassifAvalancheRisk.avalanche_risk_max
    (SnowPropertiesData.massif_avalanche_risk (SnowData.properties (raw_data self))).

(** The inner loop of [get_snow_depth_at_altitude], over one
    exposition's depth records: [Some v] is [return v]. *)
Fixpoint depth_loop (altitude : Z) (depths : list SnowDepth.t) : option Z :=
  match depths with
  | [] => None
  | depth :: rest =>
      if (SnowDepth.altitude depth =? altitude)%Z
      then Some (SnowDepth.value depth)
      else depth_loop altitude rest
  end.

(** The outer loop, over the expositions. *)
Fixpoint exposition_loop (altitude : Z) (infos : list TotalSnowPerExposition.t)
    : option Z :=
  match infos with
  | [] => None
  | snow_depth_info :: rest =>
      match depth_loop altitude (TotalSnowPerExposition.total_snow_depth snow_depth_info) with
      | Some v => Some v
      | None => exposition_loop altitude rest
      end
  end.

Definition get_snow_depth_at_altitude (self : t) (altitude : Z) : option Z :=
  exposition_loop altitude
    (SnowPropertiesData.total_snow_per_exposition (SnowData.properties (raw_data self))).

Definition get_available_altitudes (self : t) : list Z :=
  let altitudes : gset Z :=
    foldl (λ altitudes exposition,
             foldl (λ altitudes depth_info, altitudes ∪ {[SnowDepth.altitude depth_info]})
                   altitudes (TotalSnowPerExposition.total_snow_depth exposition))
          ∅
          (SnowPropertiesData.total_snow_per_exposition (SnowData.properties (raw_data self))) in
  sorted altitudes.

Fixpoint risk_loop (location_value : string) (risks : list AvalancheRiskPerLocation.t)
    : option Z :=
  match risks with
  | [] => None
  | risk :: rest =>
      if decide (Location.value (AvalancheRiskPerLocation.location risk) = location_value)
      then Some (AvalancheRiskPerLocation.avalanche_risk risk)
      else risk_loop location_value rest
  end.

Definition get_avalanche_risk_by_location_value (self : t) (location_value : string)
    : option Z :=
  let risks :=
    MassifAvalancheRisk.avalanche_risk_per_location
      (SnowPropertiesData.massif_avalanche_risk (SnowData.properties (raw_data self))) in
  risk_loop location_value risks.

(** One element of the list [get_snow_depths] returns: a [dict] with the
    three keys below. *)
Record snow_depth_entry : Type := {
  exposition : string;
  altitude : Z;
  total_snow_depth : Z;
}.

Definition get_snow_depths (self : t) : list snow_depth_entry :=
  foldl (λ snow_depth_list exposition_data,
           let exposition := TotalSnowPerExposition.exposition exposition_data in
           foldl (λ snow_depth_list depth_data,
                    snow_depth_list ++
                      [{| exposition := exposition;
                          altitude := SnowDepth.altitude depth_data;
                          total_snow_depth := SnowDepth.value depth_data |}])
                 snow_depth_list (TotalSnowPerExposition.total_snow_depth exposition_data))
        []
        (SnowPropertiesData.total_snow_per_exposition (SnowData.properties (raw_data self))).

Definition get_snow_limits (self : t) : gmap string Z :=
  foldl (λ snow_limits exposition_data,
           let exposition := TotalSnowPerExposition.exposition exposition_data in
           let snow_limit := TotalSnowPerExposition.snow_limit exposition_data in
           <[exposition := snow_limit]> snow_limits)
        ∅
        (SnowPropertiesData.total_snow_per_exposition (SnowData.properties (raw_data self))).

Definition get_avalanche_risks (self : t) : gmap string Z :=
  let risks :=
    MassifAvalancheRisk.avalanche_risk_per_location
      (SnowPropertiesData.massif_avalanche_risk (SnowData.properties (raw_data self))) in
  foldl (λ risks_map risk,
           let location_value := Location.value (AvalancheRiskPerLocation.location risk) in
           <[location_value := AvalancheRiskPerLocation.avalanche_risk risk]> risks_map)
        ∅ risks.

(** The body of the inner loop of [get_fresh_snow]: the [date] entry is
    created empty when missing, then the [(altitude, exposition)] slot of
    the dictionary stored under [date] is assigned. *)
Definition fresh_snow_step (exposition : string)
    (fresh_snow_map : gmap string (gmap (Z * string) Z)) (snow_depth : SnowDepth.t)
    : gmap string (gmap (Z * string) Z) :=
  let date := SnowDepth.date snow_depth in
  let altitude := SnowDepth.altitude snow_depth in
  let value := SnowDepth.value snow_depth in
  let fresh_snow_map :=
    if decide (fresh_snow_map !! date = None)
    then <[date := ∅]> fresh_snow_map
    else fresh_snow_map in
  <[date := <[(altitude, exposition) := value]> (default ∅ (fresh_snow_map !! date))]>
    fresh_snow_map.

Definition get_fresh_snow (self : t) : gmap string (gmap (Z * string) Z) :=
  let fresh_snow_data :=
    SnowPropertiesData.fresh_snow_per_exposition (SnowData.properties (raw_data self)) in
  foldl (λ fresh_snow_map exposition_data,
           let exposition := FreshSnowPerExposition.exposition exposition_data in
           foldl (fresh_snow_step exposition) fresh_snow_map
                 (FreshSnowPerExposition.fresh_snow_depth exposition_data))
        ∅ fresh_snow_data.
End Snow.

(** The number of leaf values of a two-level mapping. *)
Definition leaf_count {K1 K2 V : Type} `{Countable K1, Countable K2}
    (m : gmap K1 (gmap K2 V)) : nat :=
  sum_list ((λ kv, size kv.2) <$> map_to_list m).

(** ** The object layer: a store of Python objects *)

Module Py.
(** A location of the store is a position in its list of containers. *)
Abbreviation loc := nat.

(** What a [dict] or a [list] holds, and what a subscript returns: a
    scalar or a reference to a container of the store. *)
Inductive val : Type :=
| VScalar (s : scalar)
| VRef (l : loc).

(** What a [for] loop binds: a value, or a tuple when the loop runs
    over the keys of a [dict] keyed by tuples. *)
Inductive item : Type :=
| IVal (v : val)
| ITuple (a b : scalar).

(** The mutable containers. A [dict] keeps its items in insertion order;
    a [set] holds scalars, the only elements this program adds to one. *)
Inductive obj : Type :=
| ODict (items : list (key * val))
| OList (elems : list val)
| OSet (elems : list scalar).

(** The store: the containers, addressed by position, and beside them
    the wrapper instances, each one its [raw_data] attribute. *)
Record state : Type := {
  objects : list obj;
  wrappers : list val;
}.

(** *** Comparison and hashing of scalars *)

(** [bool], [int] and [float] compare by numeric value. *)
Definition number (s : scalar) : option Q :=
  match s with
  | SBool b => Some (if b then 1%Q else 0%Q)
  | SInt z => Some (inject_Z z)
  | SFloat q => Some q
  | SNone | SStr _ => None
  end.

(** [a == b] *)
Definition scalar_eqb (a b : scalar) : bool :=
  match a, b with
  | SNone, SNone => true
  | SStr s, SStr t => bool_decide (s = t)
  | _, _ =>
      match number a, number b with
      | Some x, Some y => Qeq_bool x y
      | _, _ => false
      end
  end.

Definition key_eqb (j k : key) : bool :=
  match j, k with
  | KScalar a, KScalar b => scalar_eqb a b
  | KTuple a1 a2, KTuple b1 b2 => scalar_eqb a1 b1 && scalar_eqb a2 b2
  | _, _ => false
  end.

(** [a <= b], where Python orders the two at all. *)
Definition scalar_leb (a b : scalar) : bool :=
  match a, b with
  | SStr s, SStr t => String.leb s t
  | _, _ =>
      match number a, number b with
      | Some x, Some y => Qle_bool x y
      | _, _ => false
      end
  end.

Definition is_number (s : scalar) : bool := bool_decide (is_Some (number s)).
Definition is_str (s : scalar) : bool :=
  match s with SStr _ => true | _ => false end.

(** [sorted] on the elements of a set (pairwise distinct under [==]):
    with two elements or more, every element is compared with another,
    and [<] raises [TypeError] unless both are numbers or both [str]. *)
Definition sort_scalars (elems : list scalar) : option (list scalar) :=
  if decide (length elems ≤ 1) then Some elems
  else if forallb is_number elems || forallb is_str elems
       then Some (merge_sort (λ a b, Is_true (scalar_leb a b)) elems)
       else None.

(** *** Dictionaries and sets as data *)

Fixpoint dict_get (k : key) (items : list (key * val)) : option val :=
  match items with
  | [] => None
  | (j, v) :: rest => if key_eqb j k then Some v else dict_get k rest
  end.

(** [d[k] = v]: an existing key keeps its place and its key object. *)
Fixpoint dict_set (k : key) (v : val) (items : list (key * val)) : list (key * val) :=
  match items with
  | [] => [(k, v)]
  | (j, w) :: rest =>
      if key_eqb j k then (j, v) :: rest else (j, w) :: dict_set k v rest
  end.

Fixpoint set_insert (x : scalar) (elems : list scalar) : list scalar :=
  match elems with
  | [] => [x]
  | y :: rest => if scalar_eqb y x then y :: rest else y :: set_insert x rest
  end.

Definition item_of_key (k : key) : item :=
  match k with
  | KScalar s => IVal (VScalar s)
  | KTuple a b => ITuple a b
  end.

(** *** The monad of store-passing computations

    A computation returns a value or raises, and leaves a store in both
    cases: what was written before an exception stays written. *)
Definition M (A : Type) : Type := state → result A * state.

#[global] Instance M_ret : MRet M := λ A a σ, (Ok a, σ).

#[global] Instance M_bind : MBind M := λ A B k m σ,
  match m σ with
  | (Ok a, σ') => k a σ'
  | (Raise e, σ') => (Raise e, σ')
  end.

#[global] Instance M_fmap : FMap M := λ A B f m, a ← m; mret (f a).

Definition raise {A : Type} (e : exn) : M A := λ σ, (Raise e, σ).

Definition load (l : loc) : M obj := λ σ,
  match objects σ !! l with
  | Some o => (Ok o, σ)
  | None => (Raise SystemError, σ)
  end.

Definition alloc (o : obj) : M val := λ σ,
  (Ok (VRef (length (objects σ))),
   {| objects := objects σ ++ [o]; wrappers := wrappers σ |}).

Definition store (l : loc) (o : obj) : M unit := λ σ,
  (Ok (), {| objects := <[l := o]> (objects σ); wrappers := wrappers σ |}).

(** *** Operations on the values a method reads *)

(** [c[k]] for a [str] literal [k]: only a [dict] takes such a key. *)
Definition subscript (c : val) (k : string) : M val :=
  match c with
  | VScalar _ => raise TypeError
  | VRef l =>
      o ← load l;
      match o with
      | ODict items =>
          match dict_get (KScalar (SStr k)) items with
          | Some v => mret v
          | None => raise (KeyError (KScalar (SStr k)))
          end
      | OList _ | OSet _ => raise TypeError
      end
  end.

Definition item_subscript (i : item) (k : string) : M val :=
  match i with
  | IVal v => subscript v k
  | ITuple _ _ => raise TypeError
  end.

(** The elements a [for] loop over [c] binds in turn. No loop body of
    this program writes to the container its loop runs over, so the
    loop's view of the container is the one it starts with. *)
Definition iterate (c : val) : M (list item) :=
  match c with
  | VScalar (SStr s) =>
      mret ((λ a, IVal (VScalar (SStr (String a EmptyString)))) <$> String.list_ascii_of_string s)
  | VScalar _ => raise TypeError
  | VRef l =>
      o ← load l;
      match o with
      | ODict items => mret (item_of_key <$> items.*1)
      | OList elems => mret (IVal <$> elems)
      | OSet elems => mret ((λ s, IVal (VScalar s)) <$> elems)
      end
  end.

(** [hash(v)]: the containers are unhashable. *)
Definition hashable (v : val) : M scalar :=
  match v with
  | VScalar s => mret s
  | VRef l => _ ← load l; raise TypeError
  end.

(** [v == n] for an [int] [n]: never raises; a container is not equal
    to a number. *)
Definition eq_int (v : val) (n : Z) : bool :=
  match v with
  | VScalar s => scalar_eqb s (SInt n)
  | VRef _ => false
  end.

(** [v == s] for a [str] [s]. *)
Definition eq_str (v : val) (s : string) : bool :=
  match v with
  | VScalar x => scalar_eqb x (SStr s)
  | VRef _ => false
  end.

(** [v > n] for an [int] [n]. *)
Definition gt_int (v : val) (n : Z) : M bool :=
  match v with
  | VScalar s =>
      match number s with
      | Some x => mret (negb (Qle_bool x (inject_Z n)))
      | None => raise TypeError
      end
  | VRef l => _ ← load l; raise TypeError
  end.

Section Builtins.
(** Python's [int] on a [str]: the integer a decimal literal denotes,
    [None] where [int] raises [ValueError]. *)
Variable int_of_str : string → option Z.

(** [int(v)]: a [float] is truncated toward zero. *)
Definition int (v : val) : M Z :=
  match v with
  | VScalar SNone => raise TypeError
  | VScalar (SBool b) => mret (if b then 1 else 0)%Z
  | VScalar (SInt z) => mret z
  | VScalar (SFloat q) => mret (Z.quot (Qnum q) (Z.pos (Qden q)))
  | VScalar (SStr s) =>
      match int_of_str s with
      | Some z => mret z
      | None => raise ValueError
      end
  | VRef l => _ ← load l; raise TypeError
  end.
End Builtins.

(** *** Operations on the containers a method creates

    Each takes the local that holds the container; the local refers to
    what the method has just created, and any other case is
    [SystemError]. *)

Definition dict_contains (d : val) (k : scalar) : M bool :=
  match d with
  | VRef l =>
      o ← load l;
      match o with
      | ODict items => mret (bool_decide (is_Some (dict_get (KScalar k) items)))
      | _ => raise SystemError
      end
  | VScalar _ => raise SystemError
  end.

Definition dict_getitem (d : val) (k : scalar) : M val :=
  match d with
  | VRef l =>
      o ← load l;
      match o with
      | ODict items =>
          match dict_get (KScalar k) items with
          | Some v => mret v
          | None => raise (KeyError (KScalar k))
          end
      | _ => raise SystemError
      end
  | VScalar _ => raise SystemError
  end.

Definition dict_setitem (d : val) (k : key) (v : val) : M unit :=
  match d with
  | VRef l =>
      o ← load l;
      match o with
      | ODict items => store l (ODict (dict_set k v items))
      | _ => raise SystemError
      end
  | VScalar _ => raise SystemError
  end.

Definition set_add (s : val) (x : scalar) : M unit :=
  match s with
  | VRef l =>
      o ← load l;
      match o with
      | OSet elems => store l (OSet (set_insert x elems))
      | _ => raise SystemError
      end
  | VScalar _ => raise SystemError
  end.

Definition list_append (xs : val) (x : val) : M unit :=
  match xs with
  | VRef l =>
      o ← load l;
      match o with
      | OList elems => store l (OList (elems ++ [x]))
      | _ => raise SystemError
      end
  | VScalar _ => raise SystemError
  end.

(** [sorted(s)] returns a new list. *)
Definition sorted (s : val) : M val :=
  match s with
  | VRef l =>
      o ← load l;
      match o with
      | OSet elems =>
          match sort_scalars elems with
          | Some xs => alloc (OList (VScalar <$> xs))
          | None => raise TypeError
          end
      | _ => raise SystemError
      end
  | VScalar _ => raise SystemError
  end.

(** *** Loops *)

(** A [for] loop whose body may [return]: [Some b] is [return b]. *)
Fixpoint for_return {A B : Type} (xs : list A) (body : A → M (option B))
    : M (option B) :=
  match xs with
  | [] => mret None
  | x :: rest =>
      r ← body x;
      match r with
      | Some b => mret (Some b)
      | None => for_return rest body
      end
  end.

Fixpoint for_each {A : Type} (xs : list A) (body : A → M unit) : M unit :=
  match xs with
  | [] => mret ()
  | x :: rest => _ ← body x; for_each rest body
  end.

(** *** The wrapper instances *)

(** [self.raw_data] *)
Definition raw_data (self : nat) : M val := λ σ,
  match wrappers σ !! self with
  | Some v => (Ok v, σ)
  | None => (Raise SystemError, σ)
  end.

(** [__init__] of both classes: [self.raw_data = raw_data], nothing
    else. The new instance is returned. *)
Definition __init__ (raw_data : val) : M nat := λ σ,
  (Ok (length (wrappers σ)),
   {| objects := objects σ; wrappers := wrappers σ ++ [raw_data] |}).
End Py.

(** ** rain.py over the store *)

Module RainObject.
Import Py.

Definition geometry (self : nat) : M val :=
  d ← raw_data self; subscript d "geometry".

Definition altitude (self : nat) : M val :=
  d ← raw_data self; p ← subscript d "properties"; subscript p "altitude".

Definition location_name (self : nat) : M val :=
  d ← raw_data self; p ← subscript d "properties"; subscript p "name".

Definition country (self : nat) : M val :=
  d ← raw_data self; p ← subscript d "properties"; subscript p "country".

Definition french_department (self : nat) : M val :=
  d ← raw_data self; p ← subscript d "properties"; subscript p "french_department".

Definition rain_product_available (self : nat) : M val :=
  d ← raw_data self; p ← subscript d "properties"; subscript p "rain_product_available".

Definition timezone (self : nat) : M val :=
  d ← raw_data self; p ← subscript d "properties"; subscript p "timezone".

Definition confidence (self : nat) : M val :=
  d ← raw_data self; p ← subscript d "properties"; subscript p "confidence".

Definition forecasts (self : nat) : M val :=
  d ← raw_data self; p ← subscript d "properties"; subscript p "forecast".

Section Methods.
Variable tzdata : string → option (Z → Z).
Variable int_of_str : string → option Z.

(** Modelled from the spec: the call of
    [helpers.timestamp_to_dateime_with_locale_tz], absent from the
    sources, on values of the store. The spec's contract is an integer
    timestamp and a string zone name; outside it the model raises
    [TypeError]. *)
Definition localize (timestamp local_tz : val) : M datetime :=
  match timestamp, local_tz with
  | VScalar (SInt ts), VScalar (SStr name) =>
      match timestamp_to_dateime_with_locale_tz tzdata ts name with
      | Ok d => mret d
      | Raise e => raise e
      end
  | _, _ => raise TypeError
  end.

Definition timestamp_to_locale_time (self : nat) (timestamp : val) : M datetime :=
  tz ← timezone self; localize timestamp tz.

Definition update_time (self : nat) : M datetime :=
  d ← raw_data self;
  timestamp ← subscript d "update_time";
  timestamp_to_locale_time self timestamp.

Definition next_rain_date_locale (self : nat) : M (option datetime) :=
  fs ← forecasts self;
  entries ← iterate fs;
  for_return entries (λ forecast,
    t ← item_subscript forecast "time";
    n ← int int_of_str t;
    forecast_time ← timestamp_to_locale_time self (VScalar (SInt n));
    r ← item_subscript forecast "rain_intensity";
    rainy ← gt_int r 1;
    if rainy : bool then mret (Some forecast_time) else mret None).
End Methods.
End RainObject.

(** ** snow.py over the store *)

Module SnowObject.
Import Py.

Definition get_massif_name (self : nat) : M val :=
  d ← raw_data self; p ← subscript d "properties"; subscript p "massif_name".

Definition get_max_avalanche_risk (self : nat) : M val :=
  d ← raw_data self;
  p ← subscript d "properties";
  r ← subscript p "massif_avalanche_risk";
  subscript r "avalanche_risk_max".

(** [None], the value of a function that falls off its loops. *)
Definition or_None (r : option val) : val := default (VScalar SNone) r.

Definition get_snow_depth_at_altitude (self : nat) (altitude : Z) : M val :=
  d ← raw_data self;
  p ← subscript d "properties";
  total ← subscript p "total_snow_per_exposition";
  infos ← iterate total;
  or_None <$> for_return infos (λ snow_depth_info,
    depths ← item_subscript snow_depth_info "total_snow_depth";
    depths ← iterate depths;
    for_return depths (λ depth,
      a ← item_subscript depth "altitude";
      if eq_int a altitude
      then v ← item_subscript depth "value"; mret (Some v)
      else mret None)).

Definition get_available_altitudes (self : nat) : M val :=
  altitudes ← alloc (OSet []);
  d ← raw_data self;
  p ← subscript d "properties";
  total ← subscript p "total_snow_per_exposition";
  expositions ← iterate total;
  for_each expositions (λ exposition,
    depths ← item_subscript exposition "total_snow_depth";
    depths ← iterate depths;
    for_each depths (λ depth_info,
      a ← item_subscript depth_info "altitude";
      a ← hashable a;
      set_add altitudes a));;
  sorted altitudes.

Definition get_avalanche_risk_by_location_value (self : nat) (location_value : string)
    : M val :=
  d ← raw_data self;
  p ← subscript d "properties";
  m ← subscript p "massif_avalanche_risk";
  risks ← subscript m "avalanche_risk_per_location";
  risks ← iterate risks;
  or_None <$> for_return risks (λ risk,
    l ← item_subscript risk "location";
    v ← subscript l "value";
    if eq_str v location_value
    then r ← item_subscript risk "avalanche_risk"; mret (Some r)
    else mret None).

Definition get_snow_depths (self : nat) : M val :=
  snow_depth_list ← alloc (OList []);
  d ← raw_data self;
  p ← subscript d "properties";
  total ← subscript p "total_snow_per_exposition";
  expositions ← iterate total;
  for_each expositions (λ exposition_data,
    exposition ← item_subscript exposition_data "exposition";
    depths ← item_subscript exposition_data "total_snow_depth";
    depths ← iterate depths;
    for_each depths (λ depth_data,
      a ← item_subscript depth_data "altitude";
      v ← item_subscript depth_data "value";
      entry ← alloc (ODict [(KScalar (SStr "exposition"), exposition);
                            (KScalar (SStr "altitude"), a);
                            (KScalar (SStr "total_snow_depth"), v)]);
      list_append snow_depth_list entry));;
  mret snow_depth_list.

Definition get_snow_limits (self : nat) : M val :=
  snow_limits ← alloc (ODict []);
  d ← raw_data self;
  p ← subscript d "properties";
  total ← subscript p "total_snow_per_exposition";
  expositions ← iterate total;
  for_each expositions (λ exposition_data,
    exposition ← item_subscript exposition_data "exposition";
    snow_limit ← item_subscript exposition_data "snow_limit";
    k ← hashable exposition;
    dict_setitem snow_limits (KScalar k) snow_limit);;
  mret snow_limits.

Definition get_avalanche_risks (self : nat) : M val :=
  risks_map ← alloc (ODict []);
  d ← raw_data self;
  p ← subscript d "properties";
  m ← subscript p "massif_avalanche_risk";
  risks ← subscript m "avalanche_risk_per_location";
  risks ← iterate risks;
  for_each risks (λ risk,
    l ← item_subscript risk "location";
    location_value ← subscript l "value";
    r ← item_subscript risk "avalanche_risk";
    k ← hashable location_value;
    dict_setitem risks_map (KScalar k) r);;
  mret risks_map.

Definition get_fresh_snow (self : nat) : M val :=
  fresh_snow_map ← alloc (ODict []);
  d ← raw_data self;
  p ← subscript d "properties";
  fresh_snow_data ← subscript p "fresh_snow_per_exposition";
  fresh_snow_data ← iterate fresh_snow_data;
  for_each fresh_snow_data (λ exposition_data,
    exposition ← item_subscript exposition_data "exposition";
    depths ← item_subscript exposition_data "fresh_snow_depth";
    depths ← iterate depths;
    for_each depths (λ snow_depth,
      date ← item_subscript snow_depth "date";
      altitude ← item_subscript snow_depth "altitude";
      value ← item_subscript snow_depth "value";
      date ← hashable date;
      present ← dict_contains fresh_snow_map date;
      (if present : bool then mret ()
       else new ← alloc (ODict []); dict_setitem fresh_snow_map (KScalar date) new);;
      inner ← dict_getitem fresh_snow_map date;
      a ← hashable altitude;
      e ← hashable exposition;
      dict_setitem inner (KTuple a e) value));;
  mret fresh_snow_map.
End SnowObject.

(** ** Typed documents in the store

    What it is for a value of the store to hold a document of the typed
    layer: every [TypedDict] is a [dict] with, under each declared key, a
    value of the declared type (the [dict] may have other keys too), an
    [int] or a [str] is the scalar itself, a [List] is a [list] of the
    store. *)

Module Shape.
Import Py.

Definition int_at (z : Z) (v : val) : Prop := v = VScalar (SInt z).
Definition str_at (s : string) (v : val) : Prop := v = VScalar (SStr s).
Definition float_at (q : Q) (v : val) : Prop := v = VScalar (SFloat q).

(** [Union[None, str]] *)
Definition optional_str_at (s : option string) (v : val) : Prop :=
  v = VScalar (from_option SStr SNone s).

Definition dict_at (σ : state) (fields : list (string * (val → Prop))) (v : val) : Prop :=
  ∃ l items,
    v = VRef l
    ∧ objects σ !! l = Some (ODict items)
    ∧ Forall (λ field, ∃ w, dict_get (KScalar (SStr field.1)) items = Some w ∧ field.2 w)
             fields.

Definition list_at {A : Type} (σ : state) (elem_at : A → val → Prop) (xs : list A)
    (v : val) : Prop :=
  ∃ l elems,
    v = VRef l ∧ objects σ !! l = Some (OList elems) ∧ Forall2 elem_at xs elems.

Definition geometry (σ : state) (g : Geometry.t) : val → Prop :=
  dict_at σ [("type", str_at (Geometry.type g));
             ("coordinates", list_at σ float_at (Geometry.coordinates g))].

Definition forecast_data (σ : state) (f : ForecastData.t) : val → Prop :=
  dict_at σ [("time", int_at (ForecastData.time f));
             ("rain_intensity", int_at (ForecastData.rain_intensity f));
             ("rain_intensity_description",
              str_at (ForecastData.rain_intensity_description f))].

Definition rain_properties_data (σ : state) (p : RainPropertiesData.t) : val → Prop :=
  dict_at σ [("altitude", int_at (RainPropertiesData.altitude p));
             ("name", str_at (RainPropertiesData.name p));
             ("country", str_at (RainPropertiesData.country p));
             ("french_department", str_at (RainPropertiesData.french_department p));
             ("rain_product_available", int_at (RainPropertiesData.rain_product_available p));
             ("timezone", str_at (RainPropertiesData.timezone p));
             ("confidence", int_at (RainPropertiesData.confidence p));
             ("forecast", list_at σ (forecast_data σ) (RainPropertiesData.forecast p))].

Definition rain_data (σ : state) (d : RainData.t) : val → Prop :=
  dict_at σ [("update_time", int_at (RainData.update_time d));
             ("type", str_at (RainData.type d));
             ("geometry", geometry σ (RainData.geometry d));
             ("properties", rain_properties_data σ (RainData.properties d))].

Definition location (σ : state) (l : Location.t) : val → Prop :=
  dict_at σ [("location_type", str_at (Location.location_type l));
             ("value", str_at (Location.value l))].

Definition avalanche_risk_per_location (σ : state) (r : AvalancheRiskPerLocation.t)
    : val → Prop :=
  dict_at σ [("avalanche_risk", int_at (AvalancheRiskPerLocation.avalanche_risk r));
             ("risk_evolution", optional_str_at (AvalancheRiskPerLocation.risk_evolution r));
             ("location", location σ (AvalancheRiskPerLocation.location r))].

Definition massif_avalanche_risk (σ : state) (m : MassifAvalancheRisk.t) : val → Prop :=
  dict_at σ [("description", str_at (MassifAvalancheRisk.description m));
             ("avalanche_risk_max", int_at (MassifAvalancheRisk.avalanche_risk_max m));
             ("time", str_at (MassifAvalancheRisk.time m));
             ("dangerous_exposition",
              list_at σ str_at (MassifAvalancheRisk.dangerous_exposition m));
             ("avalanche_risk_per_location",
              list_at σ (avalanche_risk_per_location σ)
                (MassifAvalancheRisk.avalanche_risk_per_location m))].

Definition snow_depth (σ : state) (d : SnowDepth.t) : val → Prop :=
  dict_at σ [("altitude", int_at (SnowDepth.altitude d));
             ("date", str_at (SnowDepth.date d));
             ("value", int_at (SnowDepth.value d))].

Definition fresh_snow_per_exposition (σ : state) (f : FreshSnowPerExposition.t)
    : val → Prop :=
  dict_at σ [("time", str_at (FreshSnowPerExposition.time f));
             ("exposition", str_at (FreshSnowPerExposition.exposition f));
             ("fresh_snow_depth",
              list_at σ (snow_depth σ) (FreshSnowPerExposition.fresh_snow_depth f))].

Definition total_snow_per_exposition (σ : state) (t : TotalSnowPerExposition.t)
    : val → Prop :=
  dict_at σ [("time", str_at (TotalSnowPerExposition.time t));
             ("exposition", str_at (TotalSnowPerExposition.exposition t));
             ("snow_limit", int_at (TotalSnowPerExposition.snow_limit t));
             ("total_snow_depth",
              list_at σ (snow_depth σ) (TotalSnowPerExposition.total_snow_depth t))].

Definition snow_properties_data (σ : state) (p : SnowPropertiesData.t) : val → Prop :=
  dict_at σ [("massif_name", str_at (SnowPropertiesData.massif_name p));
             ("massif_altitude_min", int_at (SnowPropertiesData.massif_altitude_min p));
             ("massif_altitude_max", int_at (SnowPropertiesData.massif_altitude_max p));
             ("massif_avalanche_risk",
              massif_avalanche_risk σ (SnowPropertiesData.massif_avalanche_risk p));
             ("fresh_snow_per_exposition",
              list_at σ (fresh_snow_per_exposition σ)
                (SnowPropertiesData.fresh_snow_per_exposition p));
             ("avalanche_report", str_at (SnowPropertiesData.avalanche_report p));
             ("total_snow_per_exposition",
              list_at σ (total_snow_per_exposition σ)
                (SnowPropertiesData.total_snow_per_exposition p))].

Definition snow_data (σ : state) (d : SnowData.t) : val → Prop :=
  dict_at σ [("type", str_at (SnowData.type d));
             ("update_time", str_at (SnowData.update_time d));
             ("properties", snow_properties_data σ (SnowData.properties d))].

(** What the typed queries return, as values of the store. *)
Definition optional_int (r : option Z) : val := VScalar (from_option SInt SNone r).
End Shape.

(** ** What the queries build in the store

    A query that returns a container allocates it: the store grows by the
    new objects, and the result is a reference into the grown part. *)

Module Built.
Import Py.

(** The store [σ] followed by the objects [ext]. *)
Definition grown (σ : state) (ext : list obj) : state :=
  {| objects := objects σ ++ ext; wrappers := wrappers σ |}.

(** A [dict] of the store whose keys are all [str], read as a map. *)
Definition str_keyed (items : list (key * val)) : Prop :=
  Forall (λ kv, ∃ s, kv.1 = KScalar (SStr s)) items.

Definition int_map (m : gmap string Z) (items : list (key * val)) : Prop :=
  str_keyed items
  ∧ ∀ k, dict_get (KScalar (SStr k)) items = (VScalar ∘ SInt) <$> (m !! k).

(** The [list] of [get_snow_depths]: at location [n], followed by one
    [dict] per entry, in order. *)
Definition entry_dict (e : Snow.snow_depth_entry) : obj :=
  ODict [(KScalar (SStr "exposition"), VScalar (SStr (Snow.exposition e)));
         (KScalar (SStr "altitude"), VScalar (SInt (Snow.altitude e)));
         (KScalar (SStr "total_snow_depth"), VScalar (SInt (Snow.total_snow_depth e)))].

Definition refs_from (n k : nat) : list val := VRef <$> seq n k.

Definition snow_depth_objects (n : nat) (entries : list Snow.snow_depth_entry) : list obj :=
  OList (refs_from (S n) (length entries)) :: (entry_dict <$> entries).

(** The [dict]s of [get_fresh_snow]: the outer one at location [n], keyed
    by date, followed by the inner ones, keyed by (altitude, exposition).
    Every date owns an inner [dict] of its own. *)
Definition slot_keyed (items : list (key * val)) : Prop :=
  Forall (λ kv, ∃ a e, kv.1 = KTuple (SInt a) (SStr e)) items.

Definition slot_map (m : gmap (Z * string) Z) (items : list (key * val)) : Prop :=
  slot_keyed items
  ∧ ∀ a e, dict_get (KTuple (SInt a) (SStr e)) items = (VScalar ∘ SInt) <$> (m !! (a, e)).

Definition fresh_snow_index (n : nat) (m : gmap string (gmap (Z * string) Z))
    (outer : list (key * val)) (inners : list (list (key * val))) : Prop :=
  str_keyed outer
  ∧ (∀ date,
       match m !! date with
       | Some slots =>
           ∃ i items,
             dict_get (KScalar (SStr date)) outer = Some (VRef (S n + i))
             ∧ inners !! i = Some items
             ∧ slot_map slots items
       | None => dict_get (KScalar (SStr date)) outer = None
       end)
  ∧ (∀ d1 d2 i,
       dict_get (KScalar (SStr d1)) outer = Some (VRef (S n + i)) →
       dict_get (KScalar (SStr d2)) outer = Some (VRef (S n + i)) →
       d1 = d2).

Definition fresh_snow_objects (outer : list (key * val)) (inners : list (list (key * val)))
    : list obj :=
  ODict outer :: (ODict <$> inners).
End Built.

(** ** Documents laid out in the store

    The tree of [dict]s and [list]s a JSON decoder builds for a document
    of the typed layer: children first, every container a new object. *)

Module Load.
Import Py.

(** A [dict] literal with [str] keys. *)
Definition dict (fields : list (string * val)) : M val :=
  alloc (ODict (prod_map (KScalar ∘ SStr) id <$> fields)).

Fixpoint each {A : Type} (load : A → M val) (xs : list A) : M (list val) :=
  match xs with
  | [] => mret []
  | x :: xs => v ← load x; vs ← each load xs; mret (v :: vs)
  end.

Definition list_of {A : Type} (load : A → M val) (xs : list A) : M val :=
  elems ← each load xs; alloc (OList elems).

Definition geometry (g : Geometry.t) : M val :=
  coordinates ← list_of (λ q, mret (VScalar (SFloat q))) (Geometry.coordinates g);
  dict [("type", VScalar (SStr (Geometry.type g)));
        ("coordinates", coordinates)].

Definition forecast_data (f : ForecastData.t) : M val :=
  dict [("time", VScalar (SInt (ForecastData.time f)));
        ("rain_intensity", VScalar (SInt (ForecastData.rain_intensity f)));
        ("rain_intensity_description",
         VScalar (SStr (ForecastData.rain_intensity_description f)))].

Definition rain_properties_data (p : RainPropertiesData.t) : M val :=
  forecast ← list_of forecast_data (RainPropertiesData.forecast p);
  dict [("altitude", VScalar (SInt (RainPropertiesData.altitude p)));
        ("name", VScalar (SStr (RainPropertiesData.name p)));
        ("country", VScalar (SStr (RainPropertiesData.country p)));
        ("french_department", VScalar (SStr (RainPropertiesData.french_department p)));
        ("rain_product_available",
         VScalar (SInt (RainPropertiesData.rain_product_available p)));
        ("timezone", VScalar (SStr (RainPropertiesData.timezone p)));
        ("confidence", VScalar (SInt (RainPropertiesData.confidence p)));
        ("forecast", forecast)].

Definition rain_data (d : RainData.t) : M val :=
  geometry ← geometry (RainData.geometry d);
  properties ← rain_properties_data (RainData.properties d);
  dict [("update_time", VScalar (SInt (RainData.update_time d)));
        ("type", VScalar (SStr (RainData.type d)));
        ("geometry", geometry);
        ("properties", properties)].

Definition location (l : Location.t) : M val :=
  dict [("location_type", VScalar (SStr (Location.location_type l)));
        ("value", VScalar (SStr (Location.value l)))].

Definition avalanche_risk_per_location (r : AvalancheRiskPerLocation.t) : M val :=
  location ← location (AvalancheRiskPerLocation.location r);
  dict [("avalanche_risk", VScalar (SInt (AvalancheRiskPerLocation.avalanche_risk r)));
        ("risk_evolution",
         VScalar (from_option SStr SNone (AvalancheRiskPerLocation.risk_evolution r)));
        ("location", location)].

Definition massif_avalanche_risk (m : MassifAvalancheRisk.t) : M val :=
  dangerous_exposition ←
    list_of (λ s, mret (VScalar (SStr s))) (MassifAvalancheRisk.dangerous_exposition m);
  avalanche_risk_per_location ←
    list_of avalanche_risk_per_location (MassifAvalancheRisk.avalanche_risk_per_location m);
  dict [("description", VScalar (SStr (MassifAvalancheRisk.description m)));
        ("avalanche_risk_max", VScalar (SInt (MassifAvalancheRisk.avalanche_risk_max m)));
        ("time", VScalar (SStr (MassifAvalancheRisk.time m)));
        ("dangerous_exposition", dangerous_exposition);
        ("avalanche_risk_per_location", avalanche_risk_per_location)].

Definition snow_depth (d : SnowDepth.t) : M val :=
  dict [("altitude", VScalar (SInt (SnowDepth.altitude d)));
        ("date", VScalar (SStr (SnowDepth.date d)));
        ("value", VScalar (SInt (SnowDepth.value d)))].

Definition fresh_snow_per_exposition (f : FreshSnowPerExposition.t) : M val :=
  fresh_snow_depth ← list_of snow_depth (FreshSnowPerExposition.fresh_snow_depth f);
  dict [("time", VScalar (SStr (FreshSnowPerExposition.time f)));
        ("exposition", VScalar (SStr (FreshSnowPerExposition.exposition f)));
        ("fresh_snow_depth", fresh_snow_depth)].

Definition total_snow_per_exposition (t : TotalSnowPerExposition.t) : M val :=
  total_snow_depth ← list_of snow_depth (TotalSnowPerExposition.total_snow_depth t);
  dict [("time", VScalar (SStr (TotalSnowPerExposition.time t)));
        ("exposition", VScalar (SStr (TotalSnowPerExposition.exposition t)));
        ("snow_limit", VScalar (SInt (TotalSnowPerExposition.snow_limit t)));
        ("total_snow_depth", total_snow_depth)].

Definition snow_properties_data (p : SnowPropertiesData.t) : M val :=
  massif_avalanche_risk ←
    massif_avalanche_risk (SnowPropertiesData.massif_avalanche_risk p);
  fresh_snow_per_exposition ←
    list_of fresh_snow_per_exposition (SnowPropertiesData.fresh_snow_per_exposition p);
  total_snow_per_exposition ←
    list_of total_snow_per_exposition (SnowPropertiesData.total_snow_per_exposition p);
  dict [("massif_name", VScalar (SStr (SnowPropertiesData.massif_name p)));
        ("massif_altitude_min", VScalar (SInt (SnowPropertiesData.massif_altitude_min p)));
        ("massif_altitude_max", VScalar (SInt (SnowPropertiesData.massif_altitude_max p)));
        ("massif_avalanche_risk", massif_avalanche_risk);
        ("fresh_snow_per_exposition", fresh_snow_per_exposition);
        ("avalanche_report", VScalar (SStr (SnowPropertiesData.avalanche_report p)));
        ("total_snow_per_exposition", total_snow_per_exposition)].

Definition snow_data (d : SnowData.t) : M val :=
  properties ← snow_properties_data (SnowData.properties d);
  dict [("type", VScalar (SStr (SnowData.type d)));
        ("update_time", VScalar (SStr (SnowData.update_time d)));
        ("properties", properties)].

(** [Rain(raw_data)] and [Snow(raw_data)] on the decoded document. *)
Definition rain (d : RainData.t) : M nat := raw_data ← rain_data d; __init__ raw_data.
Definition snow (d : SnowData.t) : M nat := raw_data ← snow_data d; __init__ raw_data.
End Load.

(** ** Views of a document used to state the properties *)

(** The entries that announce rain: [rain_intensity] above the dry value. *)
Definition rainy (forecast : ForecastData.t) : Prop :=
  (1 < ForecastData.rain_intensity forecast)%Z.

(** The expositions of the total-snow data, in document order. *)
Definition expositions (self : Snow.t) : list TotalSnowPerExposition.t :=
  SnowPropertiesData.total_snow_per_exposition (SnowData.properties (Snow.raw_data self)).

(** All total-snow depth records, exposition after exposition. *)
Definition total_snow_records (self : Snow.t) : list SnowDepth.t :=
  info ← expositions self; TotalSnowPerExposition.total_snow_depth info.

(** No record of the list is at altitude [a]. *)
Definition misses (a : Z) (depths : list SnowDepth.t) : Prop :=
  Forall (λ depth, SnowDepth.altitude depth ≠ a) depths.

(** All fresh-snow depth records, each with its exposition. *)
Definition fresh_snow_records (self : Snow.t) : list (string * SnowDepth.t) :=
  data ← SnowPropertiesData.fresh_snow_per_exposition (SnowData.properties (Snow.raw_data self));
  (λ depth, (FreshSnowPerExposition.exposition data, depth))
    <$> FreshSnowPerExposition.fresh_snow_depth data.

(** Where [get_fresh_snow] files a record: its date, then the pair of
    its altitude and exposition. *)
Definition fresh_snow_slot (r : string * SnowDepth.t) : string * (Z * string) :=
  (SnowDepth.date r.2, (SnowDepth.altitude r.2, r.1)).

Definition avalanche_risk_entries (self : Snow.t) : list AvalancheRiskPerLocation.t :=
  MassifAvalancheRisk.avalanche_risk_per_location
    (SnowPropertiesData.massif_avalanche_risk (SnowData.properties (Snow.raw_data self))).

Definition location_value (risk : AvalancheRiskPerLocation.t) : string :=
  Location.value (AvalancheRiskPerLocation.location risk).

(** ** Sample documents *)

Definition sample_geometry : Geometry.t :=
  {| Geometry.type := "Point"; Geometry.coordinates := [(2239895 # 1000000)%Q; (48807166 # 1000000)%Q] |}.

Definition dry_at (time : Z) : ForecastData.t :=
  {| ForecastData.time := time;
     ForecastData.rain_intensity := 1;
     ForecastData.rain_intensity_description := "Temps sec" |}.

Definition rain_at (time intensity : Z) : ForecastData.t :=
  {| ForecastData.time := time;
     ForecastData.rain_intensity := intensity;
     ForecastData.rain_intensity_description := "Pluie" |}.

Definition rain_document (timezone : string) (forecast : list ForecastData.t) : RainData.t :=
  {| RainData.update_time := 1702567200;
     RainData.type := "Feature";
     RainData.geometry := sample_geometry;
     RainData.properties :=
       {| RainPropertiesData.altitude := 76;
          RainPropertiesData.name := "Meudon";
          RainPropertiesData.country := "FR - France";
          RainPropertiesData.french_department := "92";
          RainPropertiesData.rain_product_available := 1;
          RainPropertiesData.timezone := timezone;
          RainPropertiesData.confidence := 0;
          RainPropertiesData.forecast := forecast |} |}.

Definition snow_depth (altitude : Z) (date : string) (value : Z) : SnowDepth.t :=
  {| SnowDepth.altitude := altitude; SnowDepth.date := date; SnowDepth.value := value |}.

Definition risk_at (location_value : string) (avalanche_risk : Z) : AvalancheRiskPerLocation.t :=
  {| AvalancheRiskPerLocation.avalanche_risk := avalanche_risk;
     AvalancheRiskPerLocation.risk_evolution := None;
     AvalancheRiskPerLocation.location :=
       {| Location.location_type := "alti"; Location.value := location_value |} |}.

Definition fresh_snow (exposition : string) (depths : list SnowDepth.t) : FreshSnowPerExposition.t :=
  {| FreshSnowPerExposition.time := "2024-01-27T00:00:00Z";
     FreshSnowPerExposition.exposition := exposition;
     FreshSnowPerExposition.fresh_snow_depth := depths |}.

Definition total_snow (exposition : string) (snow_limit : Z) (depths : list SnowDepth.t)
    : TotalSnowPerExposition.t :=
  {| TotalSnowPerExposition.time := "2024-01-27T00:00:00Z";
     TotalSnowPerExposition.exposition := exposition;
     TotalSnowPerExposition.snow_limit := snow_limit;
     TotalSnowPerExposition.total_snow_depth := depths |}.

Definition snow_document (risks : list AvalancheRiskPerLocation.t)
    (fresh : list FreshSnowPerExposition.t) (total : list TotalSnowPerExposition.t)
    : SnowData.t :=
  {| SnowData.type := "Feature";
     SnowData.update_time := "2024-01-27T15:00:00Z";
     SnowData.properties :=
       {| SnowPropertiesData.massif_name := "Chablais";
          SnowPropertiesData.massif_altitude_min := 1000;
          SnowPropertiesData.massif_altitude_max := 2400;
          SnowPropertiesData.massif_avalanche_risk :=
            {| MassifAvalancheRisk.description := "Risque marque";
               MassifAvalancheRisk.avalanche_risk_max := 3;
               MassifAvalancheRisk.time := "2024-01-27T15:00:00Z";
               MassifAvalancheRisk.dangerous_exposition := ["N"; "NE"];
               MassifAvalancheRisk.avalanche_risk_per_location := risks |};
          SnowPropertiesData.fresh_snow_per_exposition := fresh;
          SnowPropertiesData.avalanche_report := "";
          SnowPropertiesData.total_snow_per_exposition := total |} |}.

(** A document whose two expositions list altitudes out of order and
    more than once. *)
Definition sample_snow : Snow.t :=
  Snow.__init__
    (snow_document
       [risk_at "<2200" 2; risk_at ">2200" 3; risk_at "<2200" 1]
       [fresh_snow "N" [snow_depth 1500 "2024-01-28" 5; snow_depth 2000 "2024-01-28" 10];
        fresh_snow "S" [snow_depth 1500 "2024-01-28" 3]]
       [total_snow "N" 1200 [snow_depth 2000 "2024-01-27" 90; snow_depth 1500 "2024-01-27" 40];
        total_snow "S" 1600 [snow_depth 1500 "2024-01-27" 20; snow_depth 2500 "2024-01-27" 130;
                             snow_depth 2000 "2024-01-27" 60]]).

(** The same altitude, date and exposition recorded twice. *)
Definition repeated_fresh_snow : Snow.t :=
  Snow.__init__
    (snow_document []
       [fresh_snow "N" [snow_depth 1500 "2024-01-28" 5; snow_depth 1500 "2024-01-28" 8]]
       []).

(** ** Calls on a wrapper *)

Module Calls.
Import Py.

(** The accessors and queries of a [Rain] instance, with their
    arguments. *)
Inductive rain_call : Type :=
| update_time
| geometry
| altitude
| location_name
| country
| french_department
| rain_product_available
| timezone
| confidence
| forecasts
| timestamp_to_locale_time (timestamp : val)
| next_rain_date_locale.

(** The methods of a [Snow] instance, with their arguments. *)
Inductive snow_call : Type :=
| get_massif_name
| get_max_avalanche_risk
| get_snow_depth_at_altitude (altitude : Z)
| get_available_altitudes
| get_avalanche_risk_by_location_value (location_value : string)
| get_snow_depths
| get_snow_limits
| get_avalanche_risks
| get_fresh_snow.

Inductive call : Type :=
| OnRain (c : rain_call)
| OnSnow (c : snow_call).

(** A call whose result the caller drops. *)
Definition discard {A : Type} (m : M A) : M unit := _ ← m; mret ().

Section Invoke.
Variable tzdata : string → option (Z → Z).
Variable int_of_str : string → option Z.

Definition invoke_rain (self : nat) (c : rain_call) : M unit :=
  match c with
  | update_time => discard (RainObject.update_time tzdata self)
  | geometry => discard (RainObject.geometry self)
  | altitude => discard (RainObject.altitude self)
  | location_name => discard (RainObject.location_name self)
  | country => discard (RainObject.country self)
  | french_department => discard (RainObject.french_department self)
  | rain_product_available => discard (RainObject.rain_product_available self)
  | timezone => discard (RainObject.timezone self)
  | confidence => discard (RainObject.confidence self)
  | forecasts => discard (RainObject.forecasts self)
  | timestamp_to_locale_time timestamp =>
      discard (RainObject.timestamp_to_locale_time tzdata self timestamp)
  | next_rain_date_locale => discard (RainObject.next_rain_date_locale tzdata int_of_str self)
  end.

Definition invoke_snow (self : nat) (c : snow_call) : M unit :=
  match c with
  | get_massif_name => discard (SnowObject.get_massif_name self)
  | get_max_avalanche_risk => discard (SnowObject.get_max_avalanche_risk self)
  | get_snow_depth_at_altitude a =>
      discard (SnowObject.get_snow_depth_at_altitude self a)
  | get_available_altitudes => discard (SnowObject.get_available_altitudes self)
  | get_avalanche_risk_by_location_value v =>
      discard (SnowObject.get_avalanche_risk_by_location_value self v)
  | get_snow_depths => discard (SnowObject.get_snow_depths self)
  | get_snow_limits => discard (SnowObject.get_snow_limits self)
  | get_avalanche_risks => discard (SnowObject.get_avalanche_risks self)
  | get_fresh_snow => discard (SnowObject.get_fresh_snow self)
  end.

Definition invoke (self : nat) (c : call) : M unit :=
  match c with
  | OnRain c => invoke_rain self c
  | OnSnow c => invoke_snow self c
  end.

(** Successive subscripts by [str] literals, from [c] down. *)
Fixpoint walk (c : val) (path : list string) : M val :=
  match path with
  | [] => mret c
  | k :: rest => v ← subscript c k; walk v rest
  end.

(** The keys by which a method first reaches into [self.raw_data]. *)
Definition needs (c : call) : list string :=
  match c with
  | OnRain update_time => ["update_time"]
  | OnRain geometry => ["geometry"]
  | OnRain altitude => ["properties"; "altitude"]
  | OnRain location_name => ["properties"; "name"]
  | OnRain country => ["properties"; "country"]
  | OnRain french_department => ["properties"; "french_department"]
  | OnRain rain_product_available => ["properties"; "rain_product_available"]
  | OnRain timezone => ["properties"; "timezone"]
  | OnRain confidence => ["properties"; "confidence"]
  | OnRain forecasts => ["properties"; "forecast"]
  | OnRain (timestamp_to_locale_time _) => ["properties"; "timezone"]
  | OnRain next_rain_date_locale => ["properties"; "forecast"]
  | OnSnow get_massif_name => ["properties"; "massif_name"]
  | OnSnow get_max_avalanche_risk =>
      ["properties"; "massif_avalanche_risk"; "avalanche_risk_max"]
  | OnSnow (get_snow_depth_at_altitude _) => ["properties"; "total_snow_per_exposition"]
  | OnSnow get_available_altitudes => ["properties"; "total_snow_per_exposition"]
  | OnSnow (get_avalanche_risk_by_location_value _) =>
      ["properties"; "massif_avalanche_risk"; "avalanche_risk_per_location"]
  | OnSnow get_snow_depths => ["properties"; "total_snow_per_exposition"]
  | OnSnow get_snow_limits => ["properties"; "total_snow_per_exposition"]
  | OnSnow get_avalanche_risks =>
      ["properties"; "massif_avalanche_risk"; "avalanche_risk_per_location"]
  | OnSnow get_fresh_snow => ["properties"; "fresh_snow_per_exposition"]
  end.

(** The accessors that return what they reach and do nothing more. *)
Definition projection (c : call) : bool :=
  match c with
  | OnRain (geometry | altitude | location_name | country | french_department
            | rain_product_available | timezone | confidence | forecasts) => true
  | OnSnow (get_massif_name | get_max_avalanche_risk) => true
  | _ => false
  end.

(** The store after a sequence of calls on [self], each started where
    the one before it ended, whether it returned or raised. *)
Definition run (self : nat) (calls : list call) (σ : state) : state :=
  foldl (λ σ c, (invoke self c σ).2) σ calls.
End Invoke.
End Calls.

(** What the store keeps of an earlier one: the same wrapper instances,
    and every container the earlier store had, unchanged; the later store
    may have more containers. *)
Definition keeps (σ0 σ : Py.state) : Prop :=
  Py.wrappers σ = Py.wrappers σ0
  ∧ take (length (Py.objects σ0)) (Py.objects σ) = Py.objects σ0.

(** A computation that leaves the store as it found it. *)
Definition readonly {A : Type} (m : Py.M A) : Prop := ∀ σ, (m σ).2 = σ.

(** From a store that keeps [σ0] and satisfies [P], the computation ends
    in a store that keeps [σ0]; when it returns [a], that store satisfies
    [Q a]. *)
Definition framed {A : Type} (σ0 : Py.state) (P : Py.state → Prop) (m : Py.M A)
    (Q : A → Py.state → Prop) : Prop :=
  ∀ σ, keeps σ0 σ → P σ →
       keeps σ0 (m σ).2
       ∧ match (m σ).1 with
         | Ok a => Q a (m σ).2
         | Raise _ => True
         end.

(** The dictionary at [m] is one the running method has created, and so
    are the dictionaries it holds: every value stored in it is a reference
    to a later container. *)
Definition owns (m : Py.loc) (σ : Py.state) : Prop :=
  m < length (Py.objects σ)
  ∧ ∀ items, Py.objects σ !! m = Some (Py.ODict items) →
             Forall (λ kv, ∃ l, kv.2 = Py.VRef l ∧ m < l) items.

(** The objects of [σ] are still there in [σ']. *)
Definition within (σ σ' : Py.state) : Prop :=
  ∀ l o, Py.objects σ !! l = Some o → Py.objects σ' !! l = Some o.

(** [load] lays out every [x] as a value of shape [P], writing to new
    locations only. *)
Definition loads {A : Type} (P : Py.state → A → Py.val → Prop) (load : A → Py.M Py.val)
    : Prop :=
  ∀ x σ, ∃ v σ', load x σ = (Ok v, σ') ∧ keeps σ σ' ∧ P σ' x v.

(** A store holding a rain document without its [properties]:
    [{"geometry": {"type": "Point", "coordinates": [...]},
      "update_time": 1702567200}]. *)
Definition store_without_properties : Py.state :=
  {| Py.objects :=
       [Py.OList [Py.VScalar (SFloat (2239895 # 1000000)); Py.VScalar (SFloat (48807166 # 1000000))];
        Py.ODict [(KScalar (SStr "type"), Py.VScalar (SStr "Point"));
                  (KScalar (SStr "coordinates"), Py.VRef 0)];
        Py.ODict [(KScalar (SStr "geometry"), Py.VRef 1);
                  (KScalar (SStr "update_time"), Py.VScalar (SInt 1702567200))]];
     Py.wrappers := [] |}.

(** A sample of [int] on a [str] for the examples: the integer an
    optional sign and a run of ASCII digits denote. The other literals
    Python accepts (surrounding white space, underscores between digits)
    are left out of the sample. *)
Fixpoint digits_value (acc : Z) (s : string) : option Z :=
  match s with
  | EmptyString => Some acc
  | String a rest =>
      let d := (Z.of_N (Ascii.N_of_ascii a) - 48)%Z in
      if bool_decide (0 ≤ d ≤ 9)%Z then digits_value (10 * acc + d) rest else None
  end.

Definition plain_decimal (s : string) : option Z :=
  match s with
  | EmptyString => None
  | String a rest =>
      if decide (rest = EmptyString) then digits_value 0 s
      else if decide (Ascii.N_of_ascii a = 45%N) then Z.opp <$> digits_value 0 rest
      else if decide (Ascii.N_of_ascii a = 43%N) then digits_value 0 rest
      else digits_value 0 s
  end.

(** ** Views and samples for the remaining queries *)

(** The entry [get_snow_depths] makes of a depth record found under the
    exposition [info]. *)
Definition snow_depth_entry_of (info : TotalSnowPerExposition.t) (depth : SnowDepth.t)
    : Snow.snow_depth_entry :=
  {| Snow.exposition := TotalSnowPerExposition.exposition info;
     Snow.altitude := SnowDepth.altitude depth;
     Snow.total_snow_depth := SnowDepth.value depth |}.

(** A total-snow document whose lists go on, after the record at 1500 m,
    with values that are no records at all:
    [{"properties": {"total_snow_per_exposition":
        [{"total_snow_depth": [{"altitude": 1500, "value": 40}, "n/a"]}, None]}}]. *)
Definition store_with_leftovers : Py.state :=
  {| Py.objects :=
       [Py.ODict [(KScalar (SStr "altitude"), Py.VScalar (SInt 1500));
                  (KScalar (SStr "value"), Py.VScalar (SInt 40))];
        Py.OList [Py.VRef 0; Py.VScalar (SStr "n/a")];
        Py.ODict [(KScalar (SStr "total_snow_depth"), Py.VRef 1)];
        Py.OList [Py.VRef 2; Py.VScalar SNone];
        Py.ODict [(KScalar (SStr "total_snow_per_exposition"), Py.VRef 3)];
        Py.ODict [(KScalar (SStr "properties"), Py.VRef 4)]];
     Py.wrappers := [Py.VRef 5] |}.

(** A rain document that announces a shower at once, and whose forecast
    list goes on with a value that is no entry:
    [{"properties": {"timezone": "UTC",
        "forecast": [{"time": 1702568100, "rain_intensity": 3}, None]}}]. *)
Definition store_with_shower : Py.state :=
  {| Py.objects :=
       [Py.ODict [(KScalar (SStr "time"), Py.VScalar (SInt 1702568100));
                  (KScalar (SStr "rain_intensity"), Py.VScalar (SInt 3))];
        Py.OList [Py.VRef 0; Py.VScalar SNone];
        Py.ODict [(KScalar (SStr "timezone"), Py.VScalar (SStr "UTC"));
                  (KScalar (SStr "forecast"), Py.VRef 1)];
        Py.ODict [(KScalar (SStr "properties"), Py.VRef 2)]];
     Py.wrappers := [Py.VRef 3] |}.

(** * Properties *)

(** ** Rain *)

Section RainProperties.
Variable tzdata : string → option (Z → Z).

Lemma next_rain_loop_dry self forecasts :
  Forall (λ f, ¬ rainy f) forecasts →
  forecasts = [] ∨ is_Some (tzdata (Rain.timezone self)) →
  Rain.next_rain_loop tzdata self forecasts = Ok None.
Proof.
  intros Hdry Hzone. induction Hdry as [|f fs Hf _ IH]; [done|].
  destruct Hzone as [|[offset Hzone]]; [done|]. simpl.
  unfold Rain.timestamp_to_locale_time, timestamp_to_dateime_with_locale_tz.
  rewrite Hzone. simpl.
  destruct (Z.ltb_spec 1 (ForecastData.rain_intensity f)) as [Hlt|_].
  - by destruct Hf.
  - apply IH. right. by exists offset.
Qed.

Lemma next_rain_loop_app_dry self dry forecasts :
  Forall (λ f, ¬ rainy f) dry →
  is_Some (tzdata (Rain.timezone self)) →
  Rain.next_rain_loop tzdata self (dry ++ forecasts)
  = Rain.next_rain_loop tzdata self forecasts.
Proof.
  intros Hdry [offset Hzone]. induction Hdry as [|f fs Hf _ IH]; [done|]. simpl.
  unfold Rain.timestamp_to_locale_time, timestamp_to_dateime_with_locale_tz.
  rewrite Hzone. simpl.
  destruct (Z.ltb_spec 1 (ForecastData.rain_intensity f)) as [Hlt|_]; [by destruct Hf|done].
Qed.

(** C1, as amended: when the document's timezone is a recognized zone
    identifier, or its forecast sequence is empty,
    [next_rain_date_locale] returns the localized time, in the
    document's own timezone, of the first entry in sequence order whose
    [rain_intensity] exceeds 1, and [None] when no entry does. *)
Theorem next_rain_date_locale_first_rainy self :
  Rain.forecasts self = [] ∨ is_Some (tzdata (Rain.timezone self)) →
  (∀ dry forecast later,
     Rain.forecasts self = dry ++ forecast :: later →
     Forall (λ f, ¬ rainy f) dry →
     rainy forecast →
     ∃ forecast_time,
       timestamp_to_dateime_with_locale_tz tzdata
         (ForecastData.time forecast) (Rain.timezone self) = Ok forecast_time
       ∧ Rain.next_rain_date_locale tzdata self = Ok (Some forecast_time))
  ∧ (Forall (λ f, ¬ rainy f) (Rain.forecasts self) →
     Rain.next_rain_date_locale tzdata self = Ok None).
Proof.
  intros Hzone. split.
  - intros dry forecast later Hsplit Hdry Hrain.
    destruct Hzone as [Hnil|Hzone]; [by rewrite Hnil in Hsplit; destruct dry|].
    unfold Rain.next_rain_date_locale.
    rewrite Hsplit, next_rain_loop_app_dry by done.
    destruct Hzone as [offset Hzone]. simpl.
    unfold Rain.timestamp_to_locale_time, timestamp_to_dateime_with_locale_tz.
    rewrite Hzone. simpl.
    eexists. split; [done|].
    unfold rainy in Hrain. apply Z.ltb_lt in Hrain. by rewrite Hrain.
  - intros Hdry. by apply next_rain_loop_dry.
Qed.

(** C10: on a non-empty forecast sequence, [next_rain_date_locale]
    localizes the time of the entry it scans before it tests the entry's
    [rain_intensity]; so with a timezone that is no recognized zone
    identifier the call fails with the localization error, whatever the
    intensities are, where a dry sequence would otherwise give [None]. *)
Theorem next_rain_date_locale_unknown_zone self :
  Rain.forecasts self ≠ [] →
  tzdata (Rain.timezone self) = None →
  (∀ forecast later,
     Rain.next_rain_loop tzdata self (forecast :: later)
     = result_bind (Rain.timestamp_to_locale_time tzdata self (ForecastData.time forecast))
         (λ forecast_time,
            if (1 <? ForecastData.rain_intensity forecast)%Z
            then Ok (Some forecast_time)
            else Rain.next_rain_loop tzdata self later))
  ∧ Rain.next_rain_date_locale tzdata self = Raise (InvalidTimezone (Rain.timezone self)).
Proof.
  intros Hne Hzone. split; [done|].
  unfold Rain.next_rain_date_locale.
  destruct (Rain.forecasts self) as [|forecast later]; [done|]. simpl.
  unfold Rain.timestamp_to_locale_time, timestamp_to_dateime_with_locale_tz.
  by rewrite Hzone.
Qed.
End RainProperties.

(** A document in the [UTC] zone: dry, dry, then rain twice. *)
Lemma next_rain_date_locale_first_rainy_witness :
  let self := Rain.__init__ (rain_document "UTC"
                [dry_at 1702568100; dry_at 1702568400; rain_at 1702569300 2; rain_at 1702569600 3]) in
  (Rain.forecasts self = [] ∨ is_Some (fixed_zones (Rain.timezone self)))
  ∧ Rain.next_rain_date_locale fixed_zones self
    = Ok (Some {| instant := 1702569300; utcoffset := 0; tzname := "UTC" |}).
Proof.
  intros self.
  assert (Hzone : Rain.forecasts self = [] ∨ is_Some (fixed_zones (Rain.timezone self))).
  { right. by eexists. }
  split; [exact Hzone|].
  destruct (next_rain_date_locale_first_rainy fixed_zones self Hzone) as [Hfirst _].
  destruct (Hfirst [dry_at 1702568100; dry_at 1702568400]
                   (rain_at 1702569300 2) [rain_at 1702569600 3])
    as (forecast_time & Hlocal & Hnext).
  - reflexivity.
  - repeat constructor; unfold rainy; simpl; lia.
  - unfold rainy; simpl; lia.
  - rewrite Hnext. vm_compute in Hlocal. congruence.
Defined.

(** C1 as stated fails: an all-dry sequence under an unrecognized
    timezone does not give [None], the call raises. *)
Lemma next_rain_date_locale_dry_unknown_zone :
  let self := Rain.__init__ (rain_document "Mars/Olympus_Mons" [dry_at 1702568100]) in
  Forall (λ f, ¬ rainy f) (Rain.forecasts self)
  ∧ Rain.next_rain_date_locale fixed_zones self ≠ Ok None
  ∧ Rain.next_rain_date_locale fixed_zones self = Raise (InvalidTimezone "Mars/Olympus_Mons").
Proof.
  intros self. split; [|split].
  - repeat constructor. unfold rainy. simpl. lia.
  - vm_compute. discriminate.
  - reflexivity.
Qed.

Lemma next_rain_date_locale_unknown_zone_witness :
  let self := Rain.__init__ (rain_document "Europe/Atlantis"
                [dry_at 1702568100; dry_at 1702568400]) in
  Rain.forecasts self ≠ []
  ∧ fixed_zones (Rain.timezone self) = None
  ∧ Rain.next_rain_date_locale fixed_zones self = Raise (InvalidTimezone "Europe/Atlantis").
Proof.
  intros self.
  assert (Hne : Rain.forecasts self ≠ []) by discriminate.
  assert (Hzone : fixed_zones (Rain.timezone self) = None) by reflexivity.
  split; [exact Hne|]. split; [exact Hzone|].
  exact (proj2 (next_rain_date_locale_unknown_zone fixed_zones self Hne Hzone)).
Defined.

(** ** Snow: the total-snow queries *)

Lemma depth_loop_misses a depths :
  Snow.depth_loop a depths = None ↔ misses a depths.
Proof.
  unfold misses. induction depths as [|d ds IH]; simpl.
  - split; [constructor|done].
  - destruct (Z.eqb_spec (SnowDepth.altitude d) a) as [Heq|Hne].
    + split; [done|]. intros H. by inversion H.
    + rewrite IH. split; [by constructor|]. intros H. by inversion H.
Qed.

Lemma depth_loop_first a pre depth post :
  misses a pre →
  SnowDepth.altitude depth = a →
  Snow.depth_loop a (pre ++ depth :: post) = Some (SnowDepth.value depth).
Proof.
  intros Hpre Hdepth. induction Hpre as [|d ds Hd _ IH]; simpl.
  - apply Z.eqb_eq in Hdepth. by rewrite Hdepth.
  - apply Z.eqb_neq in Hd. by rewrite Hd.
Qed.

Lemma exposition_loop_misses a infos :
  Snow.exposition_loop a infos = None
  ↔ Forall (λ info, misses a (TotalSnowPerExposition.total_snow_depth info)) infos.
Proof.
  induction infos as [|i rest IH]; simpl.
  - split; [constructor|done].
  - destruct (Snow.depth_loop a (TotalSnowPerExposition.total_snow_depth i)) as [v|] eqn:Hi.
    + split; [done|]. intros H. inversion H as [|?? Hmiss _]; subst.
      apply depth_loop_misses in Hmiss. congruence.
    + rewrite IH. apply depth_loop_misses in Hi.
      split; [by constructor|]. intros H. by inversion H.
Qed.

Lemma misses_lookup a depths :
  misses a depths ↔ ¬ ∃ depth, depth ∈ depths ∧ SnowDepth.altitude depth = a.
Proof.
  unfold misses. rewrite Forall_forall. split.
  - intros H (d & Hin & Heq). by apply (H d).
  - intros H d Hin Heq. apply H. by exists d.
Qed.

Lemma exposition_loop_records self a :
  Snow.get_snow_depth_at_altitude self a = None ↔ misses a (total_snow_records self).
Proof.
  unfold Snow.get_snow_depth_at_altitude, total_snow_records. fold (expositions self).
  rewrite exposition_loop_misses. unfold misses.
  induction (expositions self) as [|i rest IH]; simpl.
  - split; constructor.
  - rewrite Forall_cons, Forall_app, IH. done.
Qed.

(** C3: [get_snow_depth_at_altitude] returns the value of the first depth
    record at exactly the queried altitude, taken from the first
    exposition in document order that has one, and [None] when no
    exposition's total-snow records are at that altitude. *)
Theorem get_snow_depth_at_altitude_first_match self a :
  (∀ before info after pre depth post,
     expositions self = before ++ info :: after →
     Forall (λ i, misses a (TotalSnowPerExposition.total_snow_depth i)) before →
     TotalSnowPerExposition.total_snow_depth info = pre ++ depth :: post →
     misses a pre →
     SnowDepth.altitude depth = a →
     Snow.get_snow_depth_at_altitude self a = Some (SnowDepth.value depth))
  ∧ (Forall (λ i, misses a (TotalSnowPerExposition.total_snow_depth i)) (expositions self) →
     Snow.get_snow_depth_at_altitude self a = None).
Proof.
  split.
  - intros before info after pre depth post Hexp Hbefore Hinfo Hpre Hdepth.
    unfold Snow.get_snow_depth_at_altitude. fold (expositions self). rewrite Hexp.
    clear Hexp. induction Hbefore as [|i rest Hi _ IH]; simpl.
    + by rewrite Hinfo, depth_loop_first.
    + apply depth_loop_misses in Hi. by rewrite Hi.
  - intros Hall. by apply exposition_loop_misses.
Qed.

Lemma get_snow_depth_at_altitude_first_match_witness :
  Snow.get_snow_depth_at_altitude sample_snow 1500 = Some 40%Z
  ∧ Snow.get_snow_depth_at_altitude sample_snow 3000 = None.
Proof.
  destruct (get_snow_depth_at_altitude_first_match sample_snow 1500) as [Hfirst _].
  destruct (get_snow_depth_at_altitude_first_match sample_snow 3000) as [_ Hnone].
  split.
  - apply (Hfirst [] (total_snow "N" 1200 [snow_depth 2000 "2024-01-27" 90; snow_depth 1500 "2024-01-27" 40])
                  [total_snow "S" 1600 [snow_depth 1500 "2024-01-27" 20; snow_depth 2500 "2024-01-27" 130;
                                        snow_depth 2000 "2024-01-27" 60]]
                  [snow_depth 2000 "2024-01-27" 90] (snow_depth 1500 "2024-01-27" 40) []).
    + reflexivity.
    + constructor.
    + reflexivity.
    + repeat constructor. simpl. lia.
    + reflexivity.
  - apply Hnone. repeat constructor; simpl; lia.
Defined.

Lemma elem_of_altitudes_inner (altitudes : gset Z) depths a :
  a ∈ foldl (λ altitudes depth_info, altitudes ∪ {[SnowDepth.altitude depth_info]})
            altitudes depths
  ↔ a ∈ altitudes ∨ ∃ depth, depth ∈ depths ∧ SnowDepth.altitude depth = a.
Proof.
  revert altitudes. induction depths as [|d ds IH]; intros altitudes; simpl.
  - split; [by left|]. intros [H|(d & Hin & _)]; [done|]. by apply elem_of_nil in Hin.
  - rewrite IH, elem_of_union, elem_of_singleton. split.
    + intros [[H|H]|(d' & Hin & Heq)].
      * by left.
      * right. exists d. split; [left|done].
      * right. exists d'. split; [by right|done].
    + intros [H|(d' & Hin & Heq)]; [by left; left|].
      apply elem_of_cons in Hin as [->|Hin]; [by left; right|].
      right. by exists d'.
Qed.

Lemma elem_of_altitudes (altitudes : gset Z) infos a :
  a ∈ foldl (λ altitudes exposition,
               foldl (λ altitudes depth_info, altitudes ∪ {[SnowDepth.altitude depth_info]})
                     altitudes (TotalSnowPerExposition.total_snow_depth exposition))
            altitudes infos
  ↔ a ∈ altitudes
    ∨ ∃ depth, depth ∈ (infos ≫= TotalSnowPerExposition.total_snow_depth)
               ∧ SnowDepth.altitude depth = a.
Proof.
  revert altitudes. induction infos as [|i rest IH]; intros altitudes; simpl.
  - split; [by left|]. intros [H|(d & Hin & _)]; [done|]. by apply elem_of_nil in Hin.
  - rewrite IH, elem_of_altitudes_inner. split.
    + intros [[H|(d & Hin & Heq)]|(d & Hin & Heq)].
      * by left.
      * right. exists d. split; [|done]. apply elem_of_app. by left.
      * right. exists d. split; [|done]. apply elem_of_app. by right.
    + intros [H|(d & Hin & Heq)]; [by left; left|].
      apply elem_of_app in Hin as [Hin|Hin].
      * left. right. by exists d.
      * right. by exists d.
Qed.

Lemma sorted_elem_of (s : gset Z) a : a ∈ sorted s ↔ a ∈ s.
Proof. unfold sorted. by rewrite merge_sort_Permutation, elem_of_elements. Qed.

Lemma sorted_NoDup (s : gset Z) : NoDup (sorted s).
Proof. unfold sorted. rewrite merge_sort_Permutation. apply NoDup_elements. Qed.

Lemma StronglySorted_le_lt (l : list Z) :
  StronglySorted Z.le l → NoDup l → StronglySorted Z.lt l.
Proof.
  induction 1 as [|x l Hl IH Hx]; intros Hnd; [constructor|].
  apply NoDup_cons in Hnd as [Hnotin Hnd]. constructor; [by apply IH|].
  rewrite Forall_forall in Hx |- *. intros y Hy.
  assert (x ≠ y) by (intros ->; done). specialize (Hx y Hy). lia.
Qed.

Lemma sorted_ascending (s : gset Z) : StronglySorted Z.lt (sorted s).
Proof.
  apply StronglySorted_le_lt; [|apply sorted_NoDup].
  unfold sorted. apply (StronglySorted_merge_sort Z.le).
Qed.

Lemma get_available_altitudes_elem_of self a :
  a ∈ Snow.get_available_altitudes self
  ↔ ∃ depth, depth ∈ total_snow_records self ∧ SnowDepth.altitude depth = a.
Proof.
  unfold Snow.get_available_altitudes, total_snow_records.
  rewrite sorted_elem_of. fold (expositions self). rewrite elem_of_altitudes.
  split; [|by right]. intros [H|H]; [|done]. by apply not_elem_of_empty in H.
Qed.

(** C4: whatever the order and the repetitions of the altitude records,
    [get_available_altitudes] returns the altitudes that occur in some
    exposition's total-snow records, each once, in strictly ascending
    order. *)
Theorem get_available_altitudes_sorted_set self :
  StronglySorted Z.lt (Snow.get_available_altitudes self)
  ∧ NoDup (Snow.get_available_altitudes self)
  ∧ ∀ a, a ∈ Snow.get_available_altitudes self
         ↔ ∃ info depth, info ∈ expositions self
                         ∧ depth ∈ TotalSnowPerExposition.total_snow_depth info
                         ∧ SnowDepth.altitude depth = a.
Proof.
  split; [apply sorted_ascending|]. split; [apply sorted_NoDup|].
  intros a. rewrite get_available_altitudes_elem_of. unfold total_snow_records. split.
  - intros (d & Hin & Heq). apply list_elem_of_bind in Hin as (i & Hd & Hi). by exists i, d.
  - intros (i & d & Hi & Hd & Heq). exists d. split; [|done].
    apply list_elem_of_bind. by exists i.
Qed.

(** C9: [get_snow_depth_at_altitude] finds a value at an altitude exactly
    when [get_available_altitudes] lists that altitude. *)
Theorem snow_depth_present_iff_available self a :
  is_Some (Snow.get_snow_depth_at_altitude self a) ↔ a ∈ Snow.get_available_altitudes self.
Proof.
  rewrite get_available_altitudes_elem_of, <- not_eq_None_Some, exposition_loop_records.
  rewrite misses_lookup. split.
  - intros Hsome.
    destruct (decide (Exists (λ d, SnowDepth.altitude d = a) (total_snow_records self)))
      as [Hex|Hnex].
    + by apply Exists_exists in Hex.
    + destruct Hsome. intros (d & Hin & Heq). apply Hnex, Exists_exists. by exists d.
  - intros Hex Hnex. by apply Hnex.
Qed.

(** ** Snow: avalanche risks *)

Lemma risk_loop_head v risks :
  Snow.risk_loop v risks
  = AvalancheRiskPerLocation.avalanche_risk <$> head (filter (λ r, location_value r = v) risks).
Proof.
  induction risks as [|r rs IH]; [done|]. simpl. rewrite filter_cons.
  unfold location_value at 1. destruct (decide _); [done|apply IH].
Qed.

(** C6: [get_avalanche_risk_by_location_value] returns the
    [avalanche_risk] of the first entry of [avalanche_risk_per_location]
    whose [location.value] equals the query, and [None], not an
    exception, when no entry matches. *)
Theorem get_avalanche_risk_by_location_value_first_match self v :
  Snow.get_avalanche_risk_by_location_value self v
  = AvalancheRiskPerLocation.avalanche_risk
      <$> head (filter (λ r, location_value r = v) (avalanche_risk_entries self))
  ∧ (Snow.get_avalanche_risk_by_location_value self v = None
     ↔ Forall (λ r, location_value r ≠ v) (avalanche_risk_entries self)).
Proof.
  unfold Snow.get_avalanche_risk_by_location_value. fold (avalanche_risk_entries self).
  rewrite risk_loop_head. split; [done|].
  rewrite fmap_None, head_None.
  induction (avalanche_risk_entries self) as [|r rs IH]; [by split; [constructor|]|].
  rewrite filter_cons, Forall_cons. destruct (decide _) as [Heq|Hne].
  - split; [done|]. by intros [? _].
  - rewrite IH. by split; [|intros [_ ?]].
Qed.

Lemma risks_map_lookup (risks_map : gmap string Z) risks v :
  foldl (λ risks_map risk,
           <[location_value risk := AvalancheRiskPerLocation.avalanche_risk risk]> risks_map)
        risks_map risks !! v
  = match last (filter (λ r, location_value r = v) risks) with
    | Some r => Some (AvalancheRiskPerLocation.avalanche_risk r)
    | None => risks_map !! v
    end.
Proof.
  induction risks as [|r rs IH] using rev_ind; [done|].
  rewrite foldl_snoc, filter_app, filter_cons, filter_nil.
  destruct (decide (location_value r = v)) as [Heq|Hne].
  - by rewrite last_snoc, Heq, lookup_insert_eq.
  - by rewrite app_nil_r, lookup_insert_ne.
Qed.

Lemma risks_map_dom (risks_map : gmap string Z) risks :
  dom (foldl (λ risks_map risk,
                <[location_value risk := AvalancheRiskPerLocation.avalanche_risk risk]> risks_map)
             risks_map risks)
  = dom risks_map ∪ list_to_set (location_value <$> risks).
Proof.
  revert risks_map. induction risks as [|r rs IH]; intros risks_map; simpl.
  - set_solver.
  - rewrite IH, dom_insert_L. set_solver.
Qed.

Lemma size_list_to_set_remove_dups `{Countable A} (l : list A) :
  size (list_to_set (C := gset A) l) = length (remove_dups l).
Proof.
  rewrite <- (size_list_to_set (C := gset A) (remove_dups l)) by apply NoDup_remove_dups.
  f_equal. apply set_eq. intros x.
  by rewrite !elem_of_list_to_set, elem_of_remove_dups.
Qed.

(** C5: in the mapping [get_avalanche_risks] returns, every
    [location.value] of [avalanche_risk_per_location] is a key, no other
    string is, each key is mapped to the [avalanche_risk] of the last
    entry bearing it, and there are as many keys as distinct
    [location.value] strings. *)
Theorem get_avalanche_risks_last_wins self :
  (∀ v, Snow.get_avalanche_risks self !! v
        = AvalancheRiskPerLocation.avalanche_risk
            <$> last (filter (λ r, location_value r = v) (avalanche_risk_entries self)))
  ∧ (∀ v, is_Some (Snow.get_avalanche_risks self !! v)
          ↔ v ∈ location_value <$> avalanche_risk_entries self)
  ∧ size (Snow.get_avalanche_risks self)
    = length (remove_dups (location_value <$> avalanche_risk_entries self)).
Proof.
  unfold Snow.get_avalanche_risks. fold (avalanche_risk_entries self).
  change (λ risks_map risk,
            let location_value := Location.value (AvalancheRiskPerLocation.location risk) in
            <[location_value := AvalancheRiskPerLocation.avalanche_risk risk]> risks_map)
    with (λ (risks_map : gmap string Z) risk,
            <[location_value risk := AvalancheRiskPerLocation.avalanche_risk risk]> risks_map).
  split; [|split].
  - intros v. rewrite risks_map_lookup. by destruct (last _).
  - intros v. rewrite <- elem_of_dom, risks_map_dom, dom_empty_L. set_solver.
  - rewrite <- size_dom, risks_map_dom, dom_empty_L, (left_id_L ∅ (∪)).
    apply size_list_to_set_remove_dups.
Qed.

(** ** Snow: the fresh-snow index *)

Lemma sum_list_Permutation (l k : list nat) : l ≡ₚ k → sum_list l = sum_list k.
Proof. induction 1; simpl; lia. Qed.

Lemma leaf_count_empty `{Countable K1, Countable K2} {V : Type} :
  leaf_count (∅ : gmap K1 (gmap K2 V)) = 0.
Proof. unfold leaf_count. by rewrite map_to_list_empty. Qed.

Lemma leaf_count_insert_fresh `{Countable K1, Countable K2} {V : Type}
    (m : gmap K1 (gmap K2 V)) d inner :
  m !! d = None → leaf_count (<[d := inner]> m) = size inner + leaf_count m.
Proof.
  intros Hd. unfold leaf_count.
  rewrite (sum_list_Permutation _ ((λ kv, size kv.2) <$> ((d, inner) :: map_to_list m))).
  - done.
  - apply fmap_Permutation. by apply map_to_list_insert.
Qed.

Lemma leaf_count_insert `{Countable K1, Countable K2} {V : Type}
    (m : gmap K1 (gmap K2 V)) d inner :
  leaf_count (<[d := inner]> m) + size (default ∅ (m !! d)) = leaf_count m + size inner.
Proof.
  rewrite <- (insert_delete_eq m).
  rewrite leaf_count_insert_fresh by apply lookup_delete_eq.
  destruct (m !! d) as [old|] eqn:Hd; simpl.
  - pose proof (leaf_count_insert_fresh (delete d m) d old (lookup_delete_eq m d)) as Hold.
    rewrite insert_delete_id in Hold by done. lia.
  - rewrite delete_id by done. rewrite map_size_empty. lia.
Qed.

Lemma fresh_snow_step_insert exposition fresh_snow_map snow_depth :
  Snow.fresh_snow_step exposition fresh_snow_map snow_depth
  = <[SnowDepth.date snow_depth :=
        <[(SnowDepth.altitude snow_depth, exposition) := SnowDepth.value snow_depth]>
          (default ∅ (fresh_snow_map !! SnowDepth.date snow_depth))]> fresh_snow_map.
Proof.
  unfold Snow.fresh_snow_step. simpl. destruct (decide _) as [Hd|Hd]; [|done].
  by rewrite lookup_insert_eq, insert_insert_eq, Hd.
Qed.

Lemma get_fresh_snow_records self :
  Snow.get_fresh_snow self
  = foldl (λ fresh_snow_map r, Snow.fresh_snow_step r.1 fresh_snow_map r.2)
          ∅ (fresh_snow_records self).
Proof.
  unfold Snow.get_fresh_snow, fresh_snow_records.
  generalize (∅ : gmap string (gmap (Z * string) Z)).
  induction (SnowPropertiesData.fresh_snow_per_exposition _) as [|data rest IH];
    intros fresh_snow_map; [done|].
  simpl. rewrite foldl_app, foldl_fmap. apply IH.
Qed.

Lemma fresh_snow_index_slots (records : list (string * SnowDepth.t)) :
  let index := foldl (λ fresh_snow_map r, Snow.fresh_snow_step r.1 fresh_snow_map r.2)
                     ∅ records in
  let slots : gset (string * (Z * string)) := list_to_set (fresh_snow_slot <$> records) in
  leaf_count index = size slots
  ∧ ∀ date slot, (date, slot) ∈ slots
                 ↔ ∃ inner, index !! date = Some inner ∧ is_Some (inner !! slot).
Proof.
  induction records as [|r records IH] using rev_ind; simpl.
  - split; [by rewrite leaf_count_empty|].
    intros date slot. split; [set_solver|]. intros (inner & Hinner & _).
    by rewrite lookup_empty in Hinner.
  - destruct IH as [IHcount IHslots].
    rewrite foldl_snoc, fmap_app, list_to_set_app_L, fresh_snow_step_insert. simpl.
    set (index := foldl _ ∅ records) in *.
    set (slots := list_to_set (fresh_snow_slot <$> records)) in *.
    set (date := SnowDepth.date r.2). set (slot := (SnowDepth.altitude r.2, r.1)).
    set (inner := default ∅ (index !! date)).
    assert (Hin : (date, slot) ∈ slots ↔ is_Some (inner !! slot)).
    { rewrite IHslots. unfold inner. split.
      - by intros (i & -> & Hi).
      - destruct (index !! date) as [i|]; simpl; [by exists i|].
        rewrite lookup_empty. by intros [? ?]. }
    split.
    + pose proof (leaf_count_insert index date
                    (<[slot := SnowDepth.value r.2]> inner)) as Hcount.
      fold inner in Hcount. rewrite map_size_insert in Hcount.
      rewrite (right_id_L ∅ (∪)). change (fresh_snow_slot r) with (date, slot).
      destruct (inner !! slot) as [old|] eqn:Hslot.
      * assert ((date, slot) ∈ slots) by (apply Hin; eauto).
        replace (slots ∪ {[(date, slot)]}) with slots by set_solver.
        simpl in Hcount. lia.
      * assert ((date, slot) ∉ slots) by (rewrite Hin; by intros [? ?]).
        rewrite size_union, size_singleton by set_solver.
        simpl in Hcount. lia.
    + intros date' slot'. rewrite (right_id_L ∅ (∪)), elem_of_union, elem_of_singleton.
      change (fresh_snow_slot r) with (date, slot). rewrite IHslots. split.
      * intros [(i & Hi & Hslot)|[= -> ->]].
        -- destruct (decide (date = date')) as [<-|Hne].
           ++ rewrite lookup_insert_eq. eexists; split; [done|].
              unfold inner. rewrite Hi. simpl.
              destruct (decide (slot = slot')) as [<-|?];
                [by rewrite lookup_insert_eq|by rewrite lookup_insert_ne].
           ++ rewrite lookup_insert_ne by done. by exists i.
        -- rewrite lookup_insert_eq. eexists; split; [done|]. by rewrite lookup_insert_eq.
      * intros (i & Hi & Hslot). destruct (decide (date = date')) as [<-|Hne].
        -- rewrite lookup_insert_eq in Hi. injection Hi as <-.
           destruct (decide (slot = slot')) as [<-|?]; [by right|].
           rewrite lookup_insert_ne in Hslot by done. left.
           unfold inner in Hslot. destruct (index !! date) as [j|]; simpl in Hslot.
           ++ by exists j.
           ++ rewrite lookup_empty in Hslot. by destruct Hslot.
        -- rewrite lookup_insert_ne in Hi by done. left. by exists i.
Qed.

Lemma remove_dups_length_le `{EqDecision A} (l : list A) :
  length (remove_dups l) ≤ length l.
Proof.
  induction l as [|x l IH]; simpl; [done|].
  destruct (decide_rel _ _ _); simpl; lia.
Qed.

Lemma remove_dups_NoDup `{EqDecision A} (l : list A) : NoDup l → remove_dups l = l.
Proof.
  induction 1 as [|x l Hx _ IH]; simpl; [done|].
  destruct (decide_rel _ _ _); [done|by rewrite IH].
Qed.

(** C2, as amended: the two-level mapping [get_fresh_snow] returns has as
    many leaf values as there are distinct (date, altitude, exposition)
    triples among the fresh-snow depth records of all expositions; that
    is never more than the number of records, and it is the number of
    records when no two records share their triple. *)
Theorem get_fresh_snow_leaf_count self :
  leaf_count (Snow.get_fresh_snow self)
  = length (remove_dups (fresh_snow_slot <$> fresh_snow_records self))
  ∧ leaf_count (Snow.get_fresh_snow self) ≤ length (fresh_snow_records self)
  ∧ (NoDup (fresh_snow_slot <$> fresh_snow_records self) →
     leaf_count (Snow.get_fresh_snow self) = length (fresh_snow_records self)).
Proof.
  rewrite get_fresh_snow_records.
  destruct (fresh_snow_index_slots (fresh_snow_records self)) as [-> _].
  rewrite size_list_to_set_remove_dups. split; [done|]. split.
  - rewrite <- (length_fmap fresh_snow_slot (fresh_snow_records self)).
    apply remove_dups_length_le.
  - intros Hnd. by rewrite remove_dups_NoDup, length_fmap.
Qed.

Lemma get_fresh_snow_leaf_count_witness :
  NoDup (fresh_snow_slot <$> fresh_snow_records sample_snow)
  ∧ leaf_count (Snow.get_fresh_snow sample_snow) = 3.
Proof.
  assert (Hnd : NoDup (fresh_snow_slot <$> fresh_snow_records sample_snow)).
  { apply (bool_decide_unpack _). vm_compute. exact I. }
  split; [exact Hnd|].
  exact (proj2 (proj2 (get_fresh_snow_leaf_count sample_snow)) Hnd).
Defined.

(** C2 as stated fails: a record that repeats the date, altitude and
    exposition of an earlier one overwrites its leaf, and the mapping
    then has fewer leaves than the document has records. *)
Lemma get_fresh_snow_repeated_record :
  length (fresh_snow_records repeated_fresh_snow) = 2
  ∧ leaf_count (Snow.get_fresh_snow repeated_fresh_snow) = 1
  ∧ leaf_count (Snow.get_fresh_snow repeated_fresh_snow)
    ≠ length (fresh_snow_records repeated_fresh_snow).
Proof. split; [reflexivity|]. split; [by vm_compute|]. vm_compute. lia. Qed.

(** ** The store: what the methods read and write *)

Section StoreProperties.
Import Py.

Lemma bind_unfold {A B : Type} (m : M A) (k : A → M B) σ :
  (m ≫= k) σ = match m σ with
               | (Ok a, σ') => k a σ'
               | (Raise e, σ') => (Raise e, σ')
               end.
Proof. reflexivity. Qed.

Lemma readonly_ret {A : Type} (a : A) : readonly (mret a : M A).
Proof. by intros σ. Qed.

Lemma readonly_raise {A : Type} e : readonly (raise e : M A).
Proof. by intros σ. Qed.

Lemma readonly_bind {A B : Type} (m : M A) (k : A → M B) :
  readonly m → (∀ a, readonly (k a)) → readonly (m ≫= k).
Proof.
  intros Hm Hk σ. rewrite bind_unfold. specialize (Hm σ).
  destruct (m σ) as [[a|e] σ']; simpl in Hm; subst; [apply Hk|done].
Qed.

Lemma readonly_fmap {A B : Type} (f : A → B) (m : M A) :
  readonly m → readonly (f <$> m).
Proof. intros Hm. apply readonly_bind; [done|]. intros a. apply readonly_ret. Qed.

Lemma readonly_load l : readonly (load l).
Proof. intros σ. unfold load. by destruct (objects σ !! l). Qed.

Lemma readonly_raw_data self : readonly (raw_data self).
Proof. intros σ. unfold raw_data. by destruct (wrappers σ !! self). Qed.

Lemma readonly_for_return {A B : Type} (xs : list A) (body : A → M (option B)) :
  (∀ x, readonly (body x)) → readonly (for_return xs body).
Proof.
  intros Hbody. induction xs as [|x xs IH]; simpl; [apply readonly_ret|].
  apply readonly_bind; [done|]. intros [b|]; [apply readonly_ret|done].
Qed.
Lemma readonly_for_each {A : Type} (xs : list A) (body : A → M unit) :
  (∀ x, readonly (body x)) → readonly (for_each xs body).
Proof.
  intros Hbody. induction xs as [|x xs IH]; simpl; [apply readonly_ret|].
  apply readonly_bind; [done|]. by intros [].
Qed.

Create HintDb readonly.
#[local] Hint Resolve readonly_ret readonly_raise readonly_load readonly_raw_data : readonly.

(** One step of a proof that a computation only reads: through a bind, a
    loop or a case distinction, to the primitives. *)
Ltac readonly_step :=
  lazymatch goal with
  | |- readonly (mbind _ _) => apply readonly_bind; [|intros ?]
  | |- readonly (fmap _ _) => apply readonly_fmap
  | |- readonly (for_return _ _) => apply readonly_for_return; intros ?
  | |- readonly (for_each _ _) => apply readonly_for_each; intros ?
  | |- readonly (match ?x with _ => _ end) => destruct x
  | |- _ => solve [eauto with readonly]
  end.

Ltac readonly := repeat readonly_step.

Lemma readonly_subscript c k : readonly (subscript c k).
Proof. unfold subscript. readonly. Qed.

Lemma readonly_item_subscript i k : readonly (item_subscript i k).
Proof. destruct i; [apply readonly_subscript|apply readonly_raise]. Qed.

Lemma readonly_iterate c : readonly (iterate c).
Proof. unfold iterate. readonly. Qed.

Lemma readonly_hashable v : readonly (hashable v).
Proof. unfold hashable. readonly. Qed.

Lemma readonly_gt_int v n : readonly (gt_int v n).
Proof. unfold gt_int. readonly. Qed.

Lemma readonly_int int_of_str v : readonly (int int_of_str v).
Proof. unfold int. readonly. Qed.

Lemma readonly_dict_contains d k : readonly (dict_contains d k).
Proof. unfold dict_contains. readonly. Qed.

Lemma readonly_dict_getitem d k : readonly (dict_getitem d k).
Proof. unfold dict_getitem. readonly. Qed.

Lemma readonly_localize tzdata timestamp local_tz :
  readonly (RainObject.localize tzdata timestamp local_tz).
Proof. unfold RainObject.localize. readonly. Qed.

#[local] Hint Resolve readonly_subscript readonly_item_subscript readonly_iterate
  readonly_hashable readonly_gt_int readonly_int readonly_dict_contains
  readonly_dict_getitem readonly_localize : readonly.

(** *** The methods that only read *)

Lemma readonly_timezone self : readonly (RainObject.timezone self).
Proof. unfold RainObject.timezone. readonly. Qed.

Lemma readonly_forecasts self : readonly (RainObject.forecasts self).
Proof. unfold RainObject.forecasts. readonly. Qed.

Lemma readonly_timestamp_to_locale_time tzdata self timestamp :
  readonly (RainObject.timestamp_to_locale_time tzdata self timestamp).
Proof.
  unfold RainObject.timestamp_to_locale_time.
  apply readonly_bind; [apply readonly_timezone|]. intros tz. apply readonly_localize.
Qed.

#[local] Hint Resolve readonly_timezone readonly_forecasts
  readonly_timestamp_to_locale_time : readonly.

Lemma readonly_invoke_rain tzdata int_of_str self c :
  readonly (Calls.invoke_rain tzdata int_of_str self c).
Proof.
  destruct c; simpl; unfold Calls.discard;
    (apply readonly_bind; [|intros ?; apply readonly_ret]).
  - unfold RainObject.update_time. readonly.
  - unfold RainObject.geometry. readonly.
  - unfold RainObject.altitude. readonly.
  - unfold RainObject.location_name. readonly.
  - unfold RainObject.country. readonly.
  - unfold RainObject.french_department. readonly.
  - unfold RainObject.rain_product_available. readonly.
  - apply readonly_timezone.
  - unfold RainObject.confidence. readonly.
  - apply readonly_forecasts.
  - apply readonly_timestamp_to_locale_time.
  - unfold RainObject.next_rain_date_locale. readonly.
Qed.

Lemma readonly_get_massif_name self : readonly (SnowObject.get_massif_name self).
Proof. unfold SnowObject.get_massif_name. readonly. Qed.

Lemma readonly_get_max_avalanche_risk self :
  readonly (SnowObject.get_max_avalanche_risk self).
Proof. unfold SnowObject.get_max_avalanche_risk. readonly. Qed.

Lemma readonly_get_snow_depth_at_altitude self a :
  readonly (SnowObject.get_snow_depth_at_altitude self a).
Proof. unfold SnowObject.get_snow_depth_at_altitude. readonly. Qed.

Lemma readonly_get_avalanche_risk_by_location_value self v :
  readonly (SnowObject.get_avalanche_risk_by_location_value self v).
Proof. unfold SnowObject.get_avalanche_risk_by_location_value. readonly. Qed.
(** *** Stores that keep an earlier one *)

Lemma keeps_refl σ : keeps σ σ.
Proof. split; [done|apply firstn_all]. Qed.

Lemma keeps_length σ0 σ : keeps σ0 σ → length (objects σ0) ≤ length (objects σ).
Proof.
  intros [_ Htake]. apply (f_equal length) in Htake.
  rewrite length_take in Htake. lia.
Qed.

Lemma keeps_trans σ0 σ1 σ2 : keeps σ0 σ1 → keeps σ1 σ2 → keeps σ0 σ2.
Proof.
  intros H01 H12. pose proof (keeps_length _ _ H01) as Hlen.
  destruct H01 as [Hw01 Ho01], H12 as [Hw12 Ho12]. split; [congruence|].
  rewrite <- Ho01 at 2. rewrite <- Ho12, take_take. f_equal. lia.
Qed.

Lemma keeps_alloc σ0 σ o : keeps σ0 σ → keeps σ0 (alloc o σ).2.
Proof.
  intros Hkeeps. pose proof (keeps_length _ _ Hkeeps) as Hlen.
  destruct Hkeeps as [Hw Ho]. split; simpl; [done|]. by rewrite take_app_le.
Qed.

Lemma keeps_store σ0 σ l o :
  keeps σ0 σ → length (objects σ0) ≤ l → keeps σ0 (store l o σ).2.
Proof. intros [Hw Ho] Hl. split; simpl; [done|]. by rewrite take_insert_ge. Qed.

Lemma keeps_lookup σ0 σ l o :
  keeps σ0 σ → objects σ0 !! l = Some o → objects σ !! l = Some o.
Proof.
  intros [_ Ho] Hl. rewrite <- Ho in Hl.
  apply lookup_take_Some in Hl. by destruct Hl.
Qed.

(** *** Rules for [framed] *)

Lemma framed_readonly {A : Type} σ0 P (m : M A) :
  readonly m → framed σ0 P m (λ _, P).
Proof.
  intros Hm σ Hkeeps HP. specialize (Hm σ).
  by destruct (m σ) as [[a|e] σ']; simpl in *; subst.
Qed.

Lemma framed_bind {A B : Type} σ0 P Q R (m : M A) (k : A → M B) :
  framed σ0 P m Q → (∀ a, framed σ0 (Q a) (k a) R) → framed σ0 P (m ≫= k) R.
Proof.
  intros Hm Hk σ Hkeeps HP. rewrite bind_unfold.
  destruct (Hm σ Hkeeps HP) as [Hkeeps' HQ].
  destruct (m σ) as [[a|e] σ']; simpl in *; [by apply Hk|done].
Qed.

Lemma framed_bind_readonly {A B : Type} σ0 P R (m : M A) (k : A → M B) :
  readonly m → (∀ a, framed σ0 P (k a) R) → framed σ0 P (m ≫= k) R.
Proof. intros Hm. apply framed_bind. by apply framed_readonly. Qed.

Lemma framed_pure {A : Type} σ0 (φ : Prop) P (m : M A) Q :
  (φ → framed σ0 P m Q) → framed σ0 (λ σ, φ ∧ P σ) m Q.
Proof. intros Hm σ Hkeeps [Hφ HP]. by apply Hm. Qed.

Lemma framed_exists {A X : Type} σ0 (P : X → state → Prop) (m : M A) Q :
  (∀ x, framed σ0 (P x) m Q) → framed σ0 (λ σ, ∃ x, P x σ) m Q.
Proof. intros Hm σ Hkeeps [x HP]. by apply (Hm x). Qed.

Lemma framed_for_each {A : Type} σ0 I (xs : list A) (body : A → M unit) :
  (∀ x, framed σ0 I (body x) (λ _, I)) → framed σ0 I (for_each xs body) (λ _, I).
Proof.
  intros Hbody. induction xs as [|x xs IH]; simpl.
  - apply framed_readonly, readonly_ret.
  - eapply framed_bind; [apply Hbody|]. by intros [].
Qed.

Lemma framed_alloc σ0 P o :
  (∀ σ, P σ → P (alloc o σ).2) →
  framed σ0 P (alloc o)
    (λ v σ, (∃ l, v = VRef l ∧ length (objects σ0) ≤ l ∧ objects σ !! l = Some o) ∧ P σ).
Proof.
  intros HP σ Hkeeps HPσ. split; [by apply keeps_alloc|]. simpl. split; [|by apply HP].
  exists (length (objects σ)). split; [done|]. split; [by apply keeps_length|].
  by rewrite lookup_app_r, Nat.sub_diag.
Qed.

Lemma framed_store σ0 l o :
  length (objects σ0) ≤ l → framed σ0 (λ _, True) (store l o) (λ _ _, True).
Proof. intros Hl σ Hkeeps _. split; [by apply keeps_store|done]. Qed.
Lemma framed_alloc_fresh σ0 o :
  framed σ0 (λ _, True) (alloc o)
    (λ v _, (∃ l, v = VRef l ∧ length (objects σ0) ≤ l) ∧ True).
Proof.
  intros σ Hkeeps _. split; [by apply keeps_alloc|]. simpl. split; [|done].
  exists (length (objects σ)). split; [done|]. by apply keeps_length.
Qed.

(** The reads at the head of a computation leave store and precondition
    as they are. *)
Ltac framed_reads :=
  repeat lazymatch goal with
         | |- framed _ _ (mbind _ _) _ =>
             apply framed_bind_readonly; [solve [readonly]|intros ?]
         end.

(** *** Writes to the containers a method has created *)

Lemma framed_set_add σ0 l x :
  length (objects σ0) ≤ l → framed σ0 (λ _, True) (set_add (VRef l) x) (λ _ _, True).
Proof.
  intros Hl. unfold set_add. framed_reads.
  destruct a; [apply framed_readonly, readonly_raise..|by apply framed_store].
Qed.

Lemma framed_list_append σ0 l x :
  length (objects σ0) ≤ l → framed σ0 (λ _, True) (list_append (VRef l) x) (λ _ _, True).
Proof.
  intros Hl. unfold list_append. framed_reads.
  destruct a; [|by apply framed_store|]; apply framed_readonly, readonly_raise.
Qed.

Lemma framed_dict_setitem σ0 l k v :
  length (objects σ0) ≤ l →
  framed σ0 (λ _, True) (dict_setitem (VRef l) k v) (λ _ _, True).
Proof.
  intros Hl. unfold dict_setitem. framed_reads.
  destruct a; [by apply framed_store|..]; apply framed_readonly, readonly_raise.
Qed.

Lemma framed_sorted σ0 s : framed σ0 (λ _, True) (sorted s) (λ _ _, True).
Proof.
  unfold sorted. destruct s as [?|l]; [apply framed_readonly, readonly_raise|].
  framed_reads. destruct a; try apply framed_readonly, readonly_raise.
  destruct (sort_scalars elems); [|apply framed_readonly, readonly_raise].
  intros σ Hkeeps _. split; [by apply keeps_alloc|done].
Qed.

(** *** The methods that build a container *)

Lemma framed_get_available_altitudes σ0 self :
  framed σ0 (λ _, True) (SnowObject.get_available_altitudes self) (λ _ _, True).
Proof.
  unfold SnowObject.get_available_altitudes.
  eapply framed_bind; [apply framed_alloc_fresh|]. intros altitudes.
  apply framed_pure. intros (l & -> & Hl). framed_reads.
  eapply framed_bind; [|intros ?; apply framed_sorted].
  apply framed_for_each. intros exposition. framed_reads.
  apply framed_for_each. intros depth_info. framed_reads.
  by apply framed_set_add.
Qed.

Lemma framed_get_snow_depths σ0 self :
  framed σ0 (λ _, True) (SnowObject.get_snow_depths self) (λ _ _, True).
Proof.
  unfold SnowObject.get_snow_depths.
  eapply framed_bind; [apply framed_alloc_fresh|]. intros snow_depth_list.
  apply framed_pure. intros (l & -> & Hl). framed_reads.
  eapply framed_bind; [|intros ?; apply framed_readonly, readonly_ret].
  apply framed_for_each. intros exposition_data. framed_reads.
  apply framed_for_each. intros depth_data. framed_reads.
  eapply framed_bind; [apply framed_alloc_fresh|]. intros entry.
  apply framed_pure. intros _. by apply framed_list_append.
Qed.

Lemma framed_get_snow_limits σ0 self :
  framed σ0 (λ _, True) (SnowObject.get_snow_limits self) (λ _ _, True).
Proof.
  unfold SnowObject.get_snow_limits.
  eapply framed_bind; [apply framed_alloc_fresh|]. intros snow_limits.
  apply framed_pure. intros (l & -> & Hl). framed_reads.
  eapply framed_bind; [|intros ?; apply framed_readonly, readonly_ret].
  apply framed_for_each. intros exposition_data. framed_reads.
  by apply framed_dict_setitem.
Qed.

Lemma framed_get_avalanche_risks σ0 self :
  framed σ0 (λ _, True) (SnowObject.get_avalanche_risks self) (λ _ _, True).
Proof.
  unfold SnowObject.get_avalanche_risks.
  eapply framed_bind; [apply framed_alloc_fresh|]. intros risks_map.
  apply framed_pure. intros (l & -> & Hl). framed_reads.
  eapply framed_bind; [|intros ?; apply framed_readonly, readonly_ret].
  apply framed_for_each. intros risk. framed_reads.
  by apply framed_dict_setitem.
Qed.
(** *** [get_fresh_snow]: the dictionaries inside the dictionary *)

Lemma dict_set_Forall (Φ : key * val → Prop) k v items :
  (∀ j, Φ (j, v)) → Forall Φ items → Forall Φ (dict_set k v items).
Proof.
  intros Hv. induction 1 as [|[j w] items Hw Hitems IH]; simpl.
  - by repeat constructor.
  - destruct (key_eqb j k); constructor; done.
Qed.

Lemma dict_get_Forall (Φ : key * val → Prop) k v items :
  Forall Φ items → dict_get k items = Some v → ∃ j, Φ (j, v).
Proof.
  induction 1 as [|[j w] items Hw _ IH]; simpl; [done|].
  destruct (key_eqb j k); [|done]. intros [= <-]. by exists j.
Qed.

Lemma owns_alloc m o σ : owns m σ → owns m (alloc o σ).2.
Proof.
  intros [Hm Hitems]. split; simpl.
  - rewrite length_app. lia.
  - intros items. rewrite lookup_app_l by done. apply Hitems.
Qed.

Lemma owns_store_other m l o σ : owns m σ → m ≠ l → owns m (store l o σ).2.
Proof.
  intros [Hm Hitems] Hne. split; simpl.
  - by rewrite length_insert.
  - intros items. rewrite list_lookup_insert_ne by done. apply Hitems.
Qed.

Lemma framed_new_map σ0 :
  framed σ0 (λ _, True) (alloc (ODict []))
    (λ v σ, ∃ m, v = VRef m ∧ length (objects σ0) ≤ m ∧ owns m σ).
Proof.
  intros σ Hkeeps _. split; [by apply keeps_alloc|]. simpl.
  exists (length (objects σ)). split; [done|]. split; [by apply keeps_length|].
  split; simpl.
  - rewrite length_app. simpl. lia.
  - intros items. rewrite lookup_app_r, Nat.sub_diag by done.
    intros [= <-]. constructor.
Qed.

(** [fresh_snow_map[date] = {}] *)
Lemma framed_new_entry σ0 m k :
  length (objects σ0) ≤ m →
  framed σ0 (owns m) (new ← alloc (ODict []); dict_setitem (VRef m) k new) (λ _, owns m).
Proof.
  intros Hm σ Hkeeps [Hlen Hitems]. rewrite bind_unfold. simpl.
  unfold dict_setitem. rewrite bind_unfold. unfold load. simpl.
  rewrite lookup_app_l by done.
  assert (Hnew : keeps σ0 (alloc (ODict []) σ).2) by by apply keeps_alloc.
  assert (Howns : owns m (alloc (ODict []) σ).2) by by apply owns_alloc.
  destruct (objects σ !! m) as [[items| |]|] eqn:Hobj; simpl; try done.
  split.
  - exact (keeps_store _ _ m _ Hnew Hm).
  - split; simpl.
    + rewrite length_insert, length_app. lia.
    + intros items'. rewrite list_lookup_insert_eq by (rewrite length_app; lia).
      intros [= <-]. apply dict_set_Forall; [|by apply Hitems].
      intros j. by exists (length (objects σ)).
Qed.

(** [fresh_snow_map[date]] is one of the dictionaries the method has
    put there. *)
Lemma framed_get_entry σ0 m k :
  framed σ0 (owns m) (dict_getitem (VRef m) k)
    (λ inner σ, (∃ l, inner = VRef l ∧ m < l) ∧ owns m σ).
Proof.
  intros σ Hkeeps Howns. unfold dict_getitem. rewrite bind_unfold. unfold load.
  destruct (objects σ !! m) as [[items| |]|] eqn:Hobj; simpl; try done.
  destruct (dict_get (KScalar k) items) as [v|] eqn:Hget; simpl; [|done].
  split; [done|]. split; [|done].
  destruct Howns as [_ Hitems].
  destruct (dict_get_Forall _ _ _ _ (Hitems _ Hobj) Hget) as (j & l & Hl & Hlt).
  by exists l.
Qed.

(** [fresh_snow_map[date][(altitude, exposition)] = value] *)
Lemma framed_set_slot σ0 m inner k v :
  length (objects σ0) ≤ m →
  framed σ0 (λ σ, (∃ l, inner = VRef l ∧ m < l) ∧ owns m σ)
    (dict_setitem inner k v) (λ _, owns m).
Proof.
  intros Hm σ Hkeeps [(l & -> & Hl) Howns]. unfold dict_setitem.
  rewrite bind_unfold. unfold load.
  destruct (objects σ !! l) as [[items| |]|] eqn:Hobj; simpl; try done.
  split.
  - apply (keeps_store _ _ l (ODict (dict_set k v items)) Hkeeps). lia.
  - apply (owns_store_other m l (ODict (dict_set k v items)) _ Howns). lia.
Qed.

Lemma framed_get_fresh_snow σ0 self :
  framed σ0 (λ _, True) (SnowObject.get_fresh_snow self) (λ _ _, True).
Proof.
  unfold SnowObject.get_fresh_snow.
  eapply framed_bind; [apply framed_new_map|]. intros fresh_snow_map.
  apply framed_exists. intros m.
  apply framed_pure. intros ->. apply framed_pure. intros Hm.
  framed_reads.
  eapply framed_bind; [|intros ? σ Hkeeps _; by split].
  apply framed_for_each. intros exposition_data. framed_reads.
  apply framed_for_each. intros snow_depth. framed_reads.
  eapply framed_bind.
  { lazymatch goal with
    | |- framed _ _ (if ?present then _ else _) _ => destruct present
    end; [apply framed_readonly, readonly_ret|by apply framed_new_entry]. }
  intros ?.
  eapply framed_bind; [apply framed_get_entry|]. intros inner. framed_reads.
  by apply framed_set_slot.
Qed.
(** *** Sequences of calls *)

Lemma discard_state {A : Type} (m : M A) σ : (Calls.discard m σ).2 = (m σ).2.
Proof. unfold Calls.discard. rewrite bind_unfold. by destruct (m σ) as [[a|e] σ']. Qed.

Lemma framed_keeps {A : Type} σ0 (m : M A) Q σ :
  framed σ0 (λ _, True) m Q → keeps σ0 σ → keeps σ0 (m σ).2.
Proof. intros Hm Hkeeps. by destruct (Hm σ Hkeeps I). Qed.

Lemma keeps_invoke tzdata int_of_str self c σ0 σ :
  keeps σ0 σ → keeps σ0 (Calls.invoke tzdata int_of_str self c σ).2.
Proof.
  intros Hkeeps. destruct c as [c|c]; simpl.
  - by rewrite readonly_invoke_rain.
  - destruct c; simpl; rewrite discard_state.
    + by rewrite readonly_get_massif_name.
    + by rewrite readonly_get_max_avalanche_risk.
    + by rewrite readonly_get_snow_depth_at_altitude.
    + by eapply framed_keeps; [apply framed_get_available_altitudes|].
    + by rewrite readonly_get_avalanche_risk_by_location_value.
    + by eapply framed_keeps; [apply framed_get_snow_depths|].
    + by eapply framed_keeps; [apply framed_get_snow_limits|].
    + by eapply framed_keeps; [apply framed_get_avalanche_risks|].
    + by eapply framed_keeps; [apply framed_get_fresh_snow|].
Qed.

Lemma keeps_run tzdata int_of_str self calls σ0 σ :
  keeps σ0 σ → keeps σ0 (Calls.run tzdata int_of_str self calls σ).
Proof.
  revert σ. induction calls as [|c calls IH]; intros σ Hkeeps; [done|].
  apply IH. by apply keeps_invoke.
Qed.
End StoreProperties.

(** C8: after any sequence of calls to the accessors and queries of a
    wrapper, the wrapper's [raw_data] is the document it was constructed
    with, and every container the store held at construction, the
    document's among them, is as it was: the calls write only to
    containers they have created themselves. *)
Theorem wrapper_calls_keep_document tzdata int_of_str raw calls σ :
  let self := length (Py.wrappers σ) in
  let σ1 := (Py.__init__ raw σ).2 in
  let σ2 := Calls.run tzdata int_of_str self calls σ1 in
  (Py.__init__ raw σ).1 = Ok self
  ∧ Py.wrappers σ1 !! self = Some raw
  ∧ Py.wrappers σ2 !! self = Some raw
  ∧ take (length (Py.objects σ1)) (Py.objects σ2) = Py.objects σ1.
Proof.
  intros self σ1 σ2.
  assert (Hraw : Py.wrappers σ1 !! self = Some raw).
  { subst self σ1. simpl. by rewrite lookup_app_r, Nat.sub_diag. }
  destruct (keeps_run tzdata int_of_str self calls σ1 σ1 (keeps_refl σ1)) as [Hw Ho].
  fold σ2 in Hw, Ho. by rewrite Hw.
Qed.

(** ** Construction and the missing keys *)

Section MissingKeys.
Import Py.

Lemma raw_data_lookup self raw σ :
  wrappers σ !! self = Some raw → raw_data self σ = (Ok raw, σ).
Proof. intros Hraw. unfold raw_data. by rewrite Hraw. Qed.

Lemma subscript_state c k σ : (subscript c k σ).2 = σ.
Proof. apply readonly_subscript. Qed.

(** A subscript that finds its container answers the same in any store
    that keeps it. *)
Lemma subscript_keeps c k σ σ' :
  keeps σ σ' →
  (subscript c k σ).1 ≠ Raise SystemError →
  (subscript c k σ').1 = (subscript c k σ).1.
Proof.
  intros Hkeeps. destruct c as [s|l]; simpl; [done|].
  rewrite !bind_unfold. unfold load.
  destruct (objects σ !! l) as [o|] eqn:Hl; simpl; [|done].
  rewrite (keeps_lookup _ _ _ _ Hkeeps Hl). intros _. simpl.
  destruct o as [items| |]; [destruct (dict_get _ items)|..]; done.
Qed.

Lemma walk_keeps c path σ σ' :
  keeps σ σ' →
  (Calls.walk c path σ).1 ≠ Raise SystemError →
  (Calls.walk c path σ').1 = (Calls.walk c path σ).1.
Proof.
  intros Hkeeps. revert c. induction path as [|k path IH]; intros c; simpl; [done|].
  rewrite !bind_unfold.
  pose proof (subscript_keeps c k σ σ' Hkeeps) as Hsub.
  pose proof (subscript_state c k σ) as Hσ. pose proof (subscript_state c k σ') as Hσ'.
  destruct (subscript c k σ) as [[v|e] σ1], (subscript c k σ') as [[v'|e'] σ1'];
    simpl in *; subst; intros Hok.
  - assert (Ok v' = Ok v) as [= ->] by (apply Hsub; done). by apply IH.
  - by assert (Raise e' = Ok v) by (apply Hsub; done).
  - by assert (Ok v' = Raise e) by (apply Hsub; done).
  - by apply Hsub.
Qed.

Lemma walk_missing_key l items k rest σ :
  objects σ !! l = Some (ODict items) →
  dict_get (KScalar (SStr k)) items = None →
  Calls.walk (VRef l) (k :: rest) σ = (Raise (KeyError (KScalar (SStr k))), σ).
Proof.
  intros Hl Hk. simpl. rewrite !bind_unfold. unfold load. by rewrite Hl, Hk.
Qed.

(** One subscript of the walk in [H], matched against the same subscript
    at the head of the goal. *)
Ltac walk_step H :=
  cbn [Calls.walk] in H; rewrite ?bind_unfold in H; rewrite ?bind_unfold;
  lazymatch type of H with
  | context [subscript ?c ?k ?σ] =>
      let Hσ := fresh "Hσ" in
      pose proof (subscript_state c k σ) as Hσ;
      destruct (subscript c k σ) as [[?|?] ?]; simpl in Hσ; subst;
      [|simpl in *; injection H as ->; done]
  end.

(** A walk that raises [KeyError] raises it in the method that starts
    with the same subscripts. *)
Ltac walk_fails Hraw H :=
  rewrite ?bind_unfold; rewrite (raw_data_lookup _ _ _ Hraw);
  repeat walk_step H; simpl in H; discriminate H.

Lemma invoke_rain_needs tzdata int_of_str self c raw σ k :
  wrappers σ !! self = Some raw →
  (Calls.walk raw (Calls.needs (Calls.OnRain c)) σ).1 = Raise (KeyError k) →
  (Calls.invoke_rain tzdata int_of_str self c σ).1 = Raise (KeyError k).
Proof.
  intros Hraw Hwalk.
  destruct c; simpl in Hwalk |- *; unfold Calls.discard;
    unfold RainObject.update_time, RainObject.geometry, RainObject.altitude,
      RainObject.location_name, RainObject.country, RainObject.french_department,
      RainObject.rain_product_available, RainObject.confidence,
      RainObject.next_rain_date_locale, RainObject.timestamp_to_locale_time,
      RainObject.timezone, RainObject.forecasts;
    walk_fails Hraw Hwalk.
Qed.

(** The store a method that first creates a container goes on with. *)
Lemma walk_after_alloc raw path o σ k :
  (Calls.walk raw path σ).1 = Raise (KeyError k) →
  (Calls.walk raw path (alloc o σ).2).1 = Raise (KeyError k).
Proof.
  intros Hwalk. rewrite (walk_keeps _ _ σ); [done| |by rewrite Hwalk].
  apply keeps_alloc, keeps_refl.
Qed.

Lemma invoke_snow_needs self c raw σ k :
  wrappers σ !! self = Some raw →
  (Calls.walk raw (Calls.needs (Calls.OnSnow c)) σ).1 = Raise (KeyError k) →
  (Calls.invoke_snow self c σ).1 = Raise (KeyError k).
Proof.
  intros Hraw Hwalk.
  destruct c; cbn [Calls.needs] in Hwalk; simpl; unfold Calls.discard.
  - unfold SnowObject.get_massif_name. walk_fails Hraw Hwalk.
  - unfold SnowObject.get_max_avalanche_risk. walk_fails Hraw Hwalk.
  - unfold SnowObject.get_snow_depth_at_altitude. rewrite bind_unfold.
    unfold fmap, M_fmap. walk_fails Hraw Hwalk.
  - unfold SnowObject.get_available_altitudes. rewrite !bind_unfold.
    apply (walk_after_alloc _ _ (OSet [])) in Hwalk.
    assert (Hraw' : wrappers (alloc (OSet []) σ).2 !! self = Some raw) by done.
    destruct (alloc (OSet []) σ) as [[altitudes|?] σ'] eqn:Halloc; [|done].
    simpl in Hwalk, Hraw'. walk_fails Hraw' Hwalk.
  - unfold SnowObject.get_avalanche_risk_by_location_value. rewrite bind_unfold.
    unfold fmap, M_fmap. walk_fails Hraw Hwalk.
  - unfold SnowObject.get_snow_depths. rewrite !bind_unfold.
    apply (walk_after_alloc _ _ (OList [])) in Hwalk.
    assert (Hraw' : wrappers (alloc (OList []) σ).2 !! self = Some raw) by done.
    destruct (alloc (OList []) σ) as [[snow_depth_list|?] σ'] eqn:Halloc; [|done].
    simpl in Hwalk, Hraw'. walk_fails Hraw' Hwalk.
  - unfold SnowObject.get_snow_limits. rewrite !bind_unfold.
    apply (walk_after_alloc _ _ (ODict [])) in Hwalk.
    assert (Hraw' : wrappers (alloc (ODict []) σ).2 !! self = Some raw) by done.
    destruct (alloc (ODict []) σ) as [[snow_limits|?] σ'] eqn:Halloc; [|done].
    simpl in Hwalk, Hraw'. walk_fails Hraw' Hwalk.
  - unfold SnowObject.get_avalanche_risks. rewrite !bind_unfold.
    apply (walk_after_alloc _ _ (ODict [])) in Hwalk.
    assert (Hraw' : wrappers (alloc (ODict []) σ).2 !! self = Some raw) by done.
    destruct (alloc (ODict []) σ) as [[risks_map|?] σ'] eqn:Halloc; [|done].
    simpl in Hwalk, Hraw'. walk_fails Hraw' Hwalk.
  - unfold SnowObject.get_fresh_snow. rewrite !bind_unfold.
    apply (walk_after_alloc _ _ (ODict [])) in Hwalk.
    assert (Hraw' : wrappers (alloc (ODict []) σ).2 !! self = Some raw) by done.
    destruct (alloc (ODict []) σ) as [[fresh_snow_map|?] σ'] eqn:Halloc; [|done].
    simpl in Hwalk, Hraw'. walk_fails Hraw' Hwalk.
Qed.
Lemma invoke_needs tzdata int_of_str self c raw σ k :
  wrappers σ !! self = Some raw →
  (Calls.walk raw (Calls.needs c) σ).1 = Raise (KeyError k) →
  (Calls.invoke tzdata int_of_str self c σ).1 = Raise (KeyError k).
Proof.
  destruct c as [c|c]; [apply invoke_rain_needs|apply invoke_snow_needs].
Qed.

(** A projection is the walk along its own keys. *)
Lemma invoke_projection tzdata int_of_str self c raw σ :
  wrappers σ !! self = Some raw →
  Calls.projection c = true →
  Calls.invoke tzdata int_of_str self c σ
  = Calls.discard (Calls.walk raw (Calls.needs c)) σ.
Proof.
  intros Hraw Hproj.
  destruct c as [c|c]; destruct c; try discriminate Hproj; simpl; unfold Calls.discard;
    unfold RainObject.geometry, RainObject.altitude, RainObject.location_name,
      RainObject.country, RainObject.french_department,
      RainObject.rain_product_available, RainObject.confidence, RainObject.timezone,
      RainObject.forecasts, SnowObject.get_massif_name, SnowObject.get_max_avalanche_risk;
    cbn [Calls.walk Calls.needs];
    repeat rewrite bind_unfold; rewrite (raw_data_lookup _ _ _ Hraw);
    repeat rewrite bind_unfold;
    repeat (lazymatch goal with
            | |- context [subscript ?c ?k ?σ] =>
                destruct (subscript c k σ) as [[?|?] ?]; simpl; repeat rewrite bind_unfold
            end);
    done.
Qed.

Lemma subscript_KeyError c k σ j :
  (subscript c k σ).1 = Raise (KeyError j) → j = KScalar (SStr k).
Proof.
  destruct c as [s|l]; simpl; [done|]. rewrite bind_unfold. unfold load.
  destruct (objects σ !! l) as [[items| |]|]; simpl; try done.
  destruct (dict_get _ items); simpl; [done|]. by intros [= <-].
Qed.

Lemma walk_KeyError c path σ j :
  (Calls.walk c path σ).1 = Raise (KeyError j) → ∃ k, j = KScalar (SStr k) ∧ k ∈ path.
Proof.
  revert c. induction path as [|k path IH]; intros c; simpl; [done|].
  rewrite bind_unfold. pose proof (subscript_KeyError c k σ j) as Hsub.
  pose proof (subscript_state c k σ) as Hσ.
  destruct (subscript c k σ) as [[v|e] σ']; simpl in *; subst.
  - intros (k' & -> & Hin)%IH. exists k'. split; [done|by right].
  - intros Hraise. exists k. split; [by apply Hsub|left].
Qed.

Lemma discard_result {A : Type} (m : M A) σ e :
  (Calls.discard m σ).1 = Raise e ↔ (m σ).1 = Raise e.
Proof.
  unfold Calls.discard. rewrite bind_unfold.
  destruct (m σ) as [[a|e'] σ']; simpl; [done|]. split; by intros [= ->].
Qed.
End MissingKeys.

(** C7: constructing a wrapper succeeds on every input, reads nothing of
    it and leaves the store's containers alone; a document that lacks a
    key fails only later, with [KeyError] on that key, when a method whose
    subscripts reach the key is invoked. An accessor that is a mere
    projection is the walk along its own keys, so it raises [KeyError]
    for one of these keys only, whatever else the document lacks. *)
Theorem construction_defers_missing_keys tzdata int_of_str raw σ :
  let self := length (Py.wrappers σ) in
  let σ1 := (Py.__init__ raw σ).2 in
  (Py.__init__ raw σ).1 = Ok self
  ∧ Py.objects σ1 = Py.objects σ
  ∧ Py.raw_data self σ1 = (Ok raw, σ1)
  ∧ (∀ c l items k rest,
       raw = Py.VRef l →
       Py.objects σ !! l = Some (Py.ODict items) →
       Py.dict_get (KScalar (SStr k)) items = None →
       Calls.needs c = k :: rest →
       (Calls.invoke tzdata int_of_str self c σ1).1 = Raise (KeyError (KScalar (SStr k))))
  ∧ (∀ c j,
       (Calls.walk raw (Calls.needs c) σ1).1 = Raise (KeyError j) →
       (Calls.invoke tzdata int_of_str self c σ1).1 = Raise (KeyError j))
  ∧ (∀ c, Calls.projection c = true →
          Calls.invoke tzdata int_of_str self c σ1
          = Calls.discard (Calls.walk raw (Calls.needs c)) σ1)
  ∧ (∀ c j,
       Calls.projection c = true →
       (Calls.invoke tzdata int_of_str self c σ1).1 = Raise (KeyError j) →
       ∃ k, j = KScalar (SStr k) ∧ k ∈ Calls.needs c).
Proof.
  intros self σ1.
  assert (Hraw : Py.wrappers σ1 !! self = Some raw).
  { subst self σ1. simpl. by rewrite lookup_app_r, Nat.sub_diag. }
  split; [done|]. split; [done|]. split; [by apply raw_data_lookup|].
  split; [|split; [|split]].
  - intros c l items k rest -> Hl Hk Hneeds.
    apply (invoke_needs _ _ _ _ _ _ _ Hraw). rewrite Hneeds.
    by rewrite (walk_missing_key l items).
  - intros c j. by apply invoke_needs.
  - intros c. by apply invoke_projection.
  - intros c j Hproj. rewrite (invoke_projection _ _ _ _ _ _ Hraw Hproj), discard_result.
    apply walk_KeyError.
Qed.

(** The document of [store_without_properties]: the wrapper is built,
    [geometry] returns, [altitude] raises [KeyError: 'properties']. *)
Lemma construction_defers_missing_keys_witness :
  let σ1 := (Py.__init__ (Py.VRef 2) store_without_properties).2 in
  (Py.__init__ (Py.VRef 2) store_without_properties).1 = Ok 0
  ∧ (Calls.invoke fixed_zones plain_decimal 0 (Calls.OnRain Calls.altitude) σ1).1
    = Raise (KeyError (KScalar (SStr "properties")))
  ∧ (Calls.invoke fixed_zones plain_decimal 0 (Calls.OnRain Calls.geometry) σ1).1 = Ok ().
Proof.
  intros σ1.
  destruct (construction_defers_missing_keys fixed_zones plain_decimal
              (Py.VRef 2) store_without_properties)
    as (Hinit & _ & _ & Hmissing & _ & Hprojection & _).
  split; [exact Hinit|]. split.
  - apply (Hmissing (Calls.OnRain Calls.altitude) 2
             [(KScalar (SStr "geometry"), Py.VRef 1);
              (KScalar (SStr "update_time"), Py.VScalar (SInt 1702567200))]
             "properties" ["altitude"]); reflexivity.
  - pose proof (Hprojection (Calls.OnRain Calls.geometry) eq_refl) as Hgeometry.
    exact (eq_trans (f_equal fst Hgeometry) eq_refl).
Defined.

(** ** The object layer against the typed layer

    On a store that holds, at the wrapped value, a document of the shape
    the [TypedDict] declarations describe, every method of the object
    layer returns what the typed layer computes, and leaves the store as
    it found it or grown by the container it returns. *)

(** Merge sort commutes with an embedding of the order. *)
Section merge_sort_fmap.
Context {A B : Type} (f : A → B) (R : relation A) (R' : relation B).
Context `{∀ x y, Decision (R x y), ∀ x y, Decision (R' x y)}.
Hypothesis HR : ∀ x y, R' (f x) (f y) ↔ R x y.

Lemma list_merge_fmap (l1 l2 : list A) :
  list_merge R' (f <$> l1) (f <$> l2) = f <$> list_merge R l1 l2.
Proof using HR.
  revert l2. induction l1 as [|x1 l1 IH1]; intros l2.
  - by rewrite fmap_nil, !list_merge_nil_l.
  - induction l2 as [|x2 l2 IH2].
    + by rewrite fmap_nil, !list_merge_nil_r.
    + rewrite !fmap_cons, !list_merge_cons.
      destruct (decide (R x1 x2)) as [Hx|Hx], (decide (R' (f x1) (f x2))) as [Hx'|Hx'].
      * rewrite fmap_cons. f_equal. rewrite <- IH1. by rewrite fmap_cons.
      * by apply HR in Hx.
      * by apply HR in Hx'.
      * rewrite fmap_cons. f_equal. rewrite <- IH2. by rewrite fmap_cons.
Qed.

(** Stacks of runs that correspond under [f]. *)
Lemma merge_list_to_stack_fmap (st : list (option (list A))) st' (l : list A) :
  Forall2 (λ o o', o' = (λ l : list A, f <$> l) <$> o) st st' →
  Forall2 (λ o o', o' = (λ l : list A, f <$> l) <$> o)
    (merge_list_to_stack R st l) (merge_list_to_stack R' st' (f <$> l)).
Proof using HR.
  intros Hst. revert l. induction Hst as [|[l1|] o' st st' -> Hst IH]; intros l; simpl.
  - by repeat constructor.
  - constructor; [done|]. rewrite list_merge_fmap. apply IH.
  - by repeat constructor.
Qed.

Lemma merge_stack_fmap (st : list (option (list A))) st' :
  Forall2 (λ o o', o' = (λ l : list A, f <$> l) <$> o) st st' →
  merge_stack R' st' = f <$> merge_stack R st.
Proof using HR.
  induction 1 as [|[l1|] o' st st' -> _ IH]; simpl; [done| |done].
  by rewrite IH, list_merge_fmap.
Qed.

Lemma merge_sort_aux_fmap (st : list (option (list A))) st' (l : list A) :
  Forall2 (λ o o', o' = (λ l : list A, f <$> l) <$> o) st st' →
  merge_sort_aux R' st' (f <$> l) = f <$> merge_sort_aux R st l.
Proof using HR.
  revert st st'. induction l as [|x l IH]; intros st st' Hst; simpl.
  - by apply merge_stack_fmap.
  - apply IH. by apply (merge_list_to_stack_fmap st st' [x]).
Qed.

Lemma merge_sort_fmap (l : list A) : merge_sort R' (f <$> l) = f <$> merge_sort R l.
Proof using HR. apply merge_sort_aux_fmap. constructor. Qed.
End merge_sort_fmap.

Lemma merge_sort_elements (zs : list Z) (s : gset Z) :
  NoDup zs → list_to_set zs = s → merge_sort Z.le zs = sorted s.
Proof.
  intros Hnd <-. unfold sorted.
  apply (StronglySorted_unique Z.le); try apply (StronglySorted_merge_sort Z.le).
  rewrite !merge_sort_Permutation. apply NoDup_Permutation; [done|apply NoDup_elements|].
  intros x. by rewrite elem_of_elements, elem_of_list_to_set.
Qed.

Section Refinement.
Import Py.
Import Built.

Lemma ret_unfold {A : Type} (a : A) σ : (mret a : M A) σ = (Ok a, σ).
Proof. done. Qed.

Lemma subscript_dict_at σ fields v k P :
  Shape.dict_at σ fields v → (k, P) ∈ fields →
  ∃ w, subscript v k σ = (Ok w, σ) ∧ P w.
Proof.
  intros (l & items & -> & Hl & Hfields) Hin.
  rewrite Forall_forall in Hfields. destruct (Hfields _ Hin) as (w & Hget & Hw).
  exists w. split; [|done]. simpl in *. rewrite bind_unfold. unfold load. by rewrite Hl, Hget.
Qed.

Lemma iterate_list_at {A : Type} σ (elem_at : A → val → Prop) xs v :
  Shape.list_at σ elem_at xs v →
  ∃ elems, iterate v σ = (Ok (IVal <$> elems), σ) ∧ Forall2 elem_at xs elems.
Proof.
  intros (l & elems & -> & Hl & Helems). exists elems. split; [|done].
  simpl. rewrite bind_unfold. unfold load. by rewrite Hl.
Qed.

Ltac field_in := repeat first [apply list_elem_of_here | apply list_elem_of_further].

(** Runs the subscript at the head of the goal on a value of known shape. *)
Ltac read H k :=
  let w := fresh "w" in
  let Hw := fresh "H" w in
  rewrite ?bind_unfold;
  let E := fresh "E" in
  epose proof (subscript_dict_at _ _ _ k _ H) as E;
  edestruct E as (w & -> & Hw); [field_in|]; clear E; lazy beta iota.

Lemma gt_int_int r n σ : gt_int (VScalar (SInt r)) n σ = (Ok (n <? r)%Z, σ).
Proof.
  unfold gt_int. simpl. do 2 f_equal.
  unfold Qle_bool. simpl. rewrite !Z.mul_1_r.
  destruct (Z.ltb_spec n r), (Z.leb_spec r n); simpl; try done; lia.
Qed.

Lemma timezone_rain_data self raw d σ :
  wrappers σ !! self = Some raw → Shape.rain_data σ d raw →
  RainObject.timezone self σ = (Ok (VScalar (SStr (Rain.timezone (Rain.__init__ d)))), σ).
Proof.
  intros Hraw Hd. unfold RainObject.timezone.
  rewrite bind_unfold, (raw_data_lookup _ _ _ Hraw).
  read Hd "properties". read Hw "timezone". by rewrite Hw0.
Qed.

Lemma next_rain_loop_rain_data tzdata int_of_str self raw d σ forecasts elems :
  wrappers σ !! self = Some raw → Shape.rain_data σ d raw →
  Forall2 (Shape.forecast_data σ) forecasts elems →
  for_return (IVal <$> elems) (λ forecast,
    t ← item_subscript forecast "time";
    n ← int int_of_str t;
    forecast_time ← RainObject.timestamp_to_locale_time tzdata self (VScalar (SInt n));
    r ← item_subscript forecast "rain_intensity";
    rainy ← gt_int r 1;
    if rainy : bool then mret (Some forecast_time) else mret None) σ
  = (Rain.next_rain_loop tzdata (Rain.__init__ d) forecasts, σ).
Proof.
  intros Hraw Hd. induction 1 as [|f e forecasts elems He _ IH]; [done|].
  cbn [fmap list_fmap for_return Rain.next_rain_loop item_subscript].
  read He "time". rewrite Hw. cbn [int]. rewrite bind_unfold. simpl.
  unfold RainObject.timestamp_to_locale_time. rewrite !bind_unfold.
  rewrite (timezone_rain_data _ _ _ _ Hraw Hd).
  unfold Rain.timestamp_to_locale_time, RainObject.localize.
  destruct (timestamp_to_dateime_with_locale_tz _ _ _) as [forecast_time|e']; [|done].
  simpl. read He "rain_intensity". rewrite Hw0, bind_unfold, gt_int_int.
  destruct (1 <? _)%Z; [done|apply IH].
Qed.

(** On a store that holds a [RainData] document, [next_rain_date_locale]
    returns what the typed method computes -- a time, [None] or the
    exception of the localization -- and writes nothing. *)
Theorem next_rain_date_locale_rain_data tzdata int_of_str self raw d σ :
  wrappers σ !! self = Some raw → Shape.rain_data σ d raw →
  RainObject.next_rain_date_locale tzdata int_of_str self σ
  = (Rain.next_rain_date_locale tzdata (Rain.__init__ d), σ).
Proof.
  intros Hraw Hd. unfold RainObject.next_rain_date_locale, RainObject.forecasts.
  rewrite !bind_unfold, (raw_data_lookup _ _ _ Hraw).
  read Hd "properties". read Hw "forecast". rewrite ?bind_unfold.
  destruct (iterate_list_at _ _ _ _ Hw0) as (elems & -> & Helems).
  by apply (next_rain_loop_rain_data _ _ _ raw).
Qed.

Lemma eq_int_int a n : eq_int (VScalar (SInt a)) n = (a =? n)%Z.
Proof.
  unfold eq_int, scalar_eqb, Qeq_bool. simpl. by rewrite !Z.mul_1_r.
Qed.

Lemma depth_loop_snow_depth σ altitude depths elems :
  Forall2 (Shape.snow_depth σ) depths elems →
  for_return (IVal <$> elems) (λ depth,
    a ← item_subscript depth "altitude";
    if eq_int a altitude
    then v ← item_subscript depth "value"; mret (Some v)
    else mret None) σ
  = (Ok (VScalar ∘ SInt <$> Snow.depth_loop altitude depths), σ).
Proof.
  induction 1 as [|d e depths elems He _ IH]; [done|].
  cbn [fmap list_fmap for_return Snow.depth_loop item_subscript].
  read He "altitude". rewrite Hw, eq_int_int.
  destruct (_ =? _)%Z; [|apply IH].
  read He "value". by rewrite Hw0.
Qed.

Lemma exposition_loop_total_snow σ altitude infos elems :
  Forall2 (Shape.total_snow_per_exposition σ) infos elems →
  for_return (IVal <$> elems) (λ snow_depth_info,
    depths ← item_subscript snow_depth_info "total_snow_depth";
    depths ← iterate depths;
    for_return depths (λ depth,
      a ← item_subscript depth "altitude";
      if eq_int a altitude
      then v ← item_subscript depth "value"; mret (Some v)
      else mret None)) σ
  = (Ok (VScalar ∘ SInt <$> Snow.exposition_loop altitude infos), σ).
Proof.
  induction 1 as [|i e infos elems He _ IH]; [done|].
  cbn [fmap list_fmap for_return Snow.exposition_loop item_subscript].
  read He "total_snow_depth". rewrite ?bind_unfold.
  destruct (iterate_list_at _ _ _ _ Hw) as (depths & -> & Hdepths).
  rewrite (depth_loop_snow_depth _ _ _ _ Hdepths).
  destruct (Snow.depth_loop _ _); [done|apply IH].
Qed.

(** On a store that holds a [SnowData] document,
    [get_snow_depth_at_altitude] returns the depth the typed method finds,
    or [None], and writes nothing. *)
Theorem get_snow_depth_at_altitude_snow_data self raw d σ altitude :
  wrappers σ !! self = Some raw → Shape.snow_data σ d raw →
  SnowObject.get_snow_depth_at_altitude self altitude σ
  = (Ok (Shape.optional_int (Snow.get_snow_depth_at_altitude (Snow.__init__ d) altitude)), σ).
Proof.
  intros Hraw Hd. unfold SnowObject.get_snow_depth_at_altitude.
  rewrite !bind_unfold, (raw_data_lookup _ _ _ Hraw).
  read Hd "properties". read Hw "total_snow_per_exposition". rewrite ?bind_unfold.
  destruct (iterate_list_at _ _ _ _ Hw0) as (elems & -> & Helems).
  unfold fmap at 1, M_fmap. rewrite bind_unfold.
  rewrite (exposition_loop_total_snow _ _ _ _ Helems).
  unfold Snow.get_snow_depth_at_altitude. simpl.
  by destruct (Snow.exposition_loop _ _).
Qed.

Lemma eq_str_str s t : eq_str (VScalar (SStr s)) t = bool_decide (s = t).
Proof. done. Qed.

Lemma risk_loop_risks σ location_value risks elems :
  Forall2 (Shape.avalanche_risk_per_location σ) risks elems →
  for_return (IVal <$> elems) (λ risk,
    l ← item_subscript risk "location";
    v ← subscript l "value";
    if eq_str v location_value
    then r ← item_subscript risk "avalanche_risk"; mret (Some r)
    else mret None) σ
  = (Ok (VScalar ∘ SInt <$> Snow.risk_loop location_value risks), σ).
Proof.
  induction 1 as [|r e risks elems He _ IH]; [done|].
  cbn [fmap list_fmap for_return Snow.risk_loop item_subscript].
  read He "location". read Hw "value". rewrite Hw0, eq_str_str.
  rewrite bool_decide_decide. destruct (decide _); [|apply IH].
  read He "avalanche_risk". by rewrite Hw1.
Qed.

(** [get_avalanche_risk_by_location_value] returns the risk the typed
    method finds, or [None], and writes nothing. *)
Theorem get_avalanche_risk_by_location_value_snow_data self raw d σ location_value :
  wrappers σ !! self = Some raw → Shape.snow_data σ d raw →
  SnowObject.get_avalanche_risk_by_location_value self location_value σ
  = (Ok (Shape.optional_int
           (Snow.get_avalanche_risk_by_location_value (Snow.__init__ d) location_value)), σ).
Proof.
  intros Hraw Hd. unfold SnowObject.get_avalanche_risk_by_location_value.
  rewrite !bind_unfold, (raw_data_lookup _ _ _ Hraw).
  read Hd "properties". read Hw "massif_avalanche_risk".
  read Hw0 "avalanche_risk_per_location". rewrite ?bind_unfold.
  destruct (iterate_list_at _ _ _ _ Hw1) as (elems & -> & Helems).
  unfold fmap at 1, M_fmap. rewrite bind_unfold.
  rewrite (risk_loop_risks _ _ _ _ Helems).
  unfold Snow.get_avalanche_risk_by_location_value. simpl.
  by destruct (Snow.risk_loop _ _).
Qed.

Lemma subscript_kept σ σ' v k w :
  keeps σ σ' → subscript v k σ = (Ok w, σ) → subscript v k σ' = (Ok w, σ').
Proof.
  intros Hkeeps Hsub. pose proof (subscript_keeps v k σ σ' Hkeeps) as Hfst.
  pose proof (subscript_state v k σ') as Hsnd. rewrite Hsub in Hfst. simpl in Hfst.
  destruct (subscript v k σ') as [r σ'']. simpl in *. subst. by rewrite Hfst.
Qed.

Lemma iterate_kept σ σ' v xs :
  keeps σ σ' → iterate v σ = (Ok xs, σ) → iterate v σ' = (Ok xs, σ').
Proof.
  intros Hkeeps. destruct v as [[]|l]; simpl; try done.
  - by intros [= <-].
  - rewrite !bind_unfold. unfold load.
    destruct (objects σ !! l) as [o|] eqn:Hl; [|done].
    rewrite (keeps_lookup _ _ _ _ Hkeeps Hl). by destruct o; intros [= <-].
Qed.

(** Runs the subscript at the head of the goal, in a store that keeps
    the one the shape [H] is stated in. *)
Ltac read_kept Hkeeps H k :=
  let w := fresh "w" in
  let Hw := fresh "H" w in
  let E := fresh "E" in
  let Hsub := fresh "Hsub" in
  rewrite ?bind_unfold;
  epose proof (subscript_dict_at _ _ _ k _ H) as E;
  edestruct E as (w & Hsub & Hw); [field_in|]; clear E;
  rewrite (subscript_kept _ _ _ _ _ Hkeeps Hsub); clear Hsub; lazy beta iota.

Lemma keeps_grown σ ext : keeps σ (grown σ ext).
Proof. split; [done|]. simpl. apply take_app_length. Qed.

Lemma alloc_grown σ ext o :
  alloc o (grown σ ext)
  = (Ok (VRef (length (objects σ) + length ext)), grown σ (ext ++ [o])).
Proof. unfold alloc, grown. simpl. by rewrite length_app, (assoc_L (++)). Qed.

Lemma alloc_grown_nil σ o :
  alloc o σ = (Ok (VRef (length (objects σ))), grown σ [o]).
Proof. done. Qed.

Lemma load_grown σ ext n i o :
  n = length (objects σ) + i → ext !! i = Some o →
  load n (grown σ ext) = (Ok o, grown σ ext).
Proof.
  intros -> Hi. unfold load. simpl.
  rewrite lookup_app_r by lia. replace (_ + i - _) with i by lia. by rewrite Hi.
Qed.

Lemma store_grown σ ext n i o :
  n = length (objects σ) + i →
  store n o (grown σ ext) = (Ok (), grown σ (<[i := o]> ext)).
Proof.
  intros ->. unfold store, grown. simpl. do 2 f_equal.
  rewrite insert_app_r_alt by lia. f_equal. f_equal. lia.
Qed.

Lemma dict_setitem_grown σ ext n i items k v :
  n = length (objects σ) + i → ext !! i = Some (ODict items) →
  dict_setitem (VRef n) k v (grown σ ext)
  = (Ok (), grown σ (<[i := ODict (dict_set k v items)]> ext)).
Proof.
  intros Hn Hi. unfold dict_setitem. rewrite bind_unfold, (load_grown _ _ _ _ _ Hn Hi).
  by apply store_grown.
Qed.

Lemma str_keyed_dict_set k v items :
  str_keyed items → str_keyed (dict_set (KScalar (SStr k)) v items).
Proof.
  unfold str_keyed. induction 1 as [|[j w] items Hj Hitems IH]; simpl.
  - repeat constructor. by exists k.
  - destruct (key_eqb j _); by constructor.
Qed.

Lemma dict_get_set_str k k' v items :
  str_keyed items →
  dict_get (KScalar (SStr k')) (dict_set (KScalar (SStr k)) v items)
  = if decide (k = k') then Some v else dict_get (KScalar (SStr k')) items.
Proof.
  unfold str_keyed. induction 1 as [|[j w] items [s Hj] _ IH]; simpl in *.
  - unfold scalar_eqb. rewrite bool_decide_decide. by destruct (decide (k = k')).
  - subst j. simpl. unfold scalar_eqb. rewrite !bool_decide_decide.
    destruct (decide (s = k)) as [->|Hsk]; simpl; unfold scalar_eqb;
      rewrite !bool_decide_decide.
    + by destruct (decide (k = k')).
    + destruct (decide (s = k')) as [->|Hsk']; [|done].
      by destruct (decide (k = k')).
Qed.

Lemma int_map_empty : int_map ∅ [].
Proof. split; [constructor|]. intros k. by rewrite lookup_empty. Qed.

Lemma int_map_set m items k z :
  int_map m items →
  int_map (<[k := z]> m) (dict_set (KScalar (SStr k)) (VScalar (SInt z)) items).
Proof.
  intros [Hkeys Hget]. split; [by apply str_keyed_dict_set|].
  intros k'. rewrite dict_get_set_str by done.
  destruct (decide (k = k')) as [->|Hne].
  - by rewrite lookup_insert_eq.
  - by rewrite lookup_insert_ne.
Qed.

Lemma risks_loop_grown σ risks elems : ∀ m items,
  Forall2 (Shape.avalanche_risk_per_location σ) risks elems →
  int_map m items →
  ∃ items',
    for_each (IVal <$> elems) (λ risk,
      l ← item_subscript risk "location";
      location_value ← subscript l "value";
      r ← item_subscript risk "avalanche_risk";
      k ← hashable location_value;
      dict_setitem (VRef (length (objects σ))) (KScalar k) r)
      (grown σ [ODict items])
    = (Ok (), grown σ [ODict items'])
    ∧ int_map (foldl (λ risks_map risk,
                        <[location_value risk := AvalancheRiskPerLocation.avalanche_risk risk]>
                          risks_map) m risks) items'.
Proof.
  intros m items Hrisks. revert m items.
  induction Hrisks as [|r e risks elems He _ IH]; intros m items Hmap.
  - by exists items.
  - cbn [fmap list_fmap for_each foldl item_subscript].
    pose proof (keeps_grown σ [ODict items]) as Hkeeps.
    read_kept Hkeeps He "location". read_kept Hkeeps Hw "value".
    read_kept Hkeeps He "avalanche_risk".
    rewrite Hw0, Hw1. cbn [hashable]. rewrite bind_unfold, ret_unfold.
    rewrite (dict_setitem_grown _ _ _ 0 items) by done.
    apply IH. by apply int_map_set.
Qed.

(** [get_avalanche_risks] returns a new [dict], the only object added
    to the store, that reads as the map of the typed method. *)
Theorem get_avalanche_risks_snow_data self raw d σ :
  wrappers σ !! self = Some raw → Shape.snow_data σ d raw →
  ∃ items,
    SnowObject.get_avalanche_risks self σ
    = (Ok (VRef (length (objects σ))), grown σ [ODict items])
    ∧ int_map (Snow.get_avalanche_risks (Snow.__init__ d)) items.
Proof.
  intros Hraw Hd. unfold SnowObject.get_avalanche_risks.
  rewrite bind_unfold, alloc_grown_nil.
  pose proof (keeps_grown σ [ODict []]) as Hkeeps.
  rewrite bind_unfold, (raw_data_lookup _ raw) by done.
  read_kept Hkeeps Hd "properties". read_kept Hkeeps Hw "massif_avalanche_risk".
  read_kept Hkeeps Hw0 "avalanche_risk_per_location". rewrite ?bind_unfold.
  destruct (iterate_list_at _ _ _ _ Hw1) as (elems & Hiter & Helems).
  rewrite (iterate_kept _ _ _ _ Hkeeps Hiter), bind_unfold.
  edestruct (risks_loop_grown σ) as (items & -> & Hitems);
    [exact Helems|exact int_map_empty|].
  exists items. split; [done|]. exact Hitems.
Qed.

Lemma limits_loop_grown σ infos elems : ∀ m items,
  Forall2 (Shape.total_snow_per_exposition σ) infos elems →
  int_map m items →
  ∃ items',
    for_each (IVal <$> elems) (λ exposition_data,
      exposition ← item_subscript exposition_data "exposition";
      snow_limit ← item_subscript exposition_data "snow_limit";
      k ← hashable exposition;
      dict_setitem (VRef (length (objects σ))) (KScalar k) snow_limit)
      (grown σ [ODict items])
    = (Ok (), grown σ [ODict items'])
    ∧ int_map (foldl (λ snow_limits exposition_data,
                        <[TotalSnowPerExposition.exposition exposition_data :=
                            TotalSnowPerExposition.snow_limit exposition_data]> snow_limits)
                     m infos) items'.
Proof.
  intros m items Hinfos. revert m items.
  induction Hinfos as [|i e infos elems He _ IH]; intros m items Hmap.
  - by exists items.
  - cbn [fmap list_fmap for_each foldl item_subscript].
    pose proof (keeps_grown σ [ODict items]) as Hkeeps.
    read_kept Hkeeps He "exposition". read_kept Hkeeps He "snow_limit".
    rewrite Hw, Hw0. cbn [hashable]. rewrite bind_unfold, ret_unfold.
    rewrite (dict_setitem_grown _ _ _ 0 items) by done.
    apply IH. by apply int_map_set.
Qed.

(** [get_snow_limits] returns a new [dict], the only object added to
    the store, that reads as the map of the typed method. *)
Theorem get_snow_limits_snow_data self raw d σ :
  wrappers σ !! self = Some raw → Shape.snow_data σ d raw →
  ∃ items,
    SnowObject.get_snow_limits self σ
    = (Ok (VRef (length (objects σ))), grown σ [ODict items])
    ∧ int_map (Snow.get_snow_limits (Snow.__init__ d)) items.
Proof.
  intros Hraw Hd. unfold SnowObject.get_snow_limits.
  rewrite bind_unfold, alloc_grown_nil.
  pose proof (keeps_grown σ [ODict []]) as Hkeeps.
  rewrite bind_unfold, (raw_data_lookup _ raw) by done.
  read_kept Hkeeps Hd "properties". read_kept Hkeeps Hw "total_snow_per_exposition".
  rewrite ?bind_unfold.
  destruct (iterate_list_at _ _ _ _ Hw0) as (elems & Hiter & Helems).
  rewrite (iterate_kept _ _ _ _ Hkeeps Hiter), bind_unfold.
  edestruct (limits_loop_grown σ) as (items & -> & Hitems);
    [exact Helems|exact int_map_empty|].
  exists items. split; [done|]. exact Hitems.
Qed.

Lemma list_append_grown σ ext n elems x :
  n = length (objects σ) →
  list_append (VRef n) x (grown σ (OList elems :: ext))
  = (Ok (), grown σ (OList (elems ++ [x]) :: ext)).
Proof.
  intros Hn. unfold list_append.
  rewrite bind_unfold, (load_grown _ _ _ 0 (OList elems)) by (done || lia).
  rewrite (store_grown _ _ _ 0) by lia. done.
Qed.

Lemma snow_depth_objects_snoc n entries e :
  snow_depth_objects n (entries ++ [e])
  = OList (refs_from (S n) (length entries) ++ [VRef (n + length (snow_depth_objects n entries))])
      :: (entry_dict <$> entries) ++ [entry_dict e].
Proof.
  unfold snow_depth_objects, refs_from. simpl.
  rewrite length_app, fmap_app, length_fmap. simpl. f_equal. f_equal.
  rewrite Nat.add_1_r, seq_S, fmap_app. simpl. do 3 f_equal. lia.
Qed.

Lemma depths_loop_grown σ exposition depths elems : ∀ entries,
  Forall2 (Shape.snow_depth σ) depths elems →
  for_each (IVal <$> elems) (λ depth_data,
    a ← item_subscript depth_data "altitude";
    v ← item_subscript depth_data "value";
    entry ← alloc (ODict [(KScalar (SStr "exposition"), VScalar (SStr exposition));
                          (KScalar (SStr "altitude"), a);
                          (KScalar (SStr "total_snow_depth"), v)]);
    list_append (VRef (length (objects σ))) entry)
    (grown σ (snow_depth_objects (length (objects σ)) entries))
  = (Ok (),
     grown σ (snow_depth_objects (length (objects σ))
                (foldl (λ snow_depth_list depth_data,
                          snow_depth_list ++
                            [{| Snow.exposition := exposition;
                                Snow.altitude := SnowDepth.altitude depth_data;
                                Snow.total_snow_depth := SnowDepth.value depth_data |}])
                       entries depths))).
Proof.
  intros entries Hdepths. revert entries.
  induction Hdepths as [|d e depths elems He _ IH]; intros entries; [done|].
  cbn [fmap list_fmap for_each foldl item_subscript].
  pose proof (keeps_grown σ (snow_depth_objects (length (objects σ)) entries)) as Hkeeps.
  read_kept Hkeeps He "altitude". read_kept Hkeeps He "value".
  rewrite Hw, Hw0, bind_unfold, alloc_grown. lazy beta iota.
  unfold snow_depth_objects at 2.
  rewrite <- app_comm_cons, list_append_grown by done.
  lazy beta iota. rewrite <- IH. f_equal. f_equal.
  by rewrite snow_depth_objects_snoc.
Qed.

Lemma expositions_loop_grown σ infos elems : ∀ entries,
  Forall2 (Shape.total_snow_per_exposition σ) infos elems →
  for_each (IVal <$> elems) (λ exposition_data,
    exposition ← item_subscript exposition_data "exposition";
    depths ← item_subscript exposition_data "total_snow_depth";
    depths ← iterate depths;
    for_each depths (λ depth_data,
      a ← item_subscript depth_data "altitude";
      v ← item_subscript depth_data "value";
      entry ← alloc (ODict [(KScalar (SStr "exposition"), exposition);
                            (KScalar (SStr "altitude"), a);
                            (KScalar (SStr "total_snow_depth"), v)]);
      list_append (VRef (length (objects σ))) entry))
    (grown σ (snow_depth_objects (length (objects σ)) entries))
  = (Ok (),
     grown σ (snow_depth_objects (length (objects σ))
                (foldl (λ snow_depth_list exposition_data,
                          let exposition := TotalSnowPerExposition.exposition exposition_data in
                          foldl (λ snow_depth_list depth_data,
                                   snow_depth_list ++
                                     [{| Snow.exposition := exposition;
                                         Snow.altitude := SnowDepth.altitude depth_data;
                                         Snow.total_snow_depth := SnowDepth.value depth_data |}])
                                snow_depth_list
                                (TotalSnowPerExposition.total_snow_depth exposition_data))
                       entries infos))).
Proof.
  intros entries Hinfos. revert entries.
  induction Hinfos as [|i e infos elems He _ IH]; intros entries; [done|].
  cbn [fmap list_fmap for_each foldl item_subscript].
  pose proof (keeps_grown σ (snow_depth_objects (length (objects σ)) entries)) as Hkeeps.
  read_kept Hkeeps He "exposition". read_kept Hkeeps He "total_snow_depth".
  rewrite ?bind_unfold.
  destruct (iterate_list_at _ _ _ _ Hw0) as (depths & Hiter & Hdepths).
  rewrite (iterate_kept _ _ _ _ Hkeeps Hiter). lazy beta iota.
  rewrite Hw, (depths_loop_grown _ _ _ _ _ Hdepths). apply IH.
Qed.

(** [get_snow_depths] returns a new [list] of new [dict]s, one per
    entry of the typed method and in its order. *)
Theorem get_snow_depths_snow_data self raw d σ :
  wrappers σ !! self = Some raw → Shape.snow_data σ d raw →
  SnowObject.get_snow_depths self σ
  = (Ok (VRef (length (objects σ))),
     grown σ (snow_depth_objects (length (objects σ))
                (Snow.get_snow_depths (Snow.__init__ d)))).
Proof.
  intros Hraw Hd. unfold SnowObject.get_snow_depths.
  rewrite bind_unfold, alloc_grown_nil.
  pose proof (keeps_grown σ [OList []]) as Hkeeps.
  rewrite bind_unfold, (raw_data_lookup _ raw) by done.
  read_kept Hkeeps Hd "properties". read_kept Hkeeps Hw "total_snow_per_exposition".
  rewrite ?bind_unfold.
  destruct (iterate_list_at _ _ _ _ Hw0) as (elems & Hiter & Helems).
  rewrite (iterate_kept _ _ _ _ Hkeeps Hiter), bind_unfold.
  change [OList []] with (snow_depth_objects (length (objects σ)) []).
  by rewrite (expositions_loop_grown _ _ _ _ Helems).
Qed.

Lemma scalar_leb_int a b : scalar_leb (SInt a) (SInt b) = (a <=? b)%Z.
Proof. unfold scalar_leb, Qle_bool. simpl. by rewrite !Z.mul_1_r. Qed.

Lemma scalar_eqb_int a b : scalar_eqb (SInt a) (SInt b) = (a =? b)%Z.
Proof. unfold scalar_eqb, Qeq_bool. simpl. by rewrite !Z.mul_1_r. Qed.

Lemma sort_scalars_int zs :
  sort_scalars (SInt <$> zs) = Some (SInt <$> merge_sort Z.le zs).
Proof.
  unfold sort_scalars. rewrite length_fmap. destruct (decide (length zs ≤ 1)) as [Hlen|Hlen].
  - by destruct zs as [|z [|z' zs]]; simpl in *; [..|lia].
  - assert (forallb is_number (SInt <$> zs) = true) as ->.
    { apply forallb_forall. intros s Hs. apply list_elem_of_In in Hs.
      apply list_elem_of_fmap in Hs as (z & -> & _). done. }
    simpl. f_equal. apply merge_sort_fmap. intros x y.
    rewrite scalar_leb_int. rewrite Is_true_true. apply Z.leb_le.
Qed.

Lemma set_insert_int a zs :
  set_insert (SInt a) (SInt <$> zs) = SInt <$> (if decide (a ∈ zs) then zs else zs ++ [a]).
Proof.
  induction zs as [|z zs IH]; cbn [fmap list_fmap set_insert].
  - destruct (decide (a ∈ [])) as [Hin|_]; [by apply elem_of_nil in Hin|done].
  - rewrite scalar_eqb_int. destruct (Z.eqb_spec z a) as [->|Hne].
    + destruct (decide (a ∈ a :: zs)) as [_|Hnin]; [done|]. destruct Hnin. left.
    + rewrite IH. destruct (decide (a ∈ zs)) as [Hin|Hnin].
      * destruct (decide (a ∈ z :: zs)) as [_|Hnin]; [done|]. destruct Hnin. by right.
      * destruct (decide (a ∈ z :: zs)) as [Hin|_]; [|done].
        apply elem_of_cons in Hin as [->|Hin]; done.
Qed.

Lemma set_add_grown σ n elems x :
  n = length (objects σ) →
  set_add (VRef n) x (grown σ [OSet elems]) = (Ok (), grown σ [OSet (set_insert x elems)]).
Proof.
  intros Hn. unfold set_add.
  rewrite bind_unfold, (load_grown _ _ _ 0 (OSet elems)) by (done || lia).
  rewrite (store_grown _ _ _ 0) by lia. done.
Qed.

Lemma altitudes_inner_grown σ depths elems : ∀ zs (altitudes : gset Z),
  Forall2 (Shape.snow_depth σ) depths elems →
  NoDup zs → list_to_set zs = altitudes →
  ∃ zs',
    for_each (IVal <$> elems) (λ depth_info,
      a ← item_subscript depth_info "altitude";
      a ← hashable a;
      set_add (VRef (length (objects σ))) a)
      (grown σ [OSet (SInt <$> zs)])
    = (Ok (), grown σ [OSet (SInt <$> zs')])
    ∧ NoDup zs'
    ∧ list_to_set zs'
      = foldl (λ altitudes depth_info, altitudes ∪ {[SnowDepth.altitude depth_info]})
              altitudes depths.
Proof.
  intros zs altitudes Hdepths. revert zs altitudes.
  induction Hdepths as [|d e depths elems He _ IH]; intros zs altitudes Hnd Hset.
  - by exists zs.
  - cbn [fmap list_fmap for_each foldl item_subscript].
    pose proof (keeps_grown σ [OSet (SInt <$> zs)]) as Hkeeps.
    read_kept Hkeeps He "altitude". rewrite Hw. cbn [hashable].
    rewrite bind_unfold, ret_unfold, set_add_grown by done.
    rewrite set_insert_int. apply IH.
    + destruct (decide _); [done|]. apply NoDup_app. split; [done|].
      split; [|apply NoDup_singleton]. intros x Hx ->%list_elem_of_singleton. done.
    + subst altitudes. apply set_eq. intros x.
      rewrite elem_of_union, elem_of_singleton, !elem_of_list_to_set.
      destruct (decide _) as [Hin|Hnin].
      * split; [by left|]. by intros [?| ->].
      * rewrite elem_of_app, list_elem_of_singleton. done.
Qed.

Lemma altitudes_outer_grown σ infos elems : ∀ zs (altitudes : gset Z),
  Forall2 (Shape.total_snow_per_exposition σ) infos elems →
  NoDup zs → list_to_set zs = altitudes →
  ∃ zs',
    for_each (IVal <$> elems) (λ exposition,
      depths ← item_subscript exposition "total_snow_depth";
      depths ← iterate depths;
      for_each depths (λ depth_info,
        a ← item_subscript depth_info "altitude";
        a ← hashable a;
        set_add (VRef (length (objects σ))) a))
      (grown σ [OSet (SInt <$> zs)])
    = (Ok (), grown σ [OSet (SInt <$> zs')])
    ∧ NoDup zs'
    ∧ list_to_set zs'
      = foldl (λ altitudes exposition,
                 foldl (λ altitudes depth_info, altitudes ∪ {[SnowDepth.altitude depth_info]})
                       altitudes (TotalSnowPerExposition.total_snow_depth exposition))
              altitudes infos.
Proof.
  intros zs altitudes Hinfos. revert zs altitudes.
  induction Hinfos as [|i e infos elems He _ IH]; intros zs altitudes Hnd Hset.
  - by exists zs.
  - cbn [fmap list_fmap for_each foldl item_subscript].
    pose proof (keeps_grown σ [OSet (SInt <$> zs)]) as Hkeeps.
    read_kept Hkeeps He "total_snow_depth". rewrite ?bind_unfold.
    destruct (iterate_list_at _ _ _ _ Hw) as (depths & Hiter & Hdepths).
    rewrite (iterate_kept _ _ _ _ Hkeeps Hiter). lazy beta iota.
    destruct (altitudes_inner_grown _ _ _ zs altitudes Hdepths Hnd Hset)
      as (zs1 & -> & Hnd1 & Hset1).
    by apply IH.
Qed.

Lemma sorted_grown σ n elems xs :
  n = length (objects σ) → sort_scalars elems = Some xs →
  sorted (VRef n) (grown σ [OSet elems])
  = (Ok (VRef (S n)), grown σ [OSet elems; OList (VScalar <$> xs)]).
Proof.
  intros Hn Hxs. unfold sorted.
  rewrite bind_unfold, (load_grown _ _ _ 0 (OSet elems)) by (done || lia).
  rewrite Hxs, alloc_grown. simpl. subst n. do 3 f_equal. lia.
Qed.

(** [get_available_altitudes] returns a new [list] holding the
    altitudes of the typed method, in its order; the [set] it went
    through stays behind in the store. *)
Theorem get_available_altitudes_snow_data self raw d σ :
  wrappers σ !! self = Some raw → Shape.snow_data σ d raw →
  ∃ zs,
    SnowObject.get_available_altitudes self σ
    = (Ok (VRef (S (length (objects σ)))),
       grown σ [OSet (SInt <$> zs);
                OList (VScalar ∘ SInt <$> Snow.get_available_altitudes (Snow.__init__ d))]).
Proof.
  intros Hraw Hd. unfold SnowObject.get_available_altitudes.
  rewrite bind_unfold, alloc_grown_nil.
  pose proof (keeps_grown σ [OSet []]) as Hkeeps.
  rewrite bind_unfold, (raw_data_lookup _ raw) by done.
  read_kept Hkeeps Hd "properties". read_kept Hkeeps Hw "total_snow_per_exposition".
  rewrite ?bind_unfold.
  destruct (iterate_list_at _ _ _ _ Hw0) as (elems & Hiter & Helems).
  rewrite (iterate_kept _ _ _ _ Hkeeps Hiter), bind_unfold.
  destruct (altitudes_outer_grown _ _ _ [] ∅ Helems) as (zs & Hloop & Hnd & Hset);
    [constructor|done|].
  change [OSet []] with [OSet (SInt <$> ([] : list Z))]. rewrite Hloop.
  exists zs. rewrite (sorted_grown _ _ _ _ eq_refl (sort_scalars_int zs)).
  rewrite (merge_sort_elements _ _ Hnd Hset), <- list_fmap_compose. done.
Qed.

Lemma key_eqb_slot a1 e1 a2 e2 :
  key_eqb (KTuple (SInt a1) (SStr e1)) (KTuple (SInt a2) (SStr e2))
  = bool_decide ((a1, e1) = (a2, e2)).
Proof.
  cbn [key_eqb]. rewrite scalar_eqb_int. unfold scalar_eqb.
  destruct (Z.eqb_spec a1 a2) as [->|Hne]; simpl.
  - destruct (decide (e1 = e2)) as [->|Hne].
    + by rewrite !bool_decide_eq_true_2.
    + rewrite !bool_decide_eq_false_2; [done| |done]. by intros [= ?].
  - rewrite bool_decide_eq_false_2; [done|]. by intros [= ? ?].
Qed.

Lemma slot_keyed_dict_set a e v items :
  slot_keyed items → slot_keyed (dict_set (KTuple (SInt a) (SStr e)) v items).
Proof.
  unfold slot_keyed. induction 1 as [|[j w] items Hj Hitems IH]; simpl.
  - repeat constructor. by exists a, e.
  - destruct (key_eqb j _); by constructor.
Qed.

Lemma dict_get_set_slot a e a' e' v items :
  slot_keyed items →
  dict_get (KTuple (SInt a') (SStr e')) (dict_set (KTuple (SInt a) (SStr e)) v items)
  = if decide ((a, e) = (a', e')) then Some v
    else dict_get (KTuple (SInt a') (SStr e')) items.
Proof.
  unfold slot_keyed. induction 1 as [|[j w] items (b & f & Hj) _ IH];
    cbn [dict_set dict_get].
  - rewrite key_eqb_slot, bool_decide_decide. by destruct (decide _).
  - simpl in Hj. subst j. rewrite key_eqb_slot, bool_decide_decide.
    destruct (decide ((b, f) = (a, e))) as [[= -> ->]|Hne]; cbn [dict_get];
      rewrite key_eqb_slot, bool_decide_decide.
    + by destruct (decide ((a, e) = (a', e'))).
    + destruct (decide ((b, f) = (a', e'))) as [[= -> ->]|Hne']; [|done].
      by destruct (decide ((a, e) = (a', e'))).
Qed.

Lemma slot_map_empty : slot_map ∅ [].
Proof. split; [constructor|]. intros a e. by rewrite lookup_empty. Qed.

Lemma slot_map_set m items a e z :
  slot_map m items →
  slot_map (<[(a, e) := z]> m) (dict_set (KTuple (SInt a) (SStr e)) (VScalar (SInt z)) items).
Proof.
  intros [Hkeys Hget]. split; [by apply slot_keyed_dict_set|].
  intros a' e'. rewrite dict_get_set_slot by done.
  destruct (decide ((a, e) = (a', e'))) as [[= -> ->]|Hne].
  - by rewrite lookup_insert_eq.
  - by rewrite lookup_insert_ne.
Qed.

Lemma dict_contains_grown σ n outer rest k :
  n = length (objects σ) →
  dict_contains (VRef n) k (grown σ (ODict outer :: rest))
  = (Ok (bool_decide (is_Some (dict_get (KScalar k) outer))), grown σ (ODict outer :: rest)).
Proof.
  intros Hn. unfold dict_contains.
  by rewrite bind_unfold, (load_grown _ _ _ 0 (ODict outer)) by (done || lia).
Qed.

Lemma dict_getitem_grown σ n outer rest k v :
  n = length (objects σ) → dict_get (KScalar k) outer = Some v →
  dict_getitem (VRef n) k (grown σ (ODict outer :: rest))
  = (Ok v, grown σ (ODict outer :: rest)).
Proof.
  intros Hn Hv. unfold dict_getitem.
  rewrite bind_unfold, (load_grown _ _ _ 0 (ODict outer)) by (done || lia).
  by rewrite Hv.
Qed.

Ltac run := repeat (rewrite bind_unfold || rewrite ret_unfold); lazy beta iota.

Lemma fresh_snow_step_grown σ exposition depth e m outer inners :
  Shape.snow_depth σ depth e →
  fresh_snow_index (length (objects σ)) m outer inners →
  ∃ outer' inners',
    (date ← item_subscript (IVal e) "date";
     altitude ← item_subscript (IVal e) "altitude";
     value ← item_subscript (IVal e) "value";
     date ← hashable date;
     present ← dict_contains (VRef (length (objects σ))) date;
     (if present : bool then mret ()
      else new ← alloc (ODict []);
           dict_setitem (VRef (length (objects σ))) (KScalar date) new);;
     inner ← dict_getitem (VRef (length (objects σ))) date;
     a ← hashable altitude;
     e ← hashable (VScalar (SStr exposition));
     dict_setitem inner (KTuple a e) value)
      (grown σ (fresh_snow_objects outer inners))
    = (Ok (), grown σ (fresh_snow_objects outer' inners'))
    ∧ fresh_snow_index (length (objects σ)) (Snow.fresh_snow_step exposition m depth)
        outer' inners'.
Proof.
  intros He (Hkeys & Hdates & Hinj).
  pose proof (keeps_grown σ (fresh_snow_objects outer inners)) as Hkeeps.
  cbn [item_subscript].
  read_kept Hkeeps He "date". read_kept Hkeeps He "altitude". read_kept Hkeeps He "value".
  rewrite Hw, Hw0, Hw1. cbn [hashable]. rewrite bind_unfold, ret_unfold.
  unfold fresh_snow_objects at 1. rewrite bind_unfold, dict_contains_grown by done.
  rewrite fresh_snow_step_insert.
  set (date := SnowDepth.date depth). set (a := SnowDepth.altitude depth).
  set (v := SnowDepth.value depth).
  pose proof (Hdates date) as Hdate.
  destruct (m !! date) as [slots|] eqn:Hm; cbn [default from_option].
  - destruct Hdate as (i & items & Hget & Hi & Hslots).
    exists outer,
      (<[i := dict_set (KTuple (SInt a) (SStr exposition)) (VScalar (SInt v)) items]> inners).
    split.
    { rewrite Hget, bool_decide_eq_true_2 by eauto.
      rewrite !bind_unfold, ret_unfold. lazy beta iota.
      rewrite !bind_unfold, (dict_getitem_grown _ _ _ _ _ _ eq_refl Hget).
      cbn [hashable]. run.
      rewrite (dict_setitem_grown _ _ _ (S i) items).
      - unfold fresh_snow_objects. simpl. by rewrite list_fmap_insert.
      - lia.
      - simpl. by rewrite list_lookup_fmap, Hi. }
    split; [done|]. split; [|done].
    intros date'. destruct (decide (date = date')) as [<-|Hne].
    + rewrite lookup_insert_eq.
      exists i, (dict_set (KTuple (SInt a) (SStr exposition)) (VScalar (SInt v)) items).
      split; [done|]. split; [|by apply slot_map_set].
      apply list_lookup_insert_eq. by eapply lookup_lt_Some.
    + rewrite lookup_insert_ne by done. pose proof (Hdates date') as Hdate'.
      destruct (m !! date') as [slots'|]; [|done].
      destruct Hdate' as (i' & items' & Hget' & Hi' & Hslots').
      exists i', items'. split; [done|]. split; [|done].
      rewrite list_lookup_insert_ne; [done|]. intros <-. by apply Hne, (Hinj _ _ i).
  - set (l := length (objects σ) + length (ODict outer :: (ODict <$> inners))).
    assert (Hl : l = S (length (objects σ)) + length inners).
    { subst l. simpl. rewrite length_fmap. lia. }
    set (outer' := dict_set (KScalar (SStr date)) (VRef l) outer).
    assert (Hnew : dict_get (KScalar (SStr date)) outer' = Some (VRef l)).
    { unfold outer'. rewrite dict_get_set_str by done. by rewrite decide_True. }
    exists outer',
      (inners ++ [dict_set (KTuple (SInt a) (SStr exposition)) (VScalar (SInt v)) []]).
    split.
    { rewrite Hdate, bool_decide_eq_false_2 by (by intros [? ?]).
      rewrite !bind_unfold, alloc_grown. lazy beta iota.
      rewrite (dict_setitem_grown _ _ _ 0 outer) by (done || lia).
      cbn [insert list_insert app]. lazy beta iota. fold l. fold outer'.
      rewrite !bind_unfold, (dict_getitem_grown _ _ _ _ _ _ eq_refl Hnew).
      cbn [hashable]. run.
      rewrite (dict_setitem_grown _ _ _ (S (length inners)) []).
      - unfold fresh_snow_objects. simpl. do 3 f_equal.
        rewrite fmap_app. simpl.
        rewrite insert_app_r_alt by (by rewrite length_fmap).
        by rewrite length_fmap, Nat.sub_diag.
      - lia.
      - simpl. rewrite lookup_app_r by (by rewrite length_fmap).
        by rewrite length_fmap, Nat.sub_diag. }
    split; [by apply str_keyed_dict_set|]. split.
    + intros date'. destruct (decide (date = date')) as [<-|Hne].
      * rewrite lookup_insert_eq.
        exists (length inners), [(KTuple (SInt a) (SStr exposition), VScalar (SInt v))].
        split; [by rewrite Hnew, Hl|]. split.
        -- by rewrite lookup_app_r, Nat.sub_diag.
        -- apply (slot_map_set ∅ []), slot_map_empty.
      * rewrite lookup_insert_ne by done. unfold outer'.
        rewrite dict_get_set_str, decide_False by done.
        pose proof (Hdates date') as Hdate'.
        destruct (m !! date') as [slots'|]; [|done].
        destruct Hdate' as (i' & items' & Hget' & Hi' & Hslots').
        exists i', items'. split; [done|]. split; [|done].
        rewrite lookup_app_l; [done|]. by eapply lookup_lt_Some.
    + intros d1 d2 i. unfold outer'. rewrite !dict_get_set_str by done.
      destruct (decide (date = d1)) as [<-|Hne1], (decide (date = d2)) as [<-|Hne2];
        try done.
      * intros [= Hi] Hget2. exfalso.
        pose proof (Hdates d2) as Hd2. destruct (m !! d2) as [slots2|]; [|congruence].
        destruct Hd2 as (i2 & items2 & Hget2' & Hi2 & _).
        rewrite Hget2 in Hget2'. injection Hget2' as Hi2'.
        apply lookup_lt_Some in Hi2. lia.
      * intros Hget1 [= Hi]. exfalso.
        pose proof (Hdates d1) as Hd1. destruct (m !! d1) as [slots1|]; [|congruence].
        destruct Hd1 as (i1 & items1 & Hget1' & Hi1 & _).
        rewrite Hget1 in Hget1'. injection Hget1' as Hi1'.
        apply lookup_lt_Some in Hi1. lia.
      * apply Hinj.
Qed.

Lemma fresh_snow_inner_grown σ exposition depths elems : ∀ m outer inners,
  Forall2 (Shape.snow_depth σ) depths elems →
  fresh_snow_index (length (objects σ)) m outer inners →
  ∃ outer' inners',
    for_each (IVal <$> elems) (λ snow_depth,
      date ← item_subscript snow_depth "date";
      altitude ← item_subscript snow_depth "altitude";
      value ← item_subscript snow_depth "value";
      date ← hashable date;
      present ← dict_contains (VRef (length (objects σ))) date;
      (if present : bool then mret ()
       else new ← alloc (ODict []);
            dict_setitem (VRef (length (objects σ))) (KScalar date) new);;
      inner ← dict_getitem (VRef (length (objects σ))) date;
      a ← hashable altitude;
      e ← hashable (VScalar (SStr exposition));
      dict_setitem inner (KTuple a e) value)
      (grown σ (fresh_snow_objects outer inners))
    = (Ok (), grown σ (fresh_snow_objects outer' inners'))
    ∧ fresh_snow_index (length (objects σ))
        (foldl (Snow.fresh_snow_step exposition) m depths) outer' inners'.
Proof.
  intros m outer inners Hdepths. revert m outer inners.
  induction Hdepths as [|d e depths elems He _ IH]; intros m outer inners Hindex.
  - by exists outer, inners.
  - cbn [fmap list_fmap for_each foldl].
    destruct (fresh_snow_step_grown σ exposition d e m outer inners He Hindex)
      as (outer1 & inners1 & Hstep & Hindex1).
    destruct (IH _ _ _ Hindex1) as (outer2 & inners2 & Hrest & Hindex2).
    exists outer2, inners2. split; [|done].
    rewrite bind_unfold, Hstep. exact Hrest.
Qed.

Lemma fresh_snow_outer_grown σ data elems : ∀ m outer inners,
  Forall2 (Shape.fresh_snow_per_exposition σ) data elems →
  fresh_snow_index (length (objects σ)) m outer inners →
  ∃ outer' inners',
    for_each (IVal <$> elems) (λ exposition_data,
      exposition ← item_subscript exposition_data "exposition";
      depths ← item_subscript exposition_data "fresh_snow_depth";
      depths ← iterate depths;
      for_each depths (λ snow_depth,
        date ← item_subscript snow_depth "date";
        altitude ← item_subscript snow_depth "altitude";
        value ← item_subscript snow_depth "value";
        date ← hashable date;
        present ← dict_contains (VRef (length (objects σ))) date;
        (if present : bool then mret ()
         else new ← alloc (ODict []);
              dict_setitem (VRef (length (objects σ))) (KScalar date) new);;
        inner ← dict_getitem (VRef (length (objects σ))) date;
        a ← hashable altitude;
        e ← hashable exposition;
        dict_setitem inner (KTuple a e) value))
      (grown σ (fresh_snow_objects outer inners))
    = (Ok (), grown σ (fresh_snow_objects outer' inners'))
    ∧ fresh_snow_index (length (objects σ))
        (foldl (λ fresh_snow_map exposition_data,
                  let exposition := FreshSnowPerExposition.exposition exposition_data in
                  foldl (Snow.fresh_snow_step exposition) fresh_snow_map
                        (FreshSnowPerExposition.fresh_snow_depth exposition_data))
               m data)
        outer' inners'.
Proof.
  intros m outer inners Hdata. revert m outer inners.
  induction Hdata as [|f e data elems He _ IH]; intros m outer inners Hindex.
  - by exists outer, inners.
  - cbn [fmap list_fmap for_each foldl item_subscript].
    pose proof (keeps_grown σ (fresh_snow_objects outer inners)) as Hkeeps.
    destruct (subscript_dict_at _ _ _ "exposition" _ He ltac:(field_in))
      as (w & Hsub & Hw).
    destruct (subscript_dict_at _ _ _ "fresh_snow_depth" _ He ltac:(field_in))
      as (w0 & Hsub0 & Hw0).
    destruct (iterate_list_at _ _ _ _ Hw0) as (depths & Hiter & Hdepths).
    destruct (fresh_snow_inner_grown σ (FreshSnowPerExposition.exposition f) _ _
                m outer inners Hdepths Hindex)
      as (outer1 & inners1 & Hinner & Hindex1).
    destruct (IH _ _ _ Hindex1) as (outer2 & inners2 & Hrest & Hindex2).
    exists outer2, inners2. split; [|done].
    run. rewrite (subscript_kept _ _ _ _ _ Hkeeps Hsub).
    run. rewrite (subscript_kept _ _ _ _ _ Hkeeps Hsub0).
    run. rewrite (iterate_kept _ _ _ _ Hkeeps Hiter).
    run. rewrite Hw, Hinner. exact Hrest.
Qed.

(** [get_fresh_snow] returns a new [dict] of new [dict]s that reads as
    the nested map of the typed method. *)
Theorem get_fresh_snow_snow_data self raw d σ :
  wrappers σ !! self = Some raw → Shape.snow_data σ d raw →
  ∃ outer inners,
    SnowObject.get_fresh_snow self σ
    = (Ok (VRef (length (objects σ))), grown σ (fresh_snow_objects outer inners))
    ∧ fresh_snow_index (length (objects σ)) (Snow.get_fresh_snow (Snow.__init__ d))
        outer inners.
Proof.
  intros Hraw Hd.
  pose proof (keeps_grown σ [ODict []]) as Hkeeps.
  destruct (subscript_dict_at _ _ _ "properties" _ Hd ltac:(field_in)) as (p & Hsub & Hp).
  destruct (subscript_dict_at _ _ _ "fresh_snow_per_exposition" _ Hp ltac:(field_in))
    as (w & Hsub0 & Hw).
  destruct (iterate_list_at _ _ _ _ Hw) as (elems & Hiter & Helems).
  destruct (fresh_snow_outer_grown σ _ _ ∅ [] [] Helems) as (outer & inners & Hloop & Hindex).
  { split; [constructor|]. split; [|done]. intros date. by rewrite lookup_empty. }
  exists outer, inners. split; [|exact Hindex].
  unfold SnowObject.get_fresh_snow.
  run. rewrite alloc_grown_nil.
  run. rewrite (raw_data_lookup _ raw) by done.
  run. rewrite (subscript_kept _ _ _ _ _ Hkeeps Hsub).
  run. rewrite (subscript_kept _ _ _ _ _ Hkeeps Hsub0).
  run. rewrite (iterate_kept _ _ _ _ Hkeeps Hiter).
  run. change [ODict []] with (fresh_snow_objects [] []).
  by rewrite Hloop.
Qed.
(** *** Every document of the declared type

    The layout of [Load] has the shape the methods rely on, so the
    agreement of the two layers holds for every typed document. *)

Lemma within_refl σ : within σ σ.
Proof. by intros l o. Qed.

Lemma within_trans σ1 σ2 σ3 : within σ1 σ2 → within σ2 σ3 → within σ1 σ3.
Proof. intros H12 H23 l o Hl. by apply H23, H12. Qed.

Lemma keeps_within σ σ' : keeps σ σ' → within σ σ'.
Proof. intros Hkeeps l o. by apply keeps_lookup. Qed.

Lemma dict_at_within σ σ' fields fields' v :
  within σ σ' →
  Forall2 (λ f f' : string * (val → Prop), f.1 = f'.1 ∧ ∀ w, f.2 w → f'.2 w)
          fields fields' →
  Shape.dict_at σ fields v → Shape.dict_at σ' fields' v.
Proof.
  intros Hin Hfields (l & items & -> & Hl & Hall). exists l, items.
  split; [done|]. split; [by apply Hin|].
  induction Hfields as [|[k P] [k' P'] fields fields' [Hk HP] _ IH]; [constructor|].
  simpl in *. subst k'. apply Forall_cons in Hall as [(w & Hget & Hw) Hall].
  constructor; [|by apply IH]. exists w. split; [done|by apply HP].
Qed.

Lemma list_at_within {A : Type} σ σ' (P P' : A → val → Prop) xs v :
  within σ σ' → (∀ x w, P x w → P' x w) →
  Shape.list_at σ P xs v → Shape.list_at σ' P' xs v.
Proof.
  intros Hin HP (l & elems & -> & Hl & Hall). exists l, elems.
  split; [done|]. split; [by apply Hin|]. by eapply Forall2_impl.
Qed.

Create HintDb within.
#[local] Hint Resolve list_at_within : within.

(** Field by field: a scalar stays what it is, a container is still in
    the store. *)
Ltac within_fields :=
  intros ?; apply dict_at_within; [assumption|];
  repeat (constructor;
          [split; [reflexivity|cbn [snd]; intros ?; solve [eauto with within]]|]);
  constructor.

Lemma geometry_within σ σ' g v :
  within σ σ' → Shape.geometry σ g v → Shape.geometry σ' g v.
Proof. within_fields. Qed.

Lemma forecast_data_within σ σ' f v :
  within σ σ' → Shape.forecast_data σ f v → Shape.forecast_data σ' f v.
Proof. within_fields. Qed.

#[local] Hint Resolve geometry_within forecast_data_within : within.

Lemma rain_properties_data_within σ σ' p v :
  within σ σ' → Shape.rain_properties_data σ p v → Shape.rain_properties_data σ' p v.
Proof. within_fields. Qed.

#[local] Hint Resolve rain_properties_data_within : within.

Lemma rain_data_within σ σ' d v :
  within σ σ' → Shape.rain_data σ d v → Shape.rain_data σ' d v.
Proof. within_fields. Qed.

Lemma location_within σ σ' l v :
  within σ σ' → Shape.location σ l v → Shape.location σ' l v.
Proof. within_fields. Qed.

#[local] Hint Resolve location_within : within.

Lemma avalanche_risk_per_location_within σ σ' r v :
  within σ σ' →
  Shape.avalanche_risk_per_location σ r v → Shape.avalanche_risk_per_location σ' r v.
Proof. within_fields. Qed.

#[local] Hint Resolve avalanche_risk_per_location_within : within.

Lemma massif_avalanche_risk_within σ σ' m v :
  within σ σ' → Shape.massif_avalanche_risk σ m v → Shape.massif_avalanche_risk σ' m v.
Proof. within_fields. Qed.

Lemma snow_depth_within σ σ' d v :
  within σ σ' → Shape.snow_depth σ d v → Shape.snow_depth σ' d v.
Proof. within_fields. Qed.

#[local] Hint Resolve massif_avalanche_risk_within snow_depth_within : within.

Lemma fresh_snow_per_exposition_within σ σ' f v :
  within σ σ' →
  Shape.fresh_snow_per_exposition σ f v → Shape.fresh_snow_per_exposition σ' f v.
Proof. within_fields. Qed.

Lemma total_snow_per_exposition_within σ σ' t v :
  within σ σ' →
  Shape.total_snow_per_exposition σ t v → Shape.total_snow_per_exposition σ' t v.
Proof. within_fields. Qed.

#[local] Hint Resolve fresh_snow_per_exposition_within total_snow_per_exposition_within
  : within.

Lemma snow_properties_data_within σ σ' p v :
  within σ σ' → Shape.snow_properties_data σ p v → Shape.snow_properties_data σ' p v.
Proof. within_fields. Qed.

#[local] Hint Resolve snow_properties_data_within : within.

Lemma snow_data_within σ σ' d v :
  within σ σ' → Shape.snow_data σ d v → Shape.snow_data σ' d v.
Proof. within_fields. Qed.

Lemma lookup_grown_new σ o : objects (grown σ [o]) !! length (objects σ) = Some o.
Proof. simpl. by rewrite lookup_app_r, Nat.sub_diag. Qed.

Lemma within_grown σ σ' ext : within σ σ' → within σ (grown σ' ext).
Proof. intros Hin. eapply within_trans; [done|]. apply keeps_within, keeps_grown. Qed.

#[local] Hint Resolve within_refl within_grown keeps_within : within.

Lemma each_loads {A : Type} (P : state → A → val → Prop) load :
  (∀ σ σ' x v, within σ σ' → P σ x v → P σ' x v) → loads P load →
  ∀ xs σ, ∃ vs σ',
    Load.each load xs σ = (Ok vs, σ') ∧ keeps σ σ' ∧ Forall2 (P σ') xs vs.
Proof.
  intros Hstable Hload xs. induction xs as [|x xs IH]; intros σ.
  - exists [], σ. split; [done|]. split; [apply keeps_refl|constructor].
  - destruct (Hload x σ) as (v & σ1 & Hv & Hkeeps1 & Hx).
    destruct (IH σ1) as (vs & σ2 & Hvs & Hkeeps2 & Hxs).
    exists (v :: vs), σ2. split; [|split].
    + cbn [Load.each]. run. rewrite Hv. run. by rewrite Hvs.
    + by eapply keeps_trans.
    + constructor; [|done]. eapply Hstable; [|done]. by apply keeps_within.
Qed.

Lemma list_of_loads {A : Type} (P : state → A → val → Prop) load :
  (∀ σ σ' x v, within σ σ' → P σ x v → P σ' x v) → loads P load →
  loads (λ σ, Shape.list_at σ (P σ)) (Load.list_of load).
Proof.
  intros Hstable Hload xs σ.
  destruct (each_loads P load Hstable Hload xs σ) as (vs & σ1 & Hvs & Hkeeps & Hxs).
  exists (VRef (length (objects σ1))), (grown σ1 [OList vs]). split; [|split].
  - unfold Load.list_of. run. by rewrite Hvs.
  - eapply keeps_trans; [done|apply keeps_grown].
  - exists (length (objects σ1)), vs. split; [done|]. split; [apply lookup_grown_new|].
    eapply Forall2_impl; [done|]. intros x v. apply Hstable. apply within_grown, within_refl.
Qed.

Lemma scalars_load {A : Type} (P : A → val → Prop) (leaf : A → val) :
  (∀ x, P x (leaf x)) → loads (λ σ, Shape.list_at σ P) (Load.list_of (λ x, mret (leaf x))).
Proof.
  intros Hleaf. apply (list_of_loads (λ _, P)); [done|].
  intros x σ. exists (leaf x), σ. split; [done|]. split; [apply keeps_refl|done].
Qed.

(** The [dict] a literal allocates has the fields of the literal. *)
Ltac new_dict :=
  eexists _, _; split; [reflexivity|]; split; [apply lookup_grown_new|];
  repeat (constructor; [eexists; split; [reflexivity|cbn [snd]; eauto 8 with within]|]);
  constructor.

Lemma forecast_data_loads : loads Shape.forecast_data Load.forecast_data.
Proof.
  intros f σ. eexists _, _. split; [reflexivity|]. split; [apply keeps_grown|].
  new_dict; done.
Qed.

Lemma geometry_loads : loads Shape.geometry Load.geometry.
Proof.
  intros g σ.
  destruct (scalars_load Shape.float_at (λ q, VScalar (SFloat q)) ltac:(done)
              (Geometry.coordinates g) σ) as (v & σ1 & Hv & Hkeeps & Hshape).
  eexists _, _. split; [|split].
  - unfold Load.geometry. run. rewrite Hv. reflexivity.
  - eapply keeps_trans; [done|apply keeps_grown].
  - new_dict; done.
Qed.

Lemma rain_properties_data_loads :
  loads Shape.rain_properties_data Load.rain_properties_data.
Proof.
  intros p σ.
  destruct (list_of_loads _ _ forecast_data_within forecast_data_loads
              (RainPropertiesData.forecast p) σ) as (v & σ1 & Hv & Hkeeps & Hshape).
  eexists _, _. split; [|split].
  - unfold Load.rain_properties_data. run. rewrite Hv. reflexivity.
  - eapply keeps_trans; [done|apply keeps_grown].
  - new_dict; done.
Qed.

Lemma rain_data_loads : loads Shape.rain_data Load.rain_data.
Proof.
  intros d σ.
  destruct (geometry_loads (RainData.geometry d) σ) as (g & σ1 & Hg & Hkeeps1 & Hgeometry).
  destruct (rain_properties_data_loads (RainData.properties d) σ1)
    as (p & σ2 & Hp & Hkeeps2 & Hproperties).
  eexists _, _. split; [|split].
  - unfold Load.rain_data. run. rewrite Hg. run. rewrite Hp. reflexivity.
  - eapply keeps_trans; [by eapply keeps_trans|apply keeps_grown].
  - new_dict; done.
Qed.

Lemma location_loads : loads Shape.location Load.location.
Proof.
  intros l σ. eexists _, _. split; [reflexivity|]. split; [apply keeps_grown|].
  new_dict; done.
Qed.

Lemma avalanche_risk_per_location_loads :
  loads Shape.avalanche_risk_per_location Load.avalanche_risk_per_location.
Proof.
  intros r σ.
  destruct (location_loads (AvalancheRiskPerLocation.location r) σ)
    as (l & σ1 & Hl & Hkeeps & Hlocation).
  eexists _, _. split; [|split].
  - unfold Load.avalanche_risk_per_location. run. rewrite Hl. reflexivity.
  - eapply keeps_trans; [done|apply keeps_grown].
  - new_dict; done.
Qed.

Lemma massif_avalanche_risk_loads :
  loads Shape.massif_avalanche_risk Load.massif_avalanche_risk.
Proof.
  intros m σ.
  destruct (scalars_load Shape.str_at (λ s, VScalar (SStr s)) ltac:(done)
              (MassifAvalancheRisk.dangerous_exposition m) σ)
    as (e & σ1 & He & Hkeeps1 & Hexposition).
  destruct (list_of_loads _ _ avalanche_risk_per_location_within
              avalanche_risk_per_location_loads
              (MassifAvalancheRisk.avalanche_risk_per_location m) σ1)
    as (r & σ2 & Hr & Hkeeps2 & Hrisks).
  eexists _, _. split; [|split].
  - unfold Load.massif_avalanche_risk. run. rewrite He. run. rewrite Hr. reflexivity.
  - eapply keeps_trans; [by eapply keeps_trans|apply keeps_grown].
  - new_dict; done.
Qed.

Lemma snow_depth_loads : loads Shape.snow_depth Load.snow_depth.
Proof.
  intros d σ. eexists _, _. split; [reflexivity|]. split; [apply keeps_grown|].
  new_dict; done.
Qed.

Lemma fresh_snow_per_exposition_loads :
  loads Shape.fresh_snow_per_exposition Load.fresh_snow_per_exposition.
Proof.
  intros f σ.
  destruct (list_of_loads _ _ snow_depth_within snow_depth_loads
              (FreshSnowPerExposition.fresh_snow_depth f) σ)
    as (v & σ1 & Hv & Hkeeps & Hshape).
  eexists _, _. split; [|split].
  - unfold Load.fresh_snow_per_exposition. run. rewrite Hv. reflexivity.
  - eapply keeps_trans; [done|apply keeps_grown].
  - new_dict; done.
Qed.

Lemma total_snow_per_exposition_loads :
  loads Shape.total_snow_per_exposition Load.total_snow_per_exposition.
Proof.
  intros t σ.
  destruct (list_of_loads _ _ snow_depth_within snow_depth_loads
              (TotalSnowPerExposition.total_snow_depth t) σ)
    as (v & σ1 & Hv & Hkeeps & Hshape).
  eexists _, _. split; [|split].
  - unfold Load.total_snow_per_exposition. run. rewrite Hv. reflexivity.
  - eapply keeps_trans; [done|apply keeps_grown].
  - new_dict; done.
Qed.

Lemma snow_properties_data_loads :
  loads Shape.snow_properties_data Load.snow_properties_data.
Proof.
  intros p σ.
  destruct (massif_avalanche_risk_loads (SnowPropertiesData.massif_avalanche_risk p) σ)
    as (m & σ1 & Hm & Hkeeps1 & Hmassif).
  destruct (list_of_loads _ _ fresh_snow_per_exposition_within
              fresh_snow_per_exposition_loads
              (SnowPropertiesData.fresh_snow_per_exposition p) σ1)
    as (f & σ2 & Hf & Hkeeps2 & Hfresh).
  destruct (list_of_loads _ _ total_snow_per_exposition_within
              total_snow_per_exposition_loads
              (SnowPropertiesData.total_snow_per_exposition p) σ2)
    as (t & σ3 & Ht & Hkeeps3 & Htotal).
  pose proof (keeps_trans _ _ _ Hkeeps2 Hkeeps3) as Hkeeps23.
  pose proof (keeps_trans _ _ _ Hkeeps1 Hkeeps23) as Hkeeps13.
  eexists _, _. split; [|split].
  - unfold Load.snow_properties_data. run. rewrite Hm. run. rewrite Hf. run. rewrite Ht.
    reflexivity.
  - eapply keeps_trans; [done|apply keeps_grown].
  - new_dict; done.
Qed.

Lemma snow_data_loads : loads Shape.snow_data Load.snow_data.
Proof.
  intros d σ.
  destruct (snow_properties_data_loads (SnowData.properties d) σ)
    as (p & σ1 & Hp & Hkeeps & Hproperties).
  eexists _, _. split; [|split].
  - unfold Load.snow_data. run. rewrite Hp. reflexivity.
  - eapply keeps_trans; [done|apply keeps_grown].
  - new_dict; done.
Qed.

Lemma rain_wrapped d σ :
  ∃ raw σ',
    Load.rain d σ = (Ok (length (wrappers σ)), σ')
    ∧ wrappers σ' !! length (wrappers σ) = Some raw
    ∧ Shape.rain_data σ' d raw.
Proof.
  destruct (rain_data_loads d σ) as (raw & σ1 & Hraw & [Hwrappers _] & Hshape).
  exists raw, (__init__ raw σ1).2. split; [|split].
  - unfold Load.rain. run. rewrite Hraw. unfold __init__. by rewrite Hwrappers.
  - simpl. by rewrite Hwrappers, lookup_app_r, Nat.sub_diag.
  - apply (rain_data_within σ1); [|done]. by intros l o.
Qed.

Lemma snow_wrapped d σ :
  ∃ raw σ',
    Load.snow d σ = (Ok (length (wrappers σ)), σ')
    ∧ wrappers σ' !! length (wrappers σ) = Some raw
    ∧ Shape.snow_data σ' d raw.
Proof.
  destruct (snow_data_loads d σ) as (raw & σ1 & Hraw & [Hwrappers _] & Hshape).
  exists raw, (__init__ raw σ1).2. split; [|split].
  - unfold Load.snow. run. rewrite Hraw. unfold __init__. by rewrite Hwrappers.
  - simpl. by rewrite Hwrappers, lookup_app_r, Nat.sub_diag.
  - apply (snow_data_within σ1); [|done]. by intros l o.
Qed.

Lemma drop_grown σ ext : drop (length (objects σ)) (objects (grown σ ext)) = ext.
Proof. simpl. by rewrite drop_app_length. Qed.

(** X13: [Rain(document).next_rain_date_locale()], for every document of the
    declared type, is what the typed method computes. *)
Theorem next_rain_date_locale_loaded tzdata int_of_str d σ :
  ((self ← Load.rain d; RainObject.next_rain_date_locale tzdata int_of_str self) σ).1
  = Rain.next_rain_date_locale tzdata (Rain.__init__ d).
Proof.
  destruct (rain_wrapped d σ) as (raw & σ1 & Hself & Hraw & Hshape).
  run. rewrite Hself.
  by rewrite (next_rain_date_locale_rain_data _ _ _ _ _ _ Hraw Hshape).
Qed.

(** [Snow(document).get_snow_depth_at_altitude(altitude)]. *)
Theorem get_snow_depth_at_altitude_loaded d altitude σ :
  ((self ← Load.snow d; SnowObject.get_snow_depth_at_altitude self altitude) σ).1
  = Ok (Shape.optional_int (Snow.get_snow_depth_at_altitude (Snow.__init__ d) altitude)).
Proof.
  destruct (snow_wrapped d σ) as (raw & σ1 & Hself & Hraw & Hshape).
  run. rewrite Hself.
  by rewrite (get_snow_depth_at_altitude_snow_data _ _ _ _ _ Hraw Hshape).
Qed.

(** [Snow(document).get_avalanche_risk_by_location_value(location_value)]. *)
Theorem get_avalanche_risk_by_location_value_loaded d location_value σ :
  ((self ← Load.snow d;
    SnowObject.get_avalanche_risk_by_location_value self location_value) σ).1
  = Ok (Shape.optional_int
          (Snow.get_avalanche_risk_by_location_value (Snow.__init__ d) location_value)).
Proof.
  destruct (snow_wrapped d σ) as (raw & σ1 & Hself & Hraw & Hshape).
  run. rewrite Hself.
  by rewrite (get_avalanche_risk_by_location_value_snow_data _ _ _ _ _ Hraw Hshape).
Qed.

(** X14: [Snow(document).get_available_altitudes()] is a [list] of the store
    holding the altitudes of the typed method. *)
Theorem get_available_altitudes_loaded d σ :
  ∃ l σ',
    (self ← Load.snow d; SnowObject.get_available_altitudes self) σ = (Ok (VRef l), σ')
    ∧ objects σ' !! l
      = Some (OList (VScalar ∘ SInt <$> Snow.get_available_altitudes (Snow.__init__ d))).
Proof.
  destruct (snow_wrapped d σ) as (raw & σ1 & Hself & Hraw & Hshape).
  destruct (get_available_altitudes_snow_data _ _ _ _ Hraw Hshape) as (zs & Hrun).
  eexists _, _. split; [run; by rewrite Hself, Hrun|].
  simpl. by rewrite lookup_app_r, Nat.sub_succ_l, Nat.sub_diag by lia.
Qed.

(** X17: [Snow(document).get_avalanche_risks()] is a [dict] of the store that
    reads as the map of the typed method. *)
Theorem get_avalanche_risks_loaded d σ :
  ∃ l σ' items,
    (self ← Load.snow d; SnowObject.get_avalanche_risks self) σ = (Ok (VRef l), σ')
    ∧ objects σ' !! l = Some (ODict items)
    ∧ int_map (Snow.get_avalanche_risks (Snow.__init__ d)) items.
Proof.
  destruct (snow_wrapped d σ) as (raw & σ1 & Hself & Hraw & Hshape).
  destruct (get_avalanche_risks_snow_data _ _ _ _ Hraw Hshape) as (items & Hrun & Hmap).
  eexists _, _, items. split; [run; by rewrite Hself, Hrun|].
  split; [apply lookup_grown_new|done].
Qed.

(** X16: [Snow(document).get_snow_limits()] is a [dict] of the store that
    reads as the map of the typed method. *)
Theorem get_snow_limits_loaded d σ :
  ∃ l σ' items,
    (self ← Load.snow d; SnowObject.get_snow_limits self) σ = (Ok (VRef l), σ')
    ∧ objects σ' !! l = Some (ODict items)
    ∧ int_map (Snow.get_snow_limits (Snow.__init__ d)) items.
Proof.
  destruct (snow_wrapped d σ) as (raw & σ1 & Hself & Hraw & Hshape).
  destruct (get_snow_limits_snow_data _ _ _ _ Hraw Hshape) as (items & Hrun & Hmap).
  eexists _, _, items. split; [run; by rewrite Hself, Hrun|].
  split; [apply lookup_grown_new|done].
Qed.

(** X15: [Snow(document).get_snow_depths()] is a [list] of [dict]s, the last
    objects of the store: one per entry of the typed method. *)
Theorem get_snow_depths_loaded d σ :
  ∃ l σ',
    (self ← Load.snow d; SnowObject.get_snow_depths self) σ = (Ok (VRef l), σ')
    ∧ drop l (objects σ') = snow_depth_objects l (Snow.get_snow_depths (Snow.__init__ d)).
Proof.
  destruct (snow_wrapped d σ) as (raw & σ1 & Hself & Hraw & Hshape).
  eexists _, _. split.
  - run. rewrite Hself. by rewrite (get_snow_depths_snow_data _ _ _ _ Hraw Hshape).
  - apply drop_grown.
Qed.

(** X18: [Snow(document).get_fresh_snow()] is a [dict] of [dict]s, the last
    objects of the store, that reads as the nested map of the typed
    method. *)
Theorem get_fresh_snow_loaded d σ :
  ∃ l σ' outer inners,
    (self ← Load.snow d; SnowObject.get_fresh_snow self) σ = (Ok (VRef l), σ')
    ∧ drop l (objects σ') = fresh_snow_objects outer inners
    ∧ fresh_snow_index l (Snow.get_fresh_snow (Snow.__init__ d)) outer inners.
Proof.
  destruct (snow_wrapped d σ) as (raw & σ1 & Hself & Hraw & Hshape).
  destruct (get_fresh_snow_snow_data _ _ _ _ Hraw Hshape)
    as (outer & inners & Hrun & Hindex).
  eexists _, _, outer, inners. split; [run; by rewrite Hself, Hrun|].
  split; [apply drop_grown|done].
Qed.
End Refinement.

(** * Further properties of the queries *)

(** ** Snow: the queries over the total-snow data, one against another *)

Lemma get_snow_depths_inner info depths entries :
  foldl (λ snow_depth_list depth_data,
           snow_depth_list ++
             [{| Snow.exposition := TotalSnowPerExposition.exposition info;
                 Snow.altitude := SnowDepth.altitude depth_data;
                 Snow.total_snow_depth := SnowDepth.value depth_data |}])
        entries depths
  = entries ++ (snow_depth_entry_of info <$> depths).
Proof.
  revert entries. induction depths as [|d ds IH]; intros entries; simpl.
  - by rewrite app_nil_r.
  - by rewrite IH, <- (assoc_L (++)).
Qed.

Lemma get_snow_depths_outer infos entries :
  foldl (λ snow_depth_list exposition_data,
           let exposition := TotalSnowPerExposition.exposition exposition_data in
           foldl (λ snow_depth_list depth_data,
                    snow_depth_list ++
                      [{| Snow.exposition := exposition;
                          Snow.altitude := SnowDepth.altitude depth_data;
                          Snow.total_snow_depth := SnowDepth.value depth_data |}])
                 snow_depth_list (TotalSnowPerExposition.total_snow_depth exposition_data))
        entries infos
  = entries ++ (info ← infos;
                snow_depth_entry_of info <$> TotalSnowPerExposition.total_snow_depth info).
Proof.
  revert entries. induction infos as [|info rest IH]; intros entries; simpl.
  - by rewrite app_nil_r.
  - rewrite get_snow_depths_inner, IH. by rewrite (assoc_L (++)).
Qed.

Lemma get_snow_depths_bind self :
  Snow.get_snow_depths self
  = info ← expositions self;
    snow_depth_entry_of info <$> TotalSnowPerExposition.total_snow_depth info.
Proof. unfold Snow.get_snow_depths. fold (expositions self). apply get_snow_depths_outer. Qed.

Lemma get_snow_depths_altitudes self :
  Snow.altitude <$> Snow.get_snow_depths self
  = SnowDepth.altitude <$> total_snow_records self.
Proof.
  rewrite get_snow_depths_bind. unfold total_snow_records.
  induction (expositions self) as [|info rest IH]; [done|].
  rewrite !bind_cons, !fmap_app, IH. f_equal. by rewrite <- list_fmap_compose.
Qed.

Lemma depth_loop_head a depths :
  Snow.depth_loop a depths
  = SnowDepth.value <$> head (filter (λ d, SnowDepth.altitude d = a) depths).
Proof.
  induction depths as [|d ds IH]; [done|]. simpl. rewrite filter_cons.
  destruct (Z.eqb_spec (SnowDepth.altitude d) a) as [Heq|Hne].
  - by rewrite decide_True.
  - by rewrite decide_False.
Qed.

Lemma exposition_loop_head a infos :
  Snow.exposition_loop a infos
  = SnowDepth.value
      <$> head (filter (λ d, SnowDepth.altitude d = a)
                  (info ← infos; TotalSnowPerExposition.total_snow_depth info)).
Proof.
  induction infos as [|info rest IH]; [done|]. simpl.
  rewrite filter_app, depth_loop_head, IH.
  by destruct (filter _ (TotalSnowPerExposition.total_snow_depth info)).
Qed.

(** X1: [get_snow_depths] lists one entry per total-snow depth record,
    exposition after exposition and record after record in document
    order, each carrying the name of the exposition it was found under;
    an exposition without records contributes nothing. *)
Theorem get_snow_depths_document_order self :
  Snow.get_snow_depths self
  = (info ← expositions self;
     snow_depth_entry_of info <$> TotalSnowPerExposition.total_snow_depth info)
  ∧ length (Snow.get_snow_depths self) = length (total_snow_records self)
  ∧ (Snow.get_snow_depths self = []
     ↔ Forall (λ info, TotalSnowPerExposition.total_snow_depth info = []) (expositions self)).
Proof.
  split; [apply get_snow_depths_bind|]. split.
  - by rewrite <- (length_fmap Snow.altitude), get_snow_depths_altitudes, length_fmap.
  - rewrite get_snow_depths_bind.
    induction (expositions self) as [|info rest IH].
    + by split; [constructor|].
    + rewrite bind_cons, Forall_cons, <- IH. split.
      * intros [H1 H2]%app_eq_nil. split; [|done]. by apply fmap_nil_inv in H1.
      * intros [-> ->]. done.
Qed.

(** X2: [get_snow_depth_at_altitude] returns the [total_snow_depth] of
    the first entry of [get_snow_depths] at the queried altitude, and
    [None] when [get_snow_depths] has no entry there. *)
Theorem get_snow_depth_at_altitude_first_entry self a :
  Snow.get_snow_depth_at_altitude self a
  = Snow.total_snow_depth
      <$> head (filter (λ e, Snow.altitude e = a) (Snow.get_snow_depths self)).
Proof.
  unfold Snow.get_snow_depth_at_altitude. fold (expositions self).
  rewrite exposition_loop_head, get_snow_depths_bind.
  induction (expositions self) as [|info rest IH]; [done|].
  rewrite !bind_cons, !filter_app.
  assert (Hinner : ∀ depths,
    SnowDepth.value <$> head (filter (λ d, SnowDepth.altitude d = a) depths ++
                              filter (λ d, SnowDepth.altitude d = a)
                                (rest ≫= TotalSnowPerExposition.total_snow_depth))
    = Snow.total_snow_depth
        <$> head (filter (λ e, Snow.altitude e = a) (snow_depth_entry_of info <$> depths) ++
                  filter (λ e, Snow.altitude e = a)
                    (rest ≫= λ info,
                       snow_depth_entry_of info <$> TotalSnowPerExposition.total_snow_depth info))).
  { induction depths as [|d ds IHd]; [exact IH|].
    rewrite fmap_cons, !filter_cons. simpl.
    destruct (decide (SnowDepth.altitude d = a)); [done|exact IHd]. }
  apply Hinner.
Qed.

(** X3: the altitudes [get_available_altitudes] lists are exactly the
    altitudes of the entries of [get_snow_depths]; the list is never
    longer than [get_snow_depths], and the two are empty together. *)
Theorem get_available_altitudes_of_entries self :
  (∀ a, a ∈ Snow.get_available_altitudes self
        ↔ a ∈ Snow.altitude <$> Snow.get_snow_depths self)
  ∧ length (Snow.get_available_altitudes self) ≤ length (Snow.get_snow_depths self)
  ∧ (Snow.get_available_altitudes self = [] ↔ Snow.get_snow_depths self = []).
Proof.
  assert (Helem : ∀ a, a ∈ Snow.get_available_altitudes self
                       ↔ a ∈ Snow.altitude <$> Snow.get_snow_depths self).
  { intros a. rewrite get_available_altitudes_elem_of, get_snow_depths_altitudes.
    rewrite list_elem_of_fmap. naive_solver. }
  split; [exact Helem|]. split.
  - rewrite <- (length_fmap Snow.altitude (Snow.get_snow_depths self)).
    apply submseteq_length, NoDup_submseteq; [|intros a; apply Helem].
    unfold Snow.get_available_altitudes. apply sorted_NoDup.
  - split.
    + intros Hnil. destruct (Snow.get_snow_depths self) as [|e es]; [done|].
      assert (Snow.altitude e ∈ Snow.get_available_altitudes self) as Hin
        by (apply Helem; left).
      rewrite Hnil in Hin. by apply elem_of_nil in Hin.
    + intros Hnil. destruct (Snow.get_available_altitudes self) as [|a l] eqn:Hl; [done|].
      assert (a ∈ Snow.altitude <$> Snow.get_snow_depths self) as Hin
        by (apply Helem; left).
      rewrite Hnil in Hin. by apply elem_of_nil in Hin.
Qed.

(** ** Snow: the snow limits *)

Lemma snow_limits_lookup (snow_limits : gmap string Z) infos e :
  foldl (λ snow_limits exposition_data,
           <[TotalSnowPerExposition.exposition exposition_data :=
               TotalSnowPerExposition.snow_limit exposition_data]> snow_limits)
        snow_limits infos !! e
  = match last (filter (λ i, TotalSnowPerExposition.exposition i = e) infos) with
    | Some i => Some (TotalSnowPerExposition.snow_limit i)
    | None => snow_limits !! e
    end.
Proof.
  induction infos as [|i rest IH] using rev_ind; [done|].
  rewrite foldl_snoc, filter_app, filter_cons, filter_nil.
  destruct (decide (TotalSnowPerExposition.exposition i = e)) as [Heq|Hne].
  - by rewrite last_snoc, Heq, lookup_insert_eq.
  - by rewrite app_nil_r, lookup_insert_ne.
Qed.

Lemma snow_limits_dom (snow_limits : gmap string Z) infos :
  dom (foldl (λ snow_limits exposition_data,
                <[TotalSnowPerExposition.exposition exposition_data :=
                    TotalSnowPerExposition.snow_limit exposition_data]> snow_limits)
             snow_limits infos)
  = dom snow_limits ∪ list_to_set (TotalSnowPerExposition.exposition <$> infos).
Proof.
  revert snow_limits. induction infos as [|i rest IH]; intros snow_limits; simpl.
  - set_solver.
  - rewrite IH, dom_insert_L. set_solver.
Qed.

Lemma get_snow_limits_dom self :
  dom (Snow.get_snow_limits self)
  = list_to_set (TotalSnowPerExposition.exposition <$> expositions self).
Proof.
  unfold Snow.get_snow_limits. fold (expositions self). cbv zeta.
  by rewrite snow_limits_dom, dom_empty_L, (left_id_L ∅ (∪)).
Qed.

(** X4: in the mapping [get_snow_limits] returns, the keys are exactly
    the exposition names of the total-snow data, each mapped to the
    [snow_limit] of the last entry bearing the name; there are as many
    keys as distinct names, so no more than entries. *)
Theorem get_snow_limits_last_wins self :
  (∀ e, Snow.get_snow_limits self !! e
        = TotalSnowPerExposition.snow_limit
            <$> last (filter (λ i, TotalSnowPerExposition.exposition i = e)
                        (expositions self)))
  ∧ (∀ e, is_Some (Snow.get_snow_limits self !! e)
          ↔ e ∈ TotalSnowPerExposition.exposition <$> expositions self)
  ∧ size (Snow.get_snow_limits self)
    = length (remove_dups (TotalSnowPerExposition.exposition <$> expositions self))
  ∧ size (Snow.get_snow_limits self) ≤ length (expositions self).
Proof.
  assert (Hsize : size (Snow.get_snow_limits self)
                  = length (remove_dups (TotalSnowPerExposition.exposition
                                           <$> expositions self))).
  { rewrite <- size_dom, get_snow_limits_dom. apply size_list_to_set_remove_dups. }
  split; [|split; [|split]].
  - intros e. unfold Snow.get_snow_limits. fold (expositions self). cbv zeta.
    rewrite snow_limits_lookup. by destruct (last _).
  - intros e. rewrite <- elem_of_dom, get_snow_limits_dom. set_solver.
  - exact Hsize.
  - rewrite Hsize, <- (length_fmap TotalSnowPerExposition.exposition (expositions self)).
    apply remove_dups_length_le.
Qed.

(** X5: every exposition named by an entry of [get_snow_depths] is a
    key of [get_snow_limits]. *)
Theorem get_snow_depths_exposition_has_limit self entry :
  entry ∈ Snow.get_snow_depths self →
  is_Some (Snow.get_snow_limits self !! Snow.exposition entry).
Proof.
  rewrite get_snow_depths_bind, list_elem_of_bind.
  intros (info & Hentry & Hinfo). apply list_elem_of_fmap in Hentry as (d & -> & _).
  apply elem_of_dom. rewrite get_snow_limits_dom, elem_of_list_to_set.
  apply list_elem_of_fmap. by exists info.
Qed.

Lemma get_snow_depths_exposition_has_limit_witness :
  is_Some (Snow.get_snow_limits sample_snow !! "S").
Proof.
  apply (get_snow_depths_exposition_has_limit sample_snow
           {| Snow.exposition := "S"; Snow.altitude := 2500;
              Snow.total_snow_depth := 130 |}).
  apply list_elem_of_lookup. exists 3. reflexivity.
Defined.

(** ** Snow: the two avalanche-risk queries *)

Lemma last_NoDup_head {A B : Type} (f : A → B) `{EqDecision B} (l : list A) v :
  NoDup (f <$> l) →
  last (filter (λ x, f x = v) l) = head (filter (λ x, f x = v) l).
Proof.
  induction l as [|x l IH]; [done|]. rewrite fmap_cons, NoDup_cons. intros [Hx Hl].
  rewrite filter_cons. destruct (decide (f x = v)) as [Heq|Hne]; [|by apply IH].
  destruct (filter (λ x, f x = v) l) as [|y ys] eqn:Hfilter; [done|].
  assert (y ∈ filter (λ x, f x = v) l) as [Hfy Hy]%list_elem_of_filter
    by (rewrite Hfilter; left).
  destruct Hx. apply list_elem_of_fmap. exists y. split; [congruence|done].
Qed.

(** X6: [get_avalanche_risk_by_location_value] returns [None] exactly
    for the strings that are no key of [get_avalanche_risks]; when no two
    entries share their [location.value], it returns for every string
    what [get_avalanche_risks] holds under it. *)
Theorem avalanche_risk_queries_agree self :
  (∀ v, Snow.get_avalanche_risk_by_location_value self v = None
        ↔ Snow.get_avalanche_risks self !! v = None)
  ∧ (NoDup (location_value <$> avalanche_risk_entries self) →
     ∀ v, Snow.get_avalanche_risk_by_location_value self v
          = Snow.get_avalanche_risks self !! v).
Proof.
  assert (Hby : ∀ v, Snow.get_avalanche_risk_by_location_value self v
                     = AvalancheRiskPerLocation.avalanche_risk
                         <$> head (filter (λ r, location_value r = v)
                                     (avalanche_risk_entries self))).
  { intros v. unfold Snow.get_avalanche_risk_by_location_value.
    fold (avalanche_risk_entries self). apply risk_loop_head. }
  assert (Hmap : ∀ v, Snow.get_avalanche_risks self !! v
                      = AvalancheRiskPerLocation.avalanche_risk
                          <$> last (filter (λ r, location_value r = v)
                                      (avalanche_risk_entries self))).
  { intros v. unfold Snow.get_avalanche_risks. fold (avalanche_risk_entries self).
    cbv zeta. fold location_value.
    change (λ (risks_map : gmap string Z) risk,
              <[Location.value (AvalancheRiskPerLocation.location risk) :=
                  AvalancheRiskPerLocation.avalanche_risk risk]> risks_map)
      with (λ (risks_map : gmap string Z) risk,
              <[location_value risk := AvalancheRiskPerLocation.avalanche_risk risk]>
                risks_map).
    rewrite risks_map_lookup. by destruct (last _). }
  split.
  - intros v. rewrite Hby, Hmap, !fmap_None, head_None, last_None. done.
  - intros Hnd v. by rewrite Hby, Hmap, (last_NoDup_head location_value).
Qed.

Lemma avalanche_risk_queries_agree_witness :
  let self := Snow.__init__ (snow_document [risk_at "<2200" 2; risk_at ">2200" 3] [] []) in
  NoDup (location_value <$> avalanche_risk_entries self)
  ∧ Snow.get_avalanche_risk_by_location_value self ">2200"
    = Snow.get_avalanche_risks self !! ">2200".
Proof.
  intros self.
  assert (Hnd : NoDup (location_value <$> avalanche_risk_entries self)).
  { apply (bool_decide_unpack _). vm_compute. exact I. }
  split; [exact Hnd|].
  exact (proj2 (avalanche_risk_queries_agree self) Hnd ">2200").
Defined.

(** ** Snow: what the fresh-snow index holds *)

Lemma fresh_snow_index_lookup (records : list (string * SnowDepth.t)) date a e :
  foldl (λ fresh_snow_map r, Snow.fresh_snow_step r.1 fresh_snow_map r.2) ∅ records
    !! date ≫= (λ inner, inner !! (a, e))
  = (λ r, SnowDepth.value r.2)
      <$> last (filter (λ r, fresh_snow_slot r = (date, (a, e))) records).
Proof.
  induction records as [|r records IH] using rev_ind;
    [simpl; by rewrite lookup_empty|].
  rewrite foldl_snoc, fresh_snow_step_insert, filter_app, filter_cons, filter_nil.
  set (index := foldl _ ∅ records) in *.
  destruct (decide (fresh_snow_slot r = (date, (a, e)))) as [Hslot|Hslot].
  - rewrite last_snoc. unfold fresh_snow_slot in Hslot. injection Hslot as -> -> ->.
    by rewrite lookup_insert_eq; simpl; rewrite lookup_insert_eq.
  - rewrite app_nil_r, <- IH. unfold fresh_snow_slot in Hslot.
    destruct (decide (SnowDepth.date r.2 = date)) as [Hdate|Hdate].
    + rewrite Hdate, lookup_insert_eq. simpl.
      rewrite lookup_insert_ne by congruence.
      destruct (index !! date); [done|]. simpl. apply lookup_empty.
    + by rewrite lookup_insert_ne.
Qed.

Lemma fresh_snow_index_non_empty (records : list (string * SnowDepth.t)) date inner :
  foldl (λ fresh_snow_map r, Snow.fresh_snow_step r.1 fresh_snow_map r.2) ∅ records
    !! date = Some inner →
  inner ≠ ∅.
Proof.
  revert date inner. induction records as [|r records IH] using rev_ind; intros date inner.
  - simpl. by rewrite lookup_empty.
  - rewrite foldl_snoc, fresh_snow_step_insert.
    destruct (decide (SnowDepth.date r.2 = date)) as [Hdate|Hdate].
    + rewrite Hdate, lookup_insert_eq. intros [= <-]. apply insert_non_empty.
    + rewrite lookup_insert_ne by done. apply IH.
Qed.

(** X7: in the mapping [get_fresh_snow] returns, the value filed under a
    date and an (altitude, exposition) pair is the [value] of the last
    fresh-snow record, in document order, with that date, altitude and
    exposition; a date or a pair no record has is absent. *)
Theorem get_fresh_snow_last_wins self date a e :
  Snow.get_fresh_snow self !! date ≫= (λ inner, inner !! (a, e))
  = (λ r, SnowDepth.value r.2)
      <$> last (filter (λ r, fresh_snow_slot r = (date, (a, e))) (fresh_snow_records self)).
Proof. rewrite get_fresh_snow_records. apply fresh_snow_index_lookup. Qed.

(** X8: the dates [get_fresh_snow] has keys for are exactly the dates of
    the fresh-snow records, and no date is mapped to an empty mapping:
    an exposition without records leaves no trace. *)
Theorem get_fresh_snow_dates self :
  (∀ date, is_Some (Snow.get_fresh_snow self !! date)
           ↔ date ∈ (λ r, SnowDepth.date r.2) <$> fresh_snow_records self)
  ∧ (∀ date inner, Snow.get_fresh_snow self !! date = Some inner → inner ≠ ∅)
  ∧ (Snow.get_fresh_snow self = ∅ ↔ fresh_snow_records self = []).
Proof.
  rewrite get_fresh_snow_records.
  set (records := fresh_snow_records self).
  destruct (fresh_snow_index_slots records) as [_ Hslots]. simpl in Hslots.
  assert (Hdates : ∀ date,
    is_Some (foldl (λ fresh_snow_map r, Snow.fresh_snow_step r.1 fresh_snow_map r.2)
                   ∅ records !! date)
    ↔ date ∈ (λ r, SnowDepth.date r.2) <$> records).
  { intros date. split.
    - intros [inner Hinner].
      pose proof (fresh_snow_index_non_empty _ _ _ Hinner) as Hne.
      apply map_choose in Hne as (slot & v & Hv).
      assert ((date, slot) ∈ (list_to_set (fresh_snow_slot <$> records)
                               : gset (string * (Z * string)))) as Hin.
      { apply Hslots. exists inner. split; [done|]. by exists v. }
      apply elem_of_list_to_set, list_elem_of_fmap in Hin as (r & Hr & Hin).
      apply list_elem_of_fmap. exists r. split; [|done].
      unfold fresh_snow_slot in Hr. congruence.
    - intros (r & -> & Hr)%list_elem_of_fmap.
      destruct (proj1 (Hslots (SnowDepth.date r.2) (SnowDepth.altitude r.2, r.1)))
        as (inner & Hinner & _); [|by exists inner].
      apply elem_of_list_to_set, list_elem_of_fmap. by exists r. }
  split; [exact Hdates|]. split; [apply fresh_snow_index_non_empty|].
  split.
  - intros Hempty. destruct records as [|r rest] eqn:Hrecords; [done|].
    assert (is_Some (foldl (λ fresh_snow_map r, Snow.fresh_snow_step r.1 fresh_snow_map r.2)
                           ∅ (r :: rest) !! SnowDepth.date r.2)) as [inner Hinner].
    { apply Hdates. rewrite fmap_cons. left. }
    rewrite Hempty, lookup_empty in Hinner. done.
  - intros ->. done.
Qed.

(** X19: [get_available_altitudes] depends on the altitudes of the
    total-snow records only, not on their order, their number or the
    exposition they are filed under: two documents whose records are at
    the same altitudes get the same list. *)
Theorem get_available_altitudes_same_altitudes self1 self2 :
  (∀ a, a ∈ SnowDepth.altitude <$> total_snow_records self1
        ↔ a ∈ SnowDepth.altitude <$> total_snow_records self2) →
  Snow.get_available_altitudes self1 = Snow.get_available_altitudes self2.
Proof.
  intros Hsame.
  apply (StronglySorted_unique Z.le);
    try (unfold Snow.get_available_altitudes; apply (StronglySorted_merge_sort Z.le)).
  apply NoDup_Permutation;
    try (unfold Snow.get_available_altitudes; apply sorted_NoDup).
  intros a. rewrite !get_available_altitudes_elem_of.
  pose proof (Hsame a) as Ha. rewrite !list_elem_of_fmap in Ha. naive_solver.
Qed.

Lemma get_available_altitudes_same_altitudes_witness :
  Snow.get_available_altitudes sample_snow
  = Snow.get_available_altitudes
      (Snow.__init__
         (snow_document [] []
            [total_snow "E" 900 [snow_depth 2500 "2024-01-27" 1; snow_depth 1500 "2024-01-27" 2;
                                 snow_depth 2000 "2024-01-27" 3]])).
Proof.
  apply get_available_altitudes_same_altitudes. intros a.
  change (a ∈ [2000; 1500; 1500; 2500; 2000]%Z ↔ a ∈ [2500; 1500; 2000]%Z).
  rewrite !elem_of_cons, !elem_of_nil. intuition.
Defined.

(** ** Runs over the store *)

Section ObjectRuns.
Import Py.
Import Built.

(** Runs the binds at the head of the goal. *)
Ltac run := repeat (rewrite bind_unfold || rewrite ret_unfold); lazy beta iota.

Ltac field_in := repeat first [apply list_elem_of_here | apply list_elem_of_further].

(** Runs the subscript at the head of the goal on a value of known shape. *)
Ltac read H k :=
  let w := fresh "w" in
  let Hw := fresh "H" w in
  rewrite ?bind_unfold;
  let E := fresh "E" in
  epose proof (subscript_dict_at _ _ _ k _ H) as E;
  edestruct E as (w & -> & Hw); [field_in|]; clear E; lazy beta iota.

Lemma for_return_app {A B : Type} (xs ys : list A) (body : A → M (option B)) σ σ' :
  for_return xs body σ = (Ok None, σ') →
  for_return (xs ++ ys) body σ = for_return ys body σ'.
Proof.
  revert σ. induction xs as [|x xs IH]; intros σ; simpl.
  - by intros [= <-].
  - rewrite !bind_unfold. destruct (body x σ) as [[[b|]|e] σ1]; try done. apply IH.
Qed.

Lemma iterate_list σ elems v :
  Shape.list_at σ eq elems v → iterate v σ = (Ok (IVal <$> elems), σ).
Proof.
  intros Hv. destruct (iterate_list_at _ _ _ _ Hv) as (elems' & -> & Heq).
  apply list_eq_Forall2 in Heq. by subst.
Qed.

(** X9: [get_snow_depth_at_altitude] stops at the first record at the
    queried altitude: it returns that record's [value] as it is stored,
    whatever follows the record in its list and whatever follows its
    exposition in the document, be it no [dict] at all. *)
Theorem get_snow_depth_at_altitude_stops_at_match
    self raw σ a infos before hit after depths pre found post v :
  wrappers σ !! self = Some raw →
  Shape.dict_at σ
    [("properties",
      Shape.dict_at σ
        [("total_snow_per_exposition", Shape.list_at σ eq (before ++ hit :: after))])]
    raw →
  Forall2 (Shape.total_snow_per_exposition σ) infos before →
  Forall (λ info, misses a (TotalSnowPerExposition.total_snow_depth info)) infos →
  Shape.dict_at σ [("total_snow_depth", Shape.list_at σ eq (pre ++ found :: post))] hit →
  Forall2 (Shape.snow_depth σ) depths pre →
  misses a depths →
  Shape.dict_at σ [("altitude", Shape.int_at a); ("value", eq v)] found →
  SnowObject.get_snow_depth_at_altitude self a σ = (Ok v, σ).
Proof.
  intros Hraw Hd Hbefore Hinfos Hhit Hpre Hdepths Hfound.
  unfold SnowObject.get_snow_depth_at_altitude.
  rewrite !bind_unfold, (raw_data_lookup _ _ _ Hraw).
  read Hd "properties". read Hw "total_snow_per_exposition". rewrite ?bind_unfold.
  rewrite (iterate_list _ _ _ Hw0). unfold fmap at 1, M_fmap. rewrite bind_unfold.
  rewrite fmap_app, (for_return_app _ _ _ σ σ).
  - rewrite fmap_cons. cbn [for_return item_subscript].
    read Hhit "total_snow_depth". rewrite ?bind_unfold, (iterate_list _ _ _ Hw1).
    rewrite fmap_app, (for_return_app _ _ _ σ σ).
    + rewrite fmap_cons. cbn [for_return item_subscript].
      read Hfound "altitude". rewrite Hw2, eq_int_int, Z.eqb_refl.
      read Hfound "value". subst. by run.
    + rewrite (depth_loop_snow_depth _ _ _ _ Hpre).
      apply depth_loop_misses in Hdepths. by rewrite Hdepths.
  - rewrite (exposition_loop_total_snow _ _ _ _ Hbefore).
    apply exposition_loop_misses in Hinfos. by rewrite Hinfos.
Qed.

Lemma get_snow_depth_at_altitude_stops_at_match_witness :
  SnowObject.get_snow_depth_at_altitude 0 1500 store_with_leftovers
  = (Ok (VScalar (SInt 40)), store_with_leftovers).
Proof.
  apply (get_snow_depth_at_altitude_stops_at_match
           0 (VRef 5) store_with_leftovers 1500
           [] [] (VRef 2) [VScalar SNone] [] [] (VRef 0) [VScalar (SStr "n/a")]).
  - reflexivity.
  - eexists _, _. split; [reflexivity|]. split; [reflexivity|].
    constructor; [|constructor]. eexists. split; [reflexivity|]. simpl.
    eexists _, _. split; [reflexivity|]. split; [reflexivity|].
    constructor; [|constructor]. eexists. split; [reflexivity|]. simpl.
    eexists _, _. split; [reflexivity|]. split; [reflexivity|]. by apply list_eq_Forall2.
  - constructor.
  - constructor.
  - eexists _, _. split; [reflexivity|]. split; [reflexivity|].
    constructor; [|constructor]. eexists. split; [reflexivity|]. simpl.
    eexists _, _. split; [reflexivity|]. split; [reflexivity|]. by apply list_eq_Forall2.
  - constructor.
  - constructor.
  - eexists _, _. split; [reflexivity|]. split; [reflexivity|].
    constructor; [eexists; split; [reflexivity|reflexivity]|].
    constructor; [eexists; split; [reflexivity|reflexivity]|]. constructor.
Defined.

(** X10: what the first forecast entry makes [next_rain_date_locale] do,
    in the order the loop body runs: without a [time] the call raises
    [KeyError] before the timezone is looked at; a [time] in a timezone
    the zone database does not know raises the localization error even
    when the entry has no [rain_intensity]; with a known timezone a
    missing [rain_intensity] raises [KeyError]; and when the intensity is
    above 1 the localized time is returned whatever the other entries
    hold. The store is left as it was in every case. *)
Theorem next_rain_date_locale_first_entry
    tzdata int_of_str self raw p σ l items rest :
  wrappers σ !! self = Some raw →
  Shape.dict_at σ [("properties", eq p)] raw →
  Shape.dict_at σ [("forecast", Shape.list_at σ eq (VRef l :: rest))] p →
  objects σ !! l = Some (ODict items) →
  (dict_get (KScalar (SStr "time")) items = None →
   RainObject.next_rain_date_locale tzdata int_of_str self σ
   = (Raise (KeyError (KScalar (SStr "time"))), σ))
  ∧ (∀ n name,
       dict_get (KScalar (SStr "time")) items = Some (VScalar (SInt n)) →
       Shape.dict_at σ [("timezone", Shape.str_at name)] p →
       (tzdata name = None →
        RainObject.next_rain_date_locale tzdata int_of_str self σ
        = (Raise (InvalidTimezone name), σ))
       ∧ (∀ offset,
            tzdata name = Some offset →
            (dict_get (KScalar (SStr "rain_intensity")) items = None →
             RainObject.next_rain_date_locale tzdata int_of_str self σ
             = (Raise (KeyError (KScalar (SStr "rain_intensity"))), σ))
            ∧ (∀ r,
                 dict_get (KScalar (SStr "rain_intensity")) items
                 = Some (VScalar (SInt r)) →
                 (1 < r)%Z →
                 RainObject.next_rain_date_locale tzdata int_of_str self σ
                 = (Ok (Some {| instant := n; utcoffset := offset n; tzname := name |}),
                    σ)))).
Proof.
  intros Hraw Hd Hp Hl.
  assert (Hstart :
    RainObject.next_rain_date_locale tzdata int_of_str self σ
    = (r ← (t ← subscript (VRef l) "time";
          n ← int int_of_str t;
          forecast_time ← RainObject.timestamp_to_locale_time tzdata self (VScalar (SInt n));
          r ← subscript (VRef l) "rain_intensity";
          rainy ← gt_int r 1;
          if rainy : bool then mret (Some forecast_time) else mret None);
     match r with
     | Some b => mret (Some b)
     | None =>
         for_return (IVal <$> rest) (λ forecast,
           t ← item_subscript forecast "time";
           n ← int int_of_str t;
           forecast_time ←
             RainObject.timestamp_to_locale_time tzdata self (VScalar (SInt n));
           r ← item_subscript forecast "rain_intensity";
           rainy ← gt_int r 1;
           if rainy : bool then mret (Some forecast_time) else mret None)
     end) σ).
  { unfold RainObject.next_rain_date_locale, RainObject.forecasts.
    rewrite !bind_unfold, (raw_data_lookup _ _ _ Hraw).
    read Hd "properties". subst w. read Hp "forecast". rewrite ?bind_unfold.
    by rewrite (iterate_list _ _ _ Hw). }
  assert (Hsub : ∀ k, subscript (VRef l) k σ
                      = match dict_get (KScalar (SStr k)) items with
                        | Some v => (Ok v, σ)
                        | None => (Raise (KeyError (KScalar (SStr k))), σ)
                        end).
  { intros k. unfold subscript. rewrite bind_unfold. unfold load. rewrite Hl.
    by destruct (dict_get _ _). }
  split.
  - intros Htime. rewrite Hstart. run. by rewrite Hsub, Htime.
  - intros n name Htime Hzone.
    assert (Htz : RainObject.timezone self σ = (Ok (VScalar (SStr name)), σ)).
    { unfold RainObject.timezone. rewrite bind_unfold, (raw_data_lookup _ _ _ Hraw).
      read Hd "properties". subst w. read Hzone "timezone". by rewrite Hw. }
    split.
    + intros Hnone. rewrite Hstart. run. rewrite Hsub, Htime. cbn [int]. run.
      unfold RainObject.timestamp_to_locale_time. run. rewrite Htz.
      unfold RainObject.localize, timestamp_to_dateime_with_locale_tz. by rewrite Hnone.
    + intros offset Hsome. split.
      * intros Hintensity. rewrite Hstart. run. rewrite Hsub, Htime. cbn [int]. run.
        unfold RainObject.timestamp_to_locale_time. run. rewrite Htz.
        unfold RainObject.localize, timestamp_to_dateime_with_locale_tz. rewrite Hsome.
        run. by rewrite Hsub, Hintensity.
      * intros r Hintensity Hr. rewrite Hstart. run. rewrite Hsub, Htime.
        cbn [int]. run.
        unfold RainObject.timestamp_to_locale_time. run. rewrite Htz.
        unfold RainObject.localize, timestamp_to_dateime_with_locale_tz. rewrite Hsome.
        run. rewrite Hsub, Hintensity. run. rewrite gt_int_int.
        apply Z.ltb_lt in Hr. by rewrite Hr.
Qed.

Lemma next_rain_date_locale_first_entry_witness :
  RainObject.next_rain_date_locale fixed_zones plain_decimal 0 store_with_shower
  = (Ok (Some {| instant := 1702568100; utcoffset := 0; tzname := "UTC" |}),
     store_with_shower)
  ∧ RainObject.next_rain_date_locale (λ _, None) plain_decimal 0 store_with_shower
    = (Raise (InvalidTimezone "UTC"), store_with_shower).
Proof.
  assert (Hproperties :
    Shape.dict_at store_with_shower [("properties", eq (VRef 2))] (VRef 3)).
  { eexists _, _. split; [reflexivity|]. split; [reflexivity|].
    constructor; [|constructor]. eexists. split; reflexivity. }
  assert (Hforecast :
    Shape.dict_at store_with_shower
      [("forecast", Shape.list_at store_with_shower eq [VRef 0; VScalar SNone])] (VRef 2)).
  { eexists _, _. split; [reflexivity|]. split; [reflexivity|].
    constructor; [|constructor]. eexists. split; [reflexivity|]. simpl.
    eexists _, _. split; [reflexivity|]. split; [reflexivity|]. by apply list_eq_Forall2. }
  assert (Hzone :
    Shape.dict_at store_with_shower [("timezone", Shape.str_at "UTC")] (VRef 2)).
  { eexists _, _. split; [reflexivity|]. split; [reflexivity|].
    constructor; [|constructor]. eexists. split; reflexivity. }
  split.
  - destruct (next_rain_date_locale_first_entry fixed_zones plain_decimal
                0 (VRef 3) (VRef 2) store_with_shower 0 _ [VScalar SNone]
                eq_refl Hproperties Hforecast eq_refl) as [_ Hentry].
    destruct (Hentry 1702568100%Z "UTC" eq_refl Hzone) as [_ Hknown].
    destruct (Hknown (λ _, 0%Z) eq_refl) as [_ Hrainy].
    apply (Hrainy 3%Z eq_refl). lia.
  - destruct (next_rain_date_locale_first_entry (λ _, None) plain_decimal
                0 (VRef 3) (VRef 2) store_with_shower 0 _ [VScalar SNone]
                eq_refl Hproperties Hforecast eq_refl) as [_ Hentry].
    destruct (Hentry 1702568100%Z "UTC" eq_refl Hzone) as [Hunknown _].
    by apply Hunknown.
Defined.

(** ** Every call on a document of the declared type *)

Lemma discard_returns {A : Type} (m : M A) a σ σ' :
  m σ = (Ok a, σ') → Calls.discard m σ = (Ok (), σ').
Proof. intros Hm. unfold Calls.discard. by rewrite bind_unfold, Hm. Qed.

(** A call that returns, its result dropped. *)
Ltac returns_by tac :=
  lazymatch goal with
  | |- (Calls.discard ?m ?σ).1 = Ok () =>
      let Hm := fresh "Hm" in
      assert (∃ a, m σ = (Ok a, σ)) as [? Hm];
      [tac; by eexists|by rewrite (discard_returns _ _ _ _ Hm)]
  end.

(** An accessor that reads one key of [properties]. *)
Ltac property Hraw Hd accessor k :=
  unfold accessor; rewrite bind_unfold, (raw_data_lookup _ _ _ Hraw);
  read Hd "properties";
  lazymatch goal with
  | H : Shape.rain_properties_data _ _ _ |- _ => read H k
  end.

Lemma next_rain_loop_returns tzdata self forecasts :
  is_Some (tzdata (Rain.timezone self)) →
  ∃ r, Rain.next_rain_loop tzdata self forecasts = Ok r.
Proof.
  intros [offset Hzone]. induction forecasts as [|f fs [r IH]]; [by exists None|].
  simpl. unfold Rain.timestamp_to_locale_time, timestamp_to_dateime_with_locale_tz.
  rewrite Hzone. simpl. destruct (1 <? _)%Z; eauto.
Qed.

(** X11: on a [SnowData] document that has the declared keys with
    values of the declared types, no method of [Snow] raises: the
    methods read no key the declarations leave out. *)
Theorem snow_calls_return tzdata int_of_str d c σ :
  ((self ← Load.snow d; Calls.invoke tzdata int_of_str self (Calls.OnSnow c)) σ).1
  = Ok ().
Proof.
  destruct (snow_wrapped d σ) as (raw & σ1 & Hself & Hraw & Hd).
  run. rewrite Hself.
  destruct c as [| |a| |v| | | |]; cbn [Calls.invoke Calls.invoke_snow].
  - returns_by ltac:(unfold SnowObject.get_massif_name;
                     rewrite bind_unfold, (raw_data_lookup _ _ _ Hraw);
                     read Hd "properties"; read Hw "massif_name").
  - returns_by ltac:(unfold SnowObject.get_max_avalanche_risk;
                     rewrite bind_unfold, (raw_data_lookup _ _ _ Hraw);
                     read Hd "properties"; read Hw "massif_avalanche_risk";
                     read Hw0 "avalanche_risk_max").
  - by erewrite discard_returns;
      [|apply (get_snow_depth_at_altitude_snow_data _ _ _ _ _ Hraw Hd)].
  - destruct (get_available_altitudes_snow_data _ _ _ _ Hraw Hd) as (zs & Hrun).
    by erewrite discard_returns.
  - by erewrite discard_returns;
      [|apply (get_avalanche_risk_by_location_value_snow_data _ _ _ _ _ Hraw Hd)].
  - by erewrite discard_returns; [|apply (get_snow_depths_snow_data _ _ _ _ Hraw Hd)].
  - destruct (get_snow_limits_snow_data _ _ _ _ Hraw Hd) as (items & Hrun & _).
    by erewrite discard_returns.
  - destruct (get_avalanche_risks_snow_data _ _ _ _ Hraw Hd) as (items & Hrun & _).
    by erewrite discard_returns.
  - destruct (get_fresh_snow_snow_data _ _ _ _ Hraw Hd) as (outer & inners & Hrun & _).
    by erewrite discard_returns.
Qed.

(** X12: on a [RainData] document that has the declared keys with
    values of the declared types, the plain accessors never raise, and
    [update_time], [timestamp_to_locale_time] on an [int] and
    [next_rain_date_locale] return whenever the document's timezone is
    one the zone database knows. *)
Theorem rain_calls_return tzdata int_of_str d c σ :
  (Calls.projection (Calls.OnRain c) = true
   ∨ (is_Some (tzdata (RainPropertiesData.timezone (RainData.properties d)))
      ∧ ∀ v, c = Calls.timestamp_to_locale_time v → ∃ n, v = VScalar (SInt n))) →
  ((self ← Load.rain d; Calls.invoke tzdata int_of_str self (Calls.OnRain c)) σ).1
  = Ok ().
Proof.
  intros Hc. destruct (rain_wrapped d σ) as (raw & σ1 & Hself & Hraw & Hd).
  run. rewrite Hself.
  assert (Hlocal : ∀ n,
    is_Some (tzdata (RainPropertiesData.timezone (RainData.properties d))) →
    ∃ t, RainObject.timestamp_to_locale_time tzdata (length (wrappers σ))
           (VScalar (SInt n)) σ1 = (Ok t, σ1)).
  { intros n [offset Hzone]. unfold RainObject.timestamp_to_locale_time.
    rewrite bind_unfold, (timezone_rain_data _ _ _ _ Hraw Hd).
    unfold RainObject.localize, timestamp_to_dateime_with_locale_tz.
    unfold Rain.timezone. simpl. rewrite Hzone. eauto. }
  destruct c as [| | | | | | | | | |v|]; cbn [Calls.invoke Calls.invoke_rain].
  - destruct Hc as [Hc|[Hzone _]]; [done|].
    unfold RainObject.update_time.
    destruct (Hlocal (RainData.update_time d) Hzone) as [t Ht].
    erewrite discard_returns; [done|].
    rewrite bind_unfold, (raw_data_lookup _ _ _ Hraw).
    read Hd "update_time". rewrite Hw. exact Ht.
  - returns_by ltac:(unfold RainObject.geometry;
                     rewrite bind_unfold, (raw_data_lookup _ _ _ Hraw);
                     read Hd "geometry").
  - returns_by ltac:(property Hraw Hd RainObject.altitude "altitude").
  - returns_by ltac:(property Hraw Hd RainObject.location_name "name").
  - returns_by ltac:(property Hraw Hd RainObject.country "country").
  - returns_by ltac:(property Hraw Hd RainObject.french_department "french_department").
  - returns_by ltac:(property Hraw Hd RainObject.rain_product_available "rain_product_available").
  - returns_by ltac:(property Hraw Hd RainObject.timezone "timezone").
  - returns_by ltac:(property Hraw Hd RainObject.confidence "confidence").
  - returns_by ltac:(property Hraw Hd RainObject.forecasts "forecast").
  - destruct Hc as [Hc|[Hzone Hv]]; [done|]. destruct (Hv v eq_refl) as [n ->].
    destruct (Hlocal n Hzone) as [t Ht]. by erewrite discard_returns.
  - destruct Hc as [Hc|[Hzone _]]; [done|].
    destruct (next_rain_loop_returns tzdata (Rain.__init__ d)
                (Rain.forecasts (Rain.__init__ d)) Hzone) as [r Hr].
    erewrite discard_returns; [done|].
    rewrite (next_rain_date_locale_rain_data _ _ _ _ _ _ Hraw Hd).
    unfold Rain.next_rain_date_locale. by rewrite Hr.
Qed.

Lemma rain_calls_return_witness :
  ((self ← Load.rain (rain_document "UTC" [dry_at 1702568100; rain_at 1702568400 3]);
    Calls.invoke fixed_zones plain_decimal self (Calls.OnRain Calls.next_rain_date_locale))
     {| objects := []; wrappers := [] |}).1
  = Ok ().
Proof.
  apply rain_calls_return. right. split.
  - exists (λ _, 0%Z). reflexivity.
  - intros v Hv. discriminate Hv.
Defined.

(** X20: [get_snow_limits] keeps nothing between calls: called twice on
    the same wrapper it returns two different [dict] objects, each
    reading as the same mapping, and the second call leaves the first
    result as it was. *)
Theorem get_snow_limits_twice d σ :
  ∃ l1 l2 σ' items1 items2,
    (self ← Load.snow d;
     first ← SnowObject.get_snow_limits self;
     second ← SnowObject.get_snow_limits self;
     mret (first, second)) σ
    = (Ok (VRef l1, VRef l2), σ')
    ∧ l1 ≠ l2
    ∧ objects σ' !! l1 = Some (ODict items1)
    ∧ objects σ' !! l2 = Some (ODict items2)
    ∧ int_map (Snow.get_snow_limits (Snow.__init__ d)) items1
    ∧ int_map (Snow.get_snow_limits (Snow.__init__ d)) items2.
Proof.
  destruct (snow_wrapped d σ) as (raw & σ1 & Hself & Hraw & Hd).
  destruct (get_snow_limits_snow_data _ _ _ _ Hraw Hd) as (items1 & Hfirst & Hitems1).
  assert (Hd2 : Shape.snow_data (grown σ1 [ODict items1]) d raw).
  { apply (snow_data_within σ1); [|done]. apply within_grown, within_refl. }
  destruct (get_snow_limits_snow_data (length (wrappers σ)) raw d
              (grown σ1 [ODict items1]) Hraw Hd2) as (items2 & Hsecond & Hitems2).
  eexists _, _, _, items1, items2. split; [|split; [|split; [|split]]].
  - run. rewrite Hself. run. rewrite Hfirst. run. rewrite Hsecond. reflexivity.
  - simpl. rewrite length_app. simpl. lia.
  - simpl. rewrite lookup_app_l by (rewrite length_app; simpl; lia).
    by rewrite lookup_app_r, Nat.sub_diag.
  - simpl. by rewrite lookup_app_r, Nat.sub_diag.
  - done.
Qed.
End ObjectRuns.
